(** * Ledger and settlement engine of the fantasy-sports trading platform

    A shallow embedding of the money- and ownership-mutating functions of
    [db.py]: [execute_transaction], [respond_to_trade_offer],
    [is_user_verified_adult], [place_bet], [create_parlay_bet] and
    [simulate_game_result], over an explicit model of the SQL tables they
    read and write; then of [create_trade_offer], [verify_user_age], the
    friend, competition and fantasy-team functions of the same file, and
    the loops of [app.py] that buy and sell several shares.

    Tables.  A table is the list of its rows, in the order the queries
    return them; a [SERIAL] id is drawn from a counter kept with the
    table.  Columns that no modelled statement reads or writes are left
    out ([users.email], [users.password], [holdings.purchase_price], the
    [created_at] and [updated_at] stamps, [transactions.timestamp]).
    [NULL] is modelled where the code tests for it ([is_verified_adult],
    [recipient_id], the [user_id] of an offered asset).

    Numbers.  [NUMERIC] columns are exact rationals ([Q]), and so are the
    prices and stakes the callers pass, which are amounts of whole cents;
    [INTEGER] and [SERIAL] columns are [Z].  Where the code computes a
    value in floats and stores it in a [NUMERIC(10, 2)] column, the model
    computes it in binary64 floats and rounds it as it is stored: the cost
    basis of a sale is [float] of the average and the profit a difference
    of two floats, each written as the parameter of the [INSERT] and
    rounded by the column to cents, half away from zero; the potential
    payout of a bet is a product of floats, rounded by Python's [round].
    Text columns are strings and are compared the way the SQL and
    the Python compare them.  [upcoming_games.game_date] is a number that the
    betting queries compare with [CURRENT_TIMESTAMP], an explicit argument
    [now].

    Effects.  Every function takes the database and returns its result
    with the database it leaves.  Statements do not fail, and on every
    refusal path the code returns before its first write, so that leaving
    the transaction open undoes nothing.  One call does fail, and is
    modelled: [conn.begin()] on a connection that has already begun a
    transaction, in [respond_to_trade_offer].  The scores that
    [simulate_game_result] draws at random are arguments. *)

From Stdlib Require Import List String ZArith QArith Qround Bool Lia Lqa Permutation.
From Stdlib Require Import Floats.SpecFloat.
Import ListNotations.

Local Open Scope string_scope.
Local Open Scope list_scope.

(** ** SQL statements over a table held as the list of its rows *)

Module Sql.
Section Table.
Context {row : Type}.

(** [SELECT * FROM t WHERE w] *)
Definition select (w : row -> bool) (t : list row) : list row := filter w t.

(** [.fetchone()] : the first row of a result, [None] when it is empty. *)
Definition fetchone (rs : list row) : option row := hd_error rs.

(** [UPDATE t SET ... WHERE w] *)
Definition update (w : row -> bool) (set : row -> row) (t : list row) : list row :=
  map (fun r => if w r then set r else r) t.

(** [DELETE FROM t WHERE w] *)
Definition delete (w : row -> bool) (t : list row) : list row :=
  filter (fun r => negb (w r)) t.

(** [INSERT INTO t VALUES r] *)
Definition insert (r : row) (t : list row) : list row := t ++ [r].

(** [SELECT COUNT( * ) FROM t WHERE w] *)
Definition count (w : row -> bool) (t : list row) : Z := Z.of_nat (List.length (filter w t)).
End Table.

(** [x < y] on numerics. *)
Definition Qlt_bool (x y : Q) : bool := negb (Qle_bool y x).

(** [SUM(xs)] and [AVG(xs)]; the aggregate of no row is [NULL]. *)
Definition Qsum (xs : list Q) : Q := fold_right Qplus 0%Q xs.

Definition avg (xs : list Q) : option Q :=
  match xs with
  | [] => None
  | _ :: _ => Some (Qsum xs / inject_Z (Z.of_nat (List.length xs)))%Q
  end.

(** A value stored in a [NUMERIC(10, 2)] column: PostgreSQL rounds it to two
    decimals, ties away from zero. *)
Definition round_half_away (q : Q) : Z :=
  let n := Qnum q in
  let den := Z.pos (Qden q) in
  (Z.sgn n * ((2 * Z.abs n + den) / (2 * den)))%Z.

Definition numeric2 (q : Q) : Q := Qmake (round_half_away (q * (100 # 1))) 100.
End Sql.

(** ** The connection *)

Module Connection.

(** What the code relies on of a SQLAlchemy connection: whether it has a
    transaction open.  A new connection has none; the first [execute]
    begins one on its own, and [commit] ends it. *)
Definition connect : bool := false.
Definition execute (in_transaction : bool) : bool := true.
Definition commit (in_transaction : bool) : bool := false.

(** [conn.begin()]: it raises [InvalidRequestError] on a connection that
    has a transaction open already; [None] stands for the exception. *)
Definition begin (in_transaction : bool) : option bool :=
  if in_transaction then None else Some true.

End Connection.

(** ** Python floats *)

Module Binary64.

(** A Python float is an IEEE 754 binary64 number; the arithmetic is that
    of the Standard Library's specification of floating-point numbers. *)
Definition prec : Z := 53.
Definition emax : Z := 1024.
Definition float := spec_float.

(** [float(x)] of a decimal, and a decimal literal such as [1.91]: the
    float nearest to the rational, ties to even. *)
Definition of_Q (q : Q) : float :=
  match Qnum q with
  | Z0 => S754_zero false
  | Zpos n => SFdiv prec emax (S754_finite false n 0) (S754_finite false (Qden q) 0)
  | Zneg n => SFdiv prec emax (S754_finite true n 0) (S754_finite false (Qden q) 0)
  end.

(** [x * y] *)
Definition mul (x y : float) : float := SFmul prec emax x y.

(** [x - y] *)
Definition sub (x y : float) : float := SFsub prec emax x y.

(** The number a finite float stands for; a product of stakes and odds,
    and a difference of prices, which are [NUMERIC(10, 2)] amounts, are
    finite. *)
Definition to_Q (x : float) : Q :=
  match x with
  | S754_finite s m e =>
      let v := match e with
               | Z0 => inject_Z (Z.pos m)
               | Zpos p => inject_Z (Z.pos m * 2 ^ Z.pos p)
               | Zneg p => Z.pos m # (2 ^ p)
               end in
      if s then (- v)%Q else v
  | _ => 0
  end.

(** A float bound to a parameter that a [NUMERIC(10, 2)] column stores.
    The driver writes the float as Python prints it, the shortest decimal
    that reads back as the same float, and the column rounds that decimal
    to cents, half away from zero.  The decimal lies as close to the float
    as its neighbours allow, far closer than a cent for amounts that the
    column can hold; so it rounds as the float's own value does, unless the
    half-cent point next to that value reads back as the float: then the
    half-cent point is the decimal written, and it rounds away from
    zero. *)
Definition to_numeric2 (x : float) : Q :=
  let q := to_Q x in
  let half_cent := Qmake (2 * Qfloor (q * (100 # 1)) + 1) 200 in
  if SFeqb (of_Q half_cent) x then Sql.numeric2 half_cent else Sql.numeric2 q.

End Binary64.

(** ** The tables *)

Module Users.
Record row := mk {
  id : string;                        (* VARCHAR(20) PRIMARY KEY *)
  username : string;
  wallet_balance : Q;                 (* NUMERIC(10, 2) *)
  is_verified_adult : option bool     (* BOOLEAN DEFAULT FALSE, nullable *)
}.
Definition add_wallet_balance (x : Q) (r : row) : row :=
  mk (id r) (username r) (wallet_balance r + x)%Q (is_verified_adult r).
Definition sub_wallet_balance (x : Q) (r : row) : row :=
  mk (id r) (username r) (wallet_balance r - x)%Q (is_verified_adult r).
Definition has_id (u : string) (r : row) : bool := (id r =? u)%string.
End Users.

Module Holdings.
Record row := mk {
  id : Z;                             (* SERIAL PRIMARY KEY *)
  user_id : string;
  asset_name : string;
  asset_type : string;
  quantity : Z                        (* INTEGER *)
}.
Definition add_quantity (q : Z) (r : row) : row :=
  mk (id r) (user_id r) (asset_name r) (asset_type r) (quantity r + q)%Z.
Definition has_id (i : Z) (r : row) : bool := (id r =? i)%Z.
(** [WHERE user_id = :user_id AND asset_type = :asset_type AND asset_name = :asset_name] *)
Definition is_asset (u ty n : string) (r : row) : bool :=
  (user_id r =? u)%string && (asset_type r =? ty)%string && (asset_name r =? n)%string.
End Holdings.

Module Transactions.
Record row := mk {
  transaction_type : string;          (* 'Buy' or 'Sell' *)
  user_id : string;
  asset_type : string;
  asset_name : string;
  price : Q;
  quantity : Z;
  purchase_price : Q;
  profit_loss : Q
}.
(** The [WHERE] clause of the cost-basis query. *)
Definition is_buy_of (u ty n : string) (r : row) : bool :=
  (user_id r =? u)%string && (asset_type r =? ty)%string
  && (asset_name r =? n)%string && (transaction_type r =? "Buy")%string.
End Transactions.

Module TradeOffers.
Record row := mk {
  id : Z;
  sender_id : string;
  recipient_id : option string;       (* NULL for an open offer *)
  status : string                     (* DEFAULT 'pending' *)
}.
Definition set_status (s : string) (r : row) : row :=
  mk (id r) (sender_id r) (recipient_id r) s.
Definition has_id (i : Z) (r : row) : bool := (id r =? i)%Z.
End TradeOffers.

Module TradeOfferAssets.
Record row := mk {
  trade_offer_id : Z;
  user_id : option string;
  asset_type : string;
  asset_name : string;
  quantity : Z
}.
End TradeOfferAssets.

Module Games.
Record row := mk {
  id : Z;
  home_team : string;
  away_team : string;
  game_date : Z;                      (* TIMESTAMP *)
  home_odds : Q;
  away_odds : Q;
  spread : Q;                         (* NUMERIC(5, 1) *)
  over_under : Q;                     (* NUMERIC(5, 1) *)
  status : string;                    (* DEFAULT 'scheduled' *)
  home_score : Z;
  away_score : Z
}.
Definition has_id (i : Z) (r : row) : bool := (id r =? i)%Z.
Definition complete (hs as_ : Z) (r : row) : row :=
  mk (id r) (home_team r) (away_team r) (game_date r) (home_odds r) (away_odds r)
     (spread r) (over_under r) "completed" hs as_.
End Games.

Module Bets.
Record row := mk {
  id : Z;
  user_id : string;
  game_id : Z;
  bet_type : string;                  (* 'moneyline', 'spread', 'over_under' *)
  bet_pick : string;                  (* 'home', 'away', 'over', 'under' *)
  amount : Q;
  potential_payout : Q;
  odds : Q;
  status : string                     (* 'pending', 'won', 'lost', 'canceled' *)
}.
Definition set_status (s : string) (r : row) : row :=
  mk (id r) (user_id r) (game_id r) (bet_type r) (bet_pick r) (amount r)
     (potential_payout r) (odds r) s.
Definition has_id (i : Z) (r : row) : bool := (id r =? i)%Z.
End Bets.

Module Parlays.
Record row := mk {
  id : Z;
  user_id : string;
  amount : Q;
  potential_payout : Q;
  status : string
}.
Definition set_status (s : string) (r : row) : row :=
  mk (id r) (user_id r) (amount r) (potential_payout r) s.
Definition has_id (i : Z) (r : row) : bool := (id r =? i)%Z.
End Parlays.

Module ParlayBets.
Record row := mk {
  id : Z;
  parlay_id : Z;
  game_id : Z;
  bet_type : string;
  bet_pick : string;
  odds : Q;
  status : string                     (* DEFAULT 'pending' *)
}.
Definition set_status (s : string) (r : row) : row :=
  mk (id r) (parlay_id r) (game_id r) (bet_type r) (bet_pick r) (odds r) s.
Definition has_id (i : Z) (r : row) : bool := (id r =? i)%Z.
End ParlayBets.

(** The database: every table the engine touches, and the [SERIAL]
    sequences of the tables whose generated ids the code reads back. *)
Record db := mkdb {
  users : list Users.row;
  holdings : list Holdings.row;
  holdings_seq : Z;
  transactions : list Transactions.row;
  trade_offers : list TradeOffers.row;
  trade_offer_assets : list TradeOfferAssets.row;
  upcoming_games : list Games.row;
  user_bets : list Bets.row;
  user_bets_seq : Z;
  parlays : list Parlays.row;
  parlays_seq : Z;
  parlay_bets : list ParlayBets.row;
  parlay_bets_seq : Z
}.

Definition with_users (f : list Users.row -> list Users.row) (d : db) : db :=
  mkdb (f (users d)) (holdings d) (holdings_seq d) (transactions d) (trade_offers d)
       (trade_offer_assets d) (upcoming_games d) (user_bets d) (user_bets_seq d)
       (parlays d) (parlays_seq d) (parlay_bets d) (parlay_bets_seq d).

Definition with_holdings (f : list Holdings.row -> list Holdings.row) (d : db) : db :=
  mkdb (users d) (f (holdings d)) (holdings_seq d) (transactions d) (trade_offers d)
       (trade_offer_assets d) (upcoming_games d) (user_bets d) (user_bets_seq d)
       (parlays d) (parlays_seq d) (parlay_bets d) (parlay_bets_seq d).

Definition with_transactions
    (f : list Transactions.row -> list Transactions.row) (d : db) : db :=
  mkdb (users d) (holdings d) (holdings_seq d) (f (transactions d)) (trade_offers d)
       (trade_offer_assets d) (upcoming_games d) (user_bets d) (user_bets_seq d)
       (parlays d) (parlays_seq d) (parlay_bets d) (parlay_bets_seq d).

Definition with_trade_offers
    (f : list TradeOffers.row -> list TradeOffers.row) (d : db) : db :=
  mkdb (users d) (holdings d) (holdings_seq d) (transactions d) (f (trade_offers d))
       (trade_offer_assets d) (upcoming_games d) (user_bets d) (user_bets_seq d)
       (parlays d) (parlays_seq d) (parlay_bets d) (parlay_bets_seq d).

Definition with_upcoming_games (f : list Games.row -> list Games.row) (d : db) : db :=
  mkdb (users d) (holdings d) (holdings_seq d) (transactions d) (trade_offers d)
       (trade_offer_assets d) (f (upcoming_games d)) (user_bets d) (user_bets_seq d)
       (parlays d) (parlays_seq d) (parlay_bets d) (parlay_bets_seq d).

Definition with_user_bets (f : list Bets.row -> list Bets.row) (d : db) : db :=
  mkdb (users d) (holdings d) (holdings_seq d) (transactions d) (trade_offers d)
       (trade_offer_assets d) (upcoming_games d) (f (user_bets d)) (user_bets_seq d)
       (parlays d) (parlays_seq d) (parlay_bets d) (parlay_bets_seq d).

Definition with_parlays (f : list Parlays.row -> list Parlays.row) (d : db) : db :=
  mkdb (users d) (holdings d) (holdings_seq d) (transactions d) (trade_offers d)
       (trade_offer_assets d) (upcoming_games d) (user_bets d) (user_bets_seq d)
       (f (parlays d)) (parlays_seq d) (parlay_bets d) (parlay_bets_seq d).

Definition with_parlay_bets (f : list ParlayBets.row -> list ParlayBets.row) (d : db) : db :=
  mkdb (users d) (holdings d) (holdings_seq d) (transactions d) (trade_offers d)
       (trade_offer_assets d) (upcoming_games d) (user_bets d) (user_bets_seq d)
       (parlays d) (parlays_seq d) (f (parlay_bets d)) (parlay_bets_seq d).

(** [INSERT INTO holdings (user_id, asset_type, asset_name, quantity)]: the
    id is the next value of the table's sequence. *)
Definition insert_holding (u ty n : string) (q : Z) (d : db) : db :=
  mkdb (users d)
       (Sql.insert (Holdings.mk (holdings_seq d) u n ty q) (holdings d))
       (holdings_seq d + 1)%Z
       (transactions d) (trade_offers d)
       (trade_offer_assets d) (upcoming_games d) (user_bets d) (user_bets_seq d)
       (parlays d) (parlays_seq d) (parlay_bets d) (parlay_bets_seq d).

(** [UPDATE users SET wallet_balance = wallet_balance + :x WHERE id = :user_id] *)
Definition credit_wallet (u : string) (x : Q) : db -> db :=
  with_users (Sql.update (Users.has_id u) (Users.add_wallet_balance x)).

(** [UPDATE users SET wallet_balance = wallet_balance - :x WHERE id = :user_id] *)
Definition debit_wallet (u : string) (x : Q) : db -> db :=
  with_users (Sql.update (Users.has_id u) (Users.sub_wallet_balance x)).

(** [SELECT ... FROM users WHERE id = :user_id], [.fetchone()] *)
Definition fetch_user (u : string) (d : db) : option Users.row :=
  Sql.fetchone (Sql.select (Users.has_id u) (users d)).

(** [SELECT id, quantity FROM holdings WHERE user_id = ... AND asset_type = ...
    AND asset_name = ...], [.fetchone()] *)
Definition fetch_holding (u ty n : string) (d : db) : option Holdings.row :=
  Sql.fetchone (Sql.select (Holdings.is_asset u ty n) (holdings d)).

(** ** Buying and selling: [execute_transaction] *)

Module Ledger.

Inductive message :=
| UserNotFound (user_id : string)              (* "User {user_id} not found" *)
| InsufficientFunds (need have : Q)            (* "Insufficient funds. Need $.., but you have $.." *)
| Bought (asset_name : string) (price : Q)     (* "Successfully bought 1 share of .. for $.." *)
| NoSharesToSell (asset_name : string)         (* "You don't own any shares of .. to sell" *)
| Sold (asset_name : string) (price : Q)       (* "Successfully sold 1 share of .. for $.." *)
| InvalidTransactionType.                      (* "Invalid transaction type" *)

(** The first block of [execute_transaction]: the demo account is created,
    with a balance of 300.00, when it does not exist yet; this insert is
    committed on its own. *)
Definition ensure_demo_user (user_id : string) (d : db) : db :=
  if (user_id =? "demo_user_001")%string then
    match fetch_user user_id d with
    | Some _ => d
    | None =>
        with_users (Sql.insert (Users.mk user_id "Demo User" (300 # 1) (Some false))) d
    end
  else d.

(** The cost basis of a sale: [AVG(price)] over the user's 'Buy' rows of the
    asset.  [purchase_result[0]] is tested for truth, so both [NULL] and a
    zero average select the sale price. *)
Definition avg_purchase_price (user_id asset_type asset_name : string) (price : Q)
    (d : db) : Q :=
  match Sql.avg (map Transactions.price
                   (Sql.select (Transactions.is_buy_of user_id asset_type asset_name)
                               (transactions d))) with
  | Some a => if Qeq_bool a 0 then price else a
  | None => price
  end.

(** [execute_transaction]; the [users] and [holdings] dataframes it takes
    and returns are reloads of the tables and are left out.  The cost basis
    and the profit of a sale are floats, [float(purchase_result[0])] or
    [float(price)], and [float(price) - avg_purchase_price]: the
    [NUMERIC(10, 2)] columns [purchase_price] and [profit_loss] hold them
    rounded to cents, each on its own. *)
Definition execute_transaction
    (user_id asset_type asset_name transaction_type : string) (price : Q) (d0 : db)
    : (bool * message) * db :=
  let d := ensure_demo_user user_id d0 in
  match fetch_user user_id d with
  | None => ((false, UserNotFound user_id), d)
  | Some result =>
    let wallet_balance := Users.wallet_balance result in
    if (transaction_type =? "buy")%string then
      if Sql.Qlt_bool wallet_balance price then
        ((false, InsufficientFunds price wallet_balance), d)
      else
        let d1 := debit_wallet user_id price d in
        let d2 :=
          match fetch_holding user_id asset_type asset_name d1 with
          | Some existing_holding =>
              with_holdings
                (Sql.update (Holdings.has_id (Holdings.id existing_holding))
                            (Holdings.add_quantity 1)) d1
          | None => insert_holding user_id asset_type asset_name 1 d1
          end in
        let d3 :=
          with_transactions
            (Sql.insert (Transactions.mk "Buy" user_id asset_type asset_name
                                         price 1 price 0)) d2 in
        ((true, Bought asset_name price), d3)
    else if (transaction_type =? "sell")%string then
      match fetch_holding user_id asset_type asset_name d with
      | None => ((false, NoSharesToSell asset_name), d)
      | Some existing_holding =>
        if (Holdings.quantity existing_holding <? 1)%Z then
          ((false, NoSharesToSell asset_name), d)
        else
          let d1 := credit_wallet user_id price d in
          let current_quantity := Holdings.quantity existing_holding in
          let d2 :=
            if (current_quantity =? 1)%Z then
              with_holdings
                (Sql.delete (Holdings.has_id (Holdings.id existing_holding))) d1
            else
              with_holdings
                (Sql.update (Holdings.has_id (Holdings.id existing_holding))
                            (Holdings.add_quantity (-1))) d1 in
          let avg_price :=
            Binary64.of_Q (avg_purchase_price user_id asset_type asset_name price d2) in
          let profit_loss := Binary64.sub (Binary64.of_Q price) avg_price in
          let d3 :=
            with_transactions
              (Sql.insert (Transactions.mk "Sell" user_id asset_type asset_name
                                           price 1 (Binary64.to_numeric2 avg_price)
                                           (Binary64.to_numeric2 profit_loss))) d2 in
          ((true, Sold asset_name price), d3)
      end
    else ((false, InvalidTransactionType), d)
  end.

End Ledger.

(** ** Peer-to-peer trades: [respond_to_trade_offer] *)

Module PeerTrade.

Inductive message :=
| OfferNotFound                                   (* "Trade offer not found or not for you" *)
| AlreadyResponded (status : string)              (* "This trade offer has already been {status}" *)
| Rejected (sender_id : string)                   (* "You have rejected the trade offer from .." *)
| SenderNoLongerHas (quantity : Z) (asset_name : string)
                                                  (* "Sender no longer has {quantity} shares of {asset_name}" *)
| YouNoLongerHave (quantity : Z) (asset_name : string)
                                                  (* "You no longer have {quantity} shares of {asset_name}" *)
| Completed (sender_id : string)                  (* "Trade with .. completed successfully" *)
| ErrorResponding.                                (* "Error responding to trade offer" *)

(** [WHERE id = :offer_id AND recipient_id = :user_id]; a [NULL] recipient
    equals nothing. *)
Definition is_offer_for (offer_id : Z) (user_id : string) (r : TradeOffers.row) : bool :=
  TradeOffers.has_id offer_id r
  && match TradeOffers.recipient_id r with
     | Some u => (u =? user_id)%string
     | None => false
     end.

(** [user == sender_id] on the [user_id] column of an asset row. *)
Definition is_user (ou : option string) (u : string) : bool :=
  match ou with
  | Some v => (v =? u)%string
  | None => false
  end.

(** [WHERE user_id = :user_id AND asset_type = :asset_type AND asset_name =
    :asset_name] with the parameters taken from an asset of the offer. *)
Definition held_by_owner (a : TradeOfferAssets.row) (r : Holdings.row) : bool :=
  match TradeOfferAssets.user_id a with
  | Some u => Holdings.is_asset u (TradeOfferAssets.asset_type a)
                                (TradeOfferAssets.asset_name a) r
  | None => false
  end.

(** The two verification loops: the first asset whose owner has no holdings
    row, or a row with less than the offered quantity, ends the call. *)
Fixpoint verify (refusal : Z -> string -> message)
    (assets : list TradeOfferAssets.row) (d : db) : option message :=
  match assets with
  | [] => None
  | asset :: rest =>
      match Sql.fetchone (Sql.select (held_by_owner asset) (holdings d)) with
      | None =>
          Some (refusal (TradeOfferAssets.quantity asset) (TradeOfferAssets.asset_name asset))
      | Some result =>
          if (Holdings.quantity result <? TradeOfferAssets.quantity asset)%Z then
            Some (refusal (TradeOfferAssets.quantity asset)
                          (TradeOfferAssets.asset_name asset))
          else verify refusal rest d
      end
  end.

(** One iteration of a transfer loop: the asset leaves every holdings row of
    its owner, and is added to the receiver's row, which is created when
    there is none. *)
Definition transfer (receiver : string) (d : db) (asset : TradeOfferAssets.row) : db :=
  let q := TradeOfferAssets.quantity asset in
  let d1 := with_holdings
              (Sql.update (held_by_owner asset) (Holdings.add_quantity (- q))) d in
  match fetch_holding receiver (TradeOfferAssets.asset_type asset)
                      (TradeOfferAssets.asset_name asset) d1 with
  | Some result =>
      with_holdings
        (Sql.update (Holdings.has_id (Holdings.id result)) (Holdings.add_quantity q)) d1
  | None =>
      insert_holding receiver (TradeOfferAssets.asset_type asset)
                     (TradeOfferAssets.asset_name asset) q d1
  end.

(** The swap proper, from the first transfer loop to the removal of the
    emptied holdings. *)
Definition execute_trade (offer_id : Z) (sender_id recipient_id : string)
    (sender_assets recipient_assets : list TradeOfferAssets.row) (d : db) : db :=
  let d1 := fold_left (transfer recipient_id) sender_assets d in
  let d2 := fold_left (transfer sender_id) recipient_assets d1 in
  let d3 := with_trade_offers
              (Sql.update (TradeOffers.has_id offer_id)
                          (TradeOffers.set_status "accepted")) d2 in
  with_holdings (Sql.delete (fun r => (Holdings.quantity r <=? 0)%Z)) d3.

(** [respond_to_trade_offer].  The function works on one connection: its
    first query begins a transaction, which is still open when the accept
    path calls [conn.begin()]; the exception is caught by the handler of
    the function, which reports an error.  The rejection commits as it
    goes and never calls [begin]. *)
Definition respond_to_trade_offer (offer_id : Z) (user_id action : string) (d : db)
    : (bool * message) * db :=
  let conn := Connection.execute Connection.connect in
  match Sql.fetchone (Sql.select (is_offer_for offer_id user_id) (trade_offers d)) with
  | None => ((false, OfferNotFound), d)
  | Some result =>
    let sender_id := TradeOffers.sender_id result in
    let status := TradeOffers.status result in
    if negb (status =? "pending")%string then ((false, AlreadyResponded status), d)
    else if (action =? "reject")%string then
      ((true, Rejected sender_id),
       with_trade_offers
         (Sql.update (TradeOffers.has_id offer_id) (TradeOffers.set_status "rejected")) d)
    else
      match Connection.begin conn with
      | None => ((false, ErrorResponding), d)
      | Some _ =>
        let assets :=
          Sql.select (fun a => (TradeOfferAssets.trade_offer_id a =? offer_id)%Z)
                     (trade_offer_assets d) in
        let sender_assets :=
          filter (fun a => is_user (TradeOfferAssets.user_id a) sender_id) assets in
        let recipient_assets :=
          filter (fun a => negb (is_user (TradeOfferAssets.user_id a) sender_id)) assets in
        match verify SenderNoLongerHas sender_assets d with
        | Some refusal => ((false, refusal), d)
        | None =>
          match verify YouNoLongerHave recipient_assets d with
          | Some refusal => ((false, refusal), d)
          | None =>
            (* [recipient_id] of the offer row equals [user_id] by the first query *)
            ((true, Completed sender_id),
             execute_trade offer_id sender_id user_id sender_assets recipient_assets d)
          end
        end
      end
  end.

End PeerTrade.

(** ** Wagering: [is_user_verified_adult], [place_bet], [create_parlay_bet] *)

Module Wagering.

Inductive message :=
| MustBe21                                     (* "You must be 21 or older to place bets. Please verify your age first." *)
| GameClosed                                   (* "Game not found or betting is closed for this game." *)
| ParlayGameClosed (game_id : Z)               (* "Game {game_id} not found or betting is closed for this game." *)
| UserNotFound                                 (* "User not found." *)
| InsufficientFunds (need have : Q)            (* "Insufficient funds. Need $.., but you have $.." *)
| TooFewSelections                             (* "A parlay must include at least 2 selections." *)
| BetPlaced (potential_payout : Q)             (* "Bet placed successfully! Potential payout: $.." *)
| ParlayCreated (potential_payout : Q).        (* "Parlay created successfully! Potential payout: $.." *)

(** The value [is_user_verified_adult] returns: [False] for an unknown user,
    otherwise the column as stored ([None] for [NULL]). *)
Definition is_user_verified_adult (user_id : string) (d : db) : option bool :=
  match fetch_user user_id d with
  | None => Some false
  | Some result => Users.is_verified_adult result
  end.

(** Python truth of that value, as tested by [if not ...]. *)
Definition truthy (v : option bool) : bool :=
  match v with
  | Some true => true
  | _ => false
  end.

(** [round(x, 2)] of a float: the multiple of 0.01 nearest to the number
    the float stands for, ties to the even digit. *)
Definition round_half_even (q : Q) : Z :=
  let n := Qnum q in
  let den := Z.pos (Qden q) in
  let fl := (n / den)%Z in
  let twice := (2 * (n mod den))%Z in
  if (twice <? den)%Z then fl
  else if (den <? twice)%Z then (fl + 1)%Z
  else if Z.even fl then fl else (fl + 1)%Z.

Definition round2 (x : Binary64.float) : Q :=
  Qmake (round_half_even (Binary64.to_Q x * (100 # 1))) 100.

(** [WHERE id = :game_id AND status = 'scheduled' AND game_date > CURRENT_TIMESTAMP] *)
Definition open_for_betting (game_id now : Z) (g : Games.row) : bool :=
  Games.has_id game_id g && (Games.status g =? "scheduled")%string
  && (now <? Games.game_date g)%Z.

(** The odds of a selection: the game's moneyline odds, or the standard
    1.91 for spread and over/under; [0] for any other bet type. *)
Definition odds_of (bet_type bet_pick : string) (game : Games.row) : Q :=
  if (bet_type =? "moneyline")%string then
    if (bet_pick =? "home")%string then Games.home_odds game else Games.away_odds game
  else if (bet_type =? "spread")%string || (bet_type =? "over_under")%string then 191 # 100
  else 0.

(** [INSERT INTO user_bets ... RETURNING id] *)
Definition insert_bet (user_id : string) (game_id : Z) (bet_type bet_pick : string)
    (amount potential_payout odds : Q) (d : db) : Z * db :=
  (user_bets_seq d,
   mkdb (users d) (holdings d) (holdings_seq d) (transactions d) (trade_offers d)
        (trade_offer_assets d) (upcoming_games d)
        (Sql.insert (Bets.mk (user_bets_seq d) user_id game_id bet_type bet_pick
                             amount potential_payout odds "pending") (user_bets d))
        (user_bets_seq d + 1)%Z
        (parlays d) (parlays_seq d) (parlay_bets d) (parlay_bets_seq d)).

Definition place_bet (user_id : string) (game_id : Z) (bet_type bet_pick : string)
    (amount : Q) (now : Z) (d : db) : (bool * message * option Z) * db :=
  if negb (truthy (is_user_verified_adult user_id d)) then ((false, MustBe21, None), d)
  else
    match Sql.fetchone (Sql.select (open_for_betting game_id now) (upcoming_games d)) with
    | None => ((false, GameClosed, None), d)
    | Some game =>
      match fetch_user user_id d with
      | None => ((false, UserNotFound, None), d)
      | Some result =>
        let wallet_balance := Users.wallet_balance result in
        if Sql.Qlt_bool wallet_balance amount then
          ((false, InsufficientFunds amount wallet_balance, None), d)
        else
          let odds := odds_of bet_type bet_pick game in
          let potential_payout :=
            round2 (Binary64.mul (Binary64.of_Q amount) (Binary64.of_Q odds)) in
          let d1 := debit_wallet user_id amount d in
          let (bet_id, d2) :=
            insert_bet user_id game_id bet_type bet_pick amount potential_payout odds d1 in
          ((true, BetPlaced potential_payout, Some bet_id), d2)
      end
    end.

(** One requested selection of a parlay: the dict with keys [game_id],
    [bet_type], [bet_pick]. *)
Record selection := mk_selection {
  sel_game_id : Z;
  sel_bet_type : string;
  sel_bet_pick : string
}.

(** The loop that checks every selection and multiplies the odds; it
    returns the id of the first game that is closed, or the accumulated
    [total_odds] and [valid_bets]. *)
Fixpoint price_selections (now : Z) (d : db) (bets : list selection)
    (total_odds : Binary64.float) (valid_bets : list (selection * Q))
    : Z + (Binary64.float * list (selection * Q)) :=
  match bets with
  | [] => inr (total_odds, valid_bets)
  | bet :: rest =>
      match Sql.fetchone (Sql.select (open_for_betting (sel_game_id bet) now)
                                     (upcoming_games d)) with
      | None => inl (sel_game_id bet)
      | Some game =>
          let odds := odds_of (sel_bet_type bet) (sel_bet_pick bet) game in
          price_selections now d rest (Binary64.mul total_odds (Binary64.of_Q odds))
                           (valid_bets ++ [(bet, odds)])
      end
  end.

(** [INSERT INTO parlays ... RETURNING id] *)
Definition insert_parlay (user_id : string) (amount potential_payout : Q) (d : db)
    : Z * db :=
  (parlays_seq d,
   mkdb (users d) (holdings d) (holdings_seq d) (transactions d) (trade_offers d)
        (trade_offer_assets d) (upcoming_games d) (user_bets d) (user_bets_seq d)
        (Sql.insert (Parlays.mk (parlays_seq d) user_id amount potential_payout "pending")
                    (parlays d))
        (parlays_seq d + 1)%Z
        (parlay_bets d) (parlay_bets_seq d)).

(** [INSERT INTO parlay_bets (parlay_id, game_id, bet_type, bet_pick, odds)];
    the status column takes its default. *)
Definition insert_parlay_bet (parlay_id : Z) (d : db) (bet : selection * Q) : db :=
  mkdb (users d) (holdings d) (holdings_seq d) (transactions d) (trade_offers d)
       (trade_offer_assets d) (upcoming_games d) (user_bets d) (user_bets_seq d)
       (parlays d) (parlays_seq d)
       (Sql.insert (ParlayBets.mk (parlay_bets_seq d) parlay_id (sel_game_id (fst bet))
                                  (sel_bet_type (fst bet)) (sel_bet_pick (fst bet))
                                  (snd bet) "pending") (parlay_bets d))
       (parlay_bets_seq d + 1)%Z.

Definition create_parlay_bet (user_id : string) (bets : list selection) (amount : Q)
    (now : Z) (d : db) : (bool * message * option Z) * db :=
  if negb (truthy (is_user_verified_adult user_id d)) then ((false, MustBe21, None), d)
  else if (List.length bets <? 2)%nat then ((false, TooFewSelections, None), d)
  else
    match fetch_user user_id d with
    | None => ((false, UserNotFound, None), d)
    | Some result =>
      let wallet_balance := Users.wallet_balance result in
      if Sql.Qlt_bool wallet_balance amount then
        ((false, InsufficientFunds amount wallet_balance, None), d)
      else
        match price_selections now d bets (Binary64.of_Q 1) [] with
        | inl game_id => ((false, ParlayGameClosed game_id, None), d)
        | inr (total_odds, valid_bets) =>
          let potential_payout := round2 (Binary64.mul (Binary64.of_Q amount) total_odds) in
          let d1 := debit_wallet user_id amount d in
          let (parlay_id, d2) := insert_parlay user_id amount potential_payout d1 in
          let d3 := fold_left (insert_parlay_bet parlay_id) valid_bets d2 in
          ((true, ParlayCreated potential_payout, Some parlay_id), d3)
        end
    end.

End Wagering.

(** ** Settlement: [simulate_game_result] *)

Module Settlement.

Inductive message :=
| GameNotFound                                 (* "Game not found." *)
| Simulated (home_team : string) (home_score away_score : Z) (away_team : string).
                                               (* "Game simulated successfully! {home} {hs} - {as} {away}" *)

(** [name in team_name] *)
Definition contains (name team_name : string) : bool :=
  match String.index 0 name team_name with
  | Some _ => true
  | None => false
  end.

Definition nba_teams : list string :=
  ["Celtics"; "Heat"; "Knicks"; "76ers"; "Nuggets"; "Lakers"; "Thunder"; "Pelicans";
   "Timberwolves"; "Suns"; "Bucks"; "Cavaliers"; "Clippers"; "Warriors"; "Mavericks";
   "Kings"; "Grizzlies"; "Raptors"; "Hawks"; "Bulls"].

Definition mlb_teams : list string :=
  ["Yankees"; "Red Sox"; "Dodgers"; "Giants"; "Astros"; "Rangers"; "Cubs"; "Cardinals";
   "Braves"; "Mets"; "Phillies"; "Blue Jays"; "Angels"; "Padres"; "Mariners";
   "Nationals"; "Diamondbacks"; "Rockies"; "Brewers"; "Rays"].

Definition nfl_teams : list string :=
  ["Bills"; "Cardinals"; "Buccaneers"; "Seahawks"; "49ers"; "Patriots"; "Lions";
   "Chargers"; "Broncos"; "Cowboys"; "Packers"; "Eagles"; "Bears"; "Vikings"; "Titans";
   "Steelers"; "Chiefs"; "Raiders"; "Saints"; "Falcons"].

Definition detect_sport_from_team (team_name : string) : string :=
  if existsb (fun t => contains t team_name) nba_teams then "NBA"
  else if existsb (fun t => contains t team_name) mlb_teams then "MLB"
  else if existsb (fun t => contains t team_name) nfl_teams then "NFL"
  else "NBA".

Definition nfl_scores : list Z :=
  [0; 3; 6; 7; 10; 13; 14; 17; 20; 21; 24; 27; 28; 31; 34; 35; 38]%Z.

(** The scores the simulation can draw for a sport: [random.randint] is
    inclusive at both ends, [random.choice] picks from the list. *)
Definition can_draw (sport : string) (home_score away_score : Z) : bool :=
  if (sport =? "NBA")%string then
    (90 <=? home_score)%Z && (home_score <=? 130)%Z
    && (90 <=? away_score)%Z && (away_score <=? 130)%Z
  else if (sport =? "MLB")%string then
    (0 <=? home_score)%Z && (home_score <=? 10)%Z
    && (0 <=? away_score)%Z && (away_score <=? 10)%Z
  else if (sport =? "NFL")%string then
    existsb (Z.eqb home_score) nfl_scores && existsb (Z.eqb away_score) nfl_scores
  else
    (10 <=? home_score)%Z && (home_score <=? 38)%Z
    && (7 <=? away_score)%Z && (away_score <=? 35)%Z.

(** The outcome of the game, as the four locals of the source. *)
Record outcome := mk_outcome {
  home_won : bool;
  total_points : Z;
  home_covered : bool;
  over_hit : bool
}.

Definition determine_outcome (game : Games.row) (home_score away_score : Z) : outcome :=
  let total := (home_score + away_score)%Z in
  mk_outcome (away_score <? home_score)%Z
             total
             (Sql.Qlt_bool (inject_Z away_score) (inject_Z home_score + Games.spread game))
             (Sql.Qlt_bool (Games.over_under game) (inject_Z total)).

(** The [if]/[elif] chain that decides one bet or one parlay leg. *)
Definition bet_won (o : outcome) (bet_type bet_pick : string) : bool :=
  if (bet_type =? "moneyline")%string then
    if (bet_pick =? "home")%string then home_won o else negb (home_won o)
  else if (bet_type =? "spread")%string then
    if (bet_pick =? "home")%string then home_covered o else negb (home_covered o)
  else if (bet_type =? "over_under")%string then
    if (bet_pick =? "over")%string then over_hit o else negb (over_hit o)
  else false.

Definition status_of (won : bool) : string := if won then "won" else "lost".

(** The body of [for bet in bets]. *)
Definition settle_bet (o : outcome) (d : db) (bet : Bets.row) : db :=
  let won := bet_won o (Bets.bet_type bet) (Bets.bet_pick bet) in
  let d1 := with_user_bets
              (Sql.update (Bets.has_id (Bets.id bet)) (Bets.set_status (status_of won))) d in
  if won then credit_wallet (Bets.user_id bet) (Bets.potential_payout bet) d1 else d1.

(** A row of the join of [parlay_bets] with [parlays]: the leg, and the
    parlay it belongs to.  The row carries two columns named [parlay_id]
    ([pb.parlay_id] and [p.id AS parlay_id]), equal by the join condition. *)
Definition joined := (ParlayBets.row * Parlays.row)%type.

(** [FROM parlay_bets pb JOIN parlays p ON pb.parlay_id = p.id
    WHERE pb.game_id = :game_id AND pb.status = 'pending' AND p.status = 'pending'] *)
Definition pending_legs (game_id : Z) (d : db) : list joined :=
  Sql.select
    (fun j => (ParlayBets.game_id (fst j) =? game_id)%Z
              && (ParlayBets.status (fst j) =? "pending")%string
              && (Parlays.status (snd j) =? "pending")%string)
    (flat_map (fun pb => map (pair pb)
                           (Sql.select (Parlays.has_id (ParlayBets.parlay_id pb)) (parlays d)))
              (parlay_bets d)).

(** The values of the dict [parlay_results], and the dict itself in
    insertion order. *)
Record parlay_result := mk_result {
  res_user_id : string;
  res_potential_payout : Q;
  res_status : string
}.

Definition results := list (Z * parlay_result).

Definition has_key (parlay_id : Z) (rs : results) : bool :=
  existsb (fun kv => (fst kv =? parlay_id)%Z) rs.

(** [parlay_results[parlay_id]['status'] = s] on a key that is present. *)
Definition set_result_status (parlay_id : Z) (s : string) (rs : results) : results :=
  map (fun kv => if (fst kv =? parlay_id)%Z
                 then (fst kv, mk_result (res_user_id (snd kv))
                                         (res_potential_payout (snd kv)) s)
                 else kv) rs.

(** The body of [for pb in parlay_bets]. *)
Definition settle_leg (o : outcome) (st : db * results) (pb : joined) : db * results :=
  let (d, parlay_results) := st in
  let leg := fst pb in
  let parlay := snd pb in
  let won := bet_won o (ParlayBets.bet_type leg) (ParlayBets.bet_pick leg) in
  let d1 := with_parlay_bets
              (Sql.update (ParlayBets.has_id (ParlayBets.id leg))
                          (ParlayBets.set_status (status_of won))) d in
  let parlay_id := Parlays.id parlay in
  if negb won then
    if negb (has_key parlay_id parlay_results) then
      (d1, parlay_results ++ [(parlay_id, mk_result (Parlays.user_id parlay)
                                            (Parlays.potential_payout parlay) "lost")])
    else (d1, set_result_status parlay_id "lost" parlay_results)
  else
    if negb (has_key parlay_id parlay_results) then
      (d1, parlay_results ++ [(parlay_id, mk_result (Parlays.user_id parlay)
                                            (Parlays.potential_payout parlay) "pending")])
    else (d1, parlay_results).

(** The body of [for parlay_id, result in parlay_results.items()]. *)
Definition close_parlay (d : db) (entry : Z * parlay_result) : db :=
  let (parlay_id, result) := entry in
  let remaining :=
    Sql.count (fun l => (ParlayBets.parlay_id l =? parlay_id)%Z
                        && (ParlayBets.status l =? "pending")%string) (parlay_bets d) in
  if (remaining =? 0)%Z then
    let lost_count :=
      Sql.count (fun l => (ParlayBets.parlay_id l =? parlay_id)%Z
                          && (ParlayBets.status l =? "lost")%string) (parlay_bets d) in
    if (lost_count =? 0)%Z then
      credit_wallet (res_user_id result) (res_potential_payout result)
        (with_parlays (Sql.update (Parlays.has_id parlay_id) (Parlays.set_status "won")) d)
    else
      with_parlays (Sql.update (Parlays.has_id parlay_id) (Parlays.set_status "lost")) d
  else d.

(** [simulate_game_result game_id], with the two scores it draws at random
    as arguments. *)
Definition simulate_game_result (game_id : Z) (home_score away_score : Z) (d : db)
    : (bool * message) * db :=
  match Sql.fetchone (Sql.select (Games.has_id game_id) (upcoming_games d)) with
  | None => ((false, GameNotFound), d)
  | Some game =>
    let d1 := with_upcoming_games
                (Sql.update (Games.has_id game_id) (Games.complete home_score away_score)) d in
    let o := determine_outcome game home_score away_score in
    let bets :=
      Sql.select (fun b => (Bets.game_id b =? game_id)%Z
                           && (Bets.status b =? "pending")%string) (user_bets d1) in
    let d2 := fold_left (settle_bet o) bets d1 in
    let parlay_bets := pending_legs game_id d2 in
    let (d3, parlay_results) := fold_left (settle_leg o) parlay_bets (d2, []) in
    let d4 := fold_left close_parlay parlay_results d3 in
    ((true, Simulated (Games.home_team game) home_score away_score (Games.away_team game)),
     d4)
  end.

End Settlement.

(** ** Observations used by the statements *)

Module Observe.

(** The wallet balance of a user, as the queries read it. *)
Definition balance (user_id : string) (d : db) : option Q :=
  option_map Users.wallet_balance (fetch_user user_id d).

Definition Zsum (xs : list Z) : Z := fold_right Z.add 0%Z xs.

(** The number of shares of an asset a user holds: the total over the
    holdings rows of that user and asset. *)
Definition held (user_id asset_type asset_name : string) (d : db) : Z :=
  Zsum (map Holdings.quantity
            (Sql.select (Holdings.is_asset user_id asset_type asset_name) (holdings d))).

(** The primary keys: user ids are pairwise distinct; holdings ids are those
    of a [SERIAL] column, pairwise distinct and below the next value of the
    sequence. *)
Definition primary_keys (d : db) : Prop :=
  NoDup (map Users.id (users d))
  /\ NoDup (map Holdings.id (holdings d))
  /\ Forall (fun i => (i < holdings_seq d)%Z) (map Holdings.id (holdings d)).

(** No wallet and no holdings row is negative. *)
Definition non_negative (d : db) : Prop :=
  Forall (fun r => (0 <= Users.wallet_balance r)%Q) (users d)
  /\ Forall (fun r => (0 <= Holdings.quantity r)%Z) (holdings d).

(** One buy or sell request of an account. *)
Record operation := mk_operation {
  op_asset_type : string;
  op_asset_name : string;
  op_transaction_type : string;
  op_price : Q
}.

Definition run (user_id : string) (o : operation) (d : db) : (bool * Ledger.message) * db :=
  Ledger.execute_transaction user_id (op_asset_type o) (op_asset_name o)
                             (op_transaction_type o) (op_price o) d.

(** Replaying requests in order: the accepted ones, and the final state. *)
Fixpoint replay (user_id : string) (ops : list operation) (d : db)
    : list operation * db :=
  match ops with
  | [] => ([], d)
  | o :: rest =>
      let (res, d1) := run user_id o d in
      let (accepted, d2) := replay user_id rest d1 in
      (if fst res then o :: accepted else accepted, d2)
  end.

(** Signed deltas of an accepted operation: cash, and shares of one asset. *)
Definition cash_delta (o : operation) : Q :=
  if (op_transaction_type o =? "buy")%string then (- op_price o)%Q else op_price o.

Definition quantity_delta (asset_type asset_name : string) (o : operation) : Z :=
  if (op_asset_type o =? asset_type)%string && (op_asset_name o =? asset_name)%string
  then if (op_transaction_type o =? "buy")%string then 1%Z else (-1)%Z
  else 0%Z.

(** The arithmetic mean of a list of prices. *)
Definition mean (xs : list Q) : Q :=
  (Sql.Qsum xs / inject_Z (Z.of_nat (List.length xs)))%Q.

(** The unit prices of the user's 'Buy' rows of an asset. *)
Definition buy_prices (user_id asset_type asset_name : string) (d : db) : list Q :=
  map Transactions.price
      (filter (Transactions.is_buy_of user_id asset_type asset_name) (transactions d)).

(** The key the holdings queries select on. *)
Definition holding_key (r : Holdings.row) : string * string * string :=
  (Holdings.user_id r, Holdings.asset_type r, Holdings.asset_name r).

(** Every user has at most one holdings row per asset: the code inserts a
    row only after finding none. *)
Definition one_row_per_asset (d : db) : Prop :=
  NoDup (map holding_key (holdings d)).

(** The assets of an offer, split as [respond_to_trade_offer] splits them:
    those of the sender are offered, the others are requested. *)
Definition offer_assets (offer_id : Z) (d : db) : list TradeOfferAssets.row :=
  Sql.select (fun a => (TradeOfferAssets.trade_offer_id a =? offer_id)%Z)
             (trade_offer_assets d).

Definition offered (offer_id : Z) (sender_id : string) (d : db) :=
  filter (fun a => PeerTrade.is_user (TradeOfferAssets.user_id a) sender_id)
         (offer_assets offer_id d).

Definition requested (offer_id : Z) (sender_id : string) (d : db) :=
  filter (fun a => negb (PeerTrade.is_user (TradeOfferAssets.user_id a) sender_id))
         (offer_assets offer_id d).

(** The owner recorded with an asset of an offer still holds it at the
    quantity of the offer. *)
Definition still_held (d : db) (a : TradeOfferAssets.row) : bool :=
  match Sql.fetchone (Sql.select (PeerTrade.held_by_owner a) (holdings d)) with
  | Some h => (TradeOfferAssets.quantity a <=? Holdings.quantity h)%Z
  | None => false
  end.

(** *** Settlement, table by table *)

(** The ids of bets, parlay legs and parlays are primary keys. *)
Definition betting_keys (d : db) : Prop :=
  NoDup (map Bets.id (user_bets d))
  /\ NoDup (map ParlayBets.id (parlay_bets d))
  /\ NoDup (map Parlays.id (parlays d)).

(** A bet the settlement of game [g] selects, and the row it becomes. *)
Definition bet_in_play (g : Z) (b : Bets.row) : bool :=
  (Bets.game_id b =? g)%Z && (Bets.status b =? "pending")%string.

Definition settled_bet (o : Settlement.outcome) (g : Z) (b : Bets.row) : Bets.row :=
  if bet_in_play g b
  then Bets.set_status
         (Settlement.status_of (Settlement.bet_won o (Bets.bet_type b) (Bets.bet_pick b))) b
  else b.

(** A leg the settlement of game [g] selects: pending, on that game, and
    of a parlay that is pending. *)
Definition leg_in_play (g : Z) (ps : list Parlays.row) (l : ParlayBets.row) : bool :=
  (ParlayBets.game_id l =? g)%Z && (ParlayBets.status l =? "pending")%string
  && existsb (fun p => Parlays.has_id (ParlayBets.parlay_id l) p
                       && (Parlays.status p =? "pending")%string) ps.

Definition settled_leg (o : Settlement.outcome) (g : Z) (ps : list Parlays.row)
    (l : ParlayBets.row) : ParlayBets.row :=
  if leg_in_play g ps l
  then ParlayBets.set_status
         (Settlement.status_of
            (Settlement.bet_won o (ParlayBets.bet_type l) (ParlayBets.bet_pick l))) l
  else l.

(** Some leg of parlay [pid] has status [s]. *)
Definition has_leg (s : string) (pid : Z) (legs : list ParlayBets.row) : bool :=
  existsb (fun l => (ParlayBets.parlay_id l =? pid)%Z && (ParlayBets.status l =? s)%string)
          legs.

(** A parlay the settlement of game [g] looks at: pending, with a pending
    leg on that game. *)
Definition parlay_in_play (g : Z) (legs : list ParlayBets.row) (p : Parlays.row) : bool :=
  (Parlays.status p =? "pending")%string
  && existsb (fun l => (ParlayBets.parlay_id l =? Parlays.id p)%Z
                       && (ParlayBets.game_id l =? g)%Z
                       && (ParlayBets.status l =? "pending")%string) legs.

(** Such a parlay wins in this settlement when, afterwards, none of its
    legs is pending and none is lost. *)
Definition parlay_wins (g : Z) (legs legs' : list ParlayBets.row) (p : Parlays.row) : bool :=
  parlay_in_play g legs p
  && negb (has_leg "pending" (Parlays.id p) legs')
  && negb (has_leg "lost" (Parlays.id p) legs').

(** The row a parlay becomes, given the legs before ([legs]) and after
    ([legs']) the settlement of game [g]. *)
Definition closed_parlay (g : Z) (legs legs' : list ParlayBets.row) (p : Parlays.row)
    : Parlays.row :=
  if parlay_in_play g legs p then
    if has_leg "pending" (Parlays.id p) legs' then p
    else if has_leg "lost" (Parlays.id p) legs' then Parlays.set_status "lost" p
    else Parlays.set_status "won" p
  else p.

(** What a settlement pays to a user: the potential payouts of the bets
    won, and of the parlays won. *)
Definition bet_winnings (o : Settlement.outcome) (g : Z) (user_id : string)
    (bets : list Bets.row) : Q :=
  Sql.Qsum
    (map Bets.potential_payout
         (filter (fun b => bet_in_play g b
                           && Settlement.bet_won o (Bets.bet_type b) (Bets.bet_pick b)
                           && (Bets.user_id b =? user_id)%string) bets)).

Definition parlay_winnings (g : Z) (legs legs' : list ParlayBets.row) (user_id : string)
    (ps : list Parlays.row) : Q :=
  Sql.Qsum
    (map Parlays.potential_payout
         (filter (fun p => parlay_wins g legs legs' p
                           && (Parlays.user_id p =? user_id)%string) ps)).

(** The product of the odds of a list of priced selections, from 1.0, in
    the floats of the code. *)
Definition product_of_odds (priced : list Q) : Binary64.float :=
  fold_left (fun total odds => Binary64.mul total (Binary64.of_Q odds)) priced
            (Binary64.of_Q 1).

(** What an entry of the dict [parlay_results] says of its parlay, whatever
    its status: the id, user and potential payout of a joined row. *)
Definition entry_of (js : list Settlement.joined) (kv : Z * Settlement.parlay_result) : Prop :=
  exists j, In j js /\ Parlays.id (snd j) = fst kv
            /\ Settlement.res_user_id (snd kv) = Parlays.user_id (snd j)
            /\ Settlement.res_potential_payout (snd kv) = Parlays.potential_payout (snd j).

(** One credit of the settlement: [UPDATE users SET wallet_balance =
    wallet_balance + :payout WHERE id = :user_id], for a pair of a user
    and a payout. *)
Definition pay_out (us : list Users.row) (c : string * Q) : list Users.row :=
  Sql.update (Users.has_id (fst c)) (Users.add_wallet_balance (snd c)) us.

(** The potential payout and the user of the parlay with a given id. *)
Definition payout_of (ps : list Parlays.row) (k : Z) : Q :=
  match find (Parlays.has_id k) ps with
  | Some p => Parlays.potential_payout p
  | None => 0
  end.

Definition owner_of (ps : list Parlays.row) (k : Z) : string :=
  match find (Parlays.has_id k) ps with
  | Some p => Parlays.user_id p
  | None => ""
  end.

End Observe.

(** ** The callers in [app.py]: the "Buy Now" and "Sell Now" loops *)

Module Desk.

(** [for i in range(qty): success_one, message, ... = execute_transaction(...)]
    with [break] on the first refusal; the flag [success] and the database
    the loop leaves. *)
Fixpoint trade_shares (qty : nat) (user_id asset_type asset_name transaction_type : string)
    (price : Q) (d : db) : bool * db :=
  match qty with
  | O => (true, d)
  | S rest =>
      let (res, d1) :=
        Ledger.execute_transaction user_id asset_type asset_name transaction_type price d in
      if fst res
      then trade_shares rest user_id asset_type asset_name transaction_type price d1
      else (false, d1)
  end.

End Desk.

(** ** Creating an offer: [create_trade_offer] *)

Module Offers.

(** An asset of the request: the dict with keys [asset_type], [asset_name],
    [quantity]. *)
Record asset := mk_asset {
  asset_type : string;
  asset_name : string;
  quantity : Z
}.

Inductive message :=
| NotEnoughShares (asset_name : string)        (* "You don't own enough shares of {asset_name} to offer" *)
| OfferSent (recipient_name : string).         (* "Trade offer sent to {recipient_name}" *)

Definition with_trade_offer_assets
    (f : list TradeOfferAssets.row -> list TradeOfferAssets.row) (d : db) : db :=
  mkdb (users d) (holdings d) (holdings_seq d) (transactions d) (trade_offers d)
       (f (trade_offer_assets d)) (upcoming_games d) (user_bets d) (user_bets_seq d)
       (parlays d) (parlays_seq d) (parlay_bets d) (parlay_bets_seq d).

(** [INSERT INTO trade_offer_assets (trade_offer_id, user_id, asset_type,
    asset_name, quantity)] *)
Definition insert_asset (offer_id : Z) (user_id : option string) (d : db) (a : asset) : db :=
  with_trade_offer_assets
    (Sql.insert (TradeOfferAssets.mk offer_id user_id (asset_type a) (asset_name a)
                                     (quantity a))) d.

(** The loop over [sender_assets]: each asset is checked against the
    sender's holdings row before it is recorded; the name of the first
    asset that fails the check ends the loop. *)
Fixpoint add_sender_assets (offer_id : Z) (sender_id : string) (assets : list asset)
    (d : db) : string + db :=
  match assets with
  | [] => inr d
  | a :: rest =>
      match fetch_holding sender_id (asset_type a) (asset_name a) d with
      | None => inl (asset_name a)
      | Some asset_holding =>
          if (Holdings.quantity asset_holding <? quantity a)%Z then inl (asset_name a)
          else add_sender_assets offer_id sender_id rest
                 (insert_asset offer_id (Some sender_id) d a)
      end
  end.

(** [create_trade_offer]; [offer_id] is the id that [INSERT INTO
    trade_offers ... RETURNING id] yields.  On a refusal the transaction is
    rolled back, which undoes the insert of the offer and of the assets
    recorded so far.  The holdings of the recipient are read and the result
    is not used. *)
Definition create_trade_offer (sender_id : string) (recipient_id : option string)
    (sender_assets recipient_assets : list asset) (offer_id : Z) (d : db)
    : (bool * message * option Z) * db :=
  let d1 := with_trade_offers
              (Sql.insert (TradeOffers.mk offer_id sender_id recipient_id "pending")) d in
  match add_sender_assets offer_id sender_id sender_assets d1 with
  | inl name => ((false, NotEnoughShares name, None), d)
  | inr d2 =>
      let d3 := fold_left (insert_asset offer_id recipient_id) recipient_assets d2 in
      let recipient_name :=
        match recipient_id with
        | Some r =>
            match fetch_user r d3 with
            | Some result => Users.username result
            | None => "User"
            end
        | None => "User"
        end in
      ((true, OfferSent recipient_name, Some offer_id), d3)
  end.

End Offers.

(** ** Age verification: [verify_user_age] *)

Module Verification.

(** A calendar date, as [datetime.date] holds it. *)
Record date := mk_date {
  year : Z;
  month : Z;
  day : Z
}.

Inductive message :=
| Verified                                     (* "Age verification successful. You are 21 or older ..." *)
| TooYoung (age : Z)                           (* "You must be 21 or older ... Your current age is {age}." *)
| InvalidDateFormat.                           (* "Invalid date format. Please use YYYY-MM-DD format." *)

(** [(today.month, today.day) < (birth_date.month, birth_date.day)] *)
Definition month_day_lt (a b : date) : bool :=
  (month a <? month b)%Z || ((month a =? month b)%Z && (day a <? day b)%Z).

(** [today.year - birth_date.year - ((today.month, today.day) <
    (birth_date.month, birth_date.day))] *)
Definition age_on (today birth_date : date) : Z :=
  (year today - year birth_date - (if month_day_lt today birth_date then 1 else 0))%Z.

Definition set_verified (v : bool) (r : Users.row) : Users.row :=
  Users.mk (Users.id r) (Users.username r) (Users.wallet_balance r) (Some v).

(** [verify_user_age]; [birth_date] is what [strptime] makes of the
    [birthdate] string, [None] when it raises [ValueError], and [today] is
    [date.today()].  The column [users.birthdate], which the function also
    writes, is read by no modelled query. *)
Definition verify_user_age (user_id : string) (birth_date : option date) (today : date)
    (d : db) : (bool * message) * db :=
  match birth_date with
  | None => ((false, InvalidDateFormat), d)
  | Some b =>
      let age := age_on today b in
      if (21 <=? age)%Z then
        ((true, Verified),
         with_users (Sql.update (Users.has_id user_id) (set_verified true)) d)
      else
        ((false, TooYoung age),
         with_users (Sql.update (Users.has_id user_id) (set_verified false)) d)
  end.

End Verification.

(** ** Friends, competitions and fantasy teams *)

Module Friendships.
Record row := mk {
  id : Z;                             (* SERIAL PRIMARY KEY *)
  user_id : string;                   (* the requester *)
  friend_id : string;                 (* the addressee *)
  status : string                     (* DEFAULT 'pending' *)
}.
Definition set_status (s : string) (r : row) : row :=
  mk (id r) (user_id r) (friend_id r) s.
Definition has_id (i : Z) (r : row) : bool := (id r =? i)%Z.
End Friendships.

Module Competitions.
Record row := mk {
  id : Z;
  name : string;
  created_by : string;
  status : string                     (* DEFAULT 'active' *)
}.
End Competitions.

Module CompetitionMembers.
Record row := mk {
  competition_id : Z;
  user_id : string
}.
End CompetitionMembers.

Module FantasyTeamPlayers.
Record row := mk {
  team_id : Z;
  player_name : string
}.
End FantasyTeamPlayers.

Module Social.

(** The tables of the social features; [players] is the list of the names
    in the table of that name. *)
Record tables := mk_tables {
  friendships : list Friendships.row;
  friendships_seq : Z;
  competitions : list Competitions.row;
  competitions_seq : Z;
  competition_members : list CompetitionMembers.row;
  players : list string;
  fantasy_team_players : list FantasyTeamPlayers.row
}.

Definition with_friendships (f : list Friendships.row -> list Friendships.row)
    (s : tables) : tables :=
  mk_tables (f (friendships s)) (friendships_seq s) (competitions s) (competitions_seq s)
            (competition_members s) (players s) (fantasy_team_players s).

Definition with_competition_members
    (f : list CompetitionMembers.row -> list CompetitionMembers.row) (s : tables) : tables :=
  mk_tables (friendships s) (friendships_seq s) (competitions s) (competitions_seq s)
            (f (competition_members s)) (players s) (fantasy_team_players s).

Inductive message :=
| FriendNotFound (username : string)           (* "User '{friend_username}' not found" *)
| CannotAddYourself                            (* "You cannot add yourself as a friend" *)
| AlreadyFriends (username : string)           (* "You are already friends with .." *)
| AlreadyPending (username : string)           (* "Friend request to .. is already pending" *)
| RequestSent (username : string)              (* "Friend request sent to .." *)
| ErrorSending                                 (* "Error sending friend request" *)
| RequestNotFound                              (* "Friend request not found or already processed" *)
| NowFriends (sender_name : string)            (* "You are now friends with .." *)
| RequestRejected (sender_name : string)       (* "Friend request from .. rejected" *)
| CompetitionCreated (name : string)           (* "Competition '{name}' created successfully" *)
| CompetitionNotFound                          (* "Competition not found" *)
| NoLongerActive (name : string)               (* "Competition '{name}' is no longer active" *)
| AlreadyMember (name : string)                (* "You are already a member of '{name}'" *)
| Joined (name : string)                       (* "You have joined the '{name}' competition" *)
| PlayerNotFound (player_name : string)        (* "Player '{player_name}' not found" *)
| AlreadyOnTeam (player_name : string)         (* "'{player_name}' is already on your team" *)
| PlayerAdded (player_name : string).          (* "Added '{player_name}' to your fantasy team" *)

(** [WHERE (user_id = :user_id AND friend_id = :friend_id)
       OR (user_id = :friend_id AND friend_id = :user_id)] *)
Definition between (user_id friend_id : string) (r : Friendships.row) : bool :=
  ((Friendships.user_id r =? user_id)%string && (Friendships.friend_id r =? friend_id)%string)
  || ((Friendships.user_id r =? friend_id)%string
      && (Friendships.friend_id r =? user_id)%string).

(** [INSERT INTO friendships (user_id, friend_id, status, created_at)]: the
    statement draws an id, and fails on [UNIQUE(user_id, friend_id)], in
    which case the handler of the function reports an error. *)
Definition insert_friendship (user_id friend_id friend_username : string) (s : tables)
    : (bool * message) * tables :=
  if existsb (fun r => (Friendships.user_id r =? user_id)%string
                       && (Friendships.friend_id r =? friend_id)%string) (friendships s)
  then ((false, ErrorSending),
        mk_tables (friendships s) (friendships_seq s + 1)%Z (competitions s)
                  (competitions_seq s) (competition_members s) (players s)
                  (fantasy_team_players s))
  else ((true, RequestSent friend_username),
        mk_tables (Sql.insert (Friendships.mk (friendships_seq s) user_id friend_id "pending")
                              (friendships s))
                  (friendships_seq s + 1)%Z (competitions s)
                  (competitions_seq s) (competition_members s) (players s)
                  (fantasy_team_players s)).

Definition send_friend_request (user_id friend_username : string) (d : db) (s : tables)
    : (bool * message) * tables :=
  match Sql.fetchone (Sql.select (fun u => (Users.username u =? friend_username)%string)
                                 (users d)) with
  | None => ((false, FriendNotFound friend_username), s)
  | Some result =>
    let friend_id := Users.id result in
    if (user_id =? friend_id)%string then ((false, CannotAddYourself), s)
    else
      match Sql.fetchone (Sql.select (between user_id friend_id) (friendships s)) with
      | Some result =>
        let friendship_id := Friendships.id result in
        let status := Friendships.status result in
        if (status =? "accepted")%string then ((false, AlreadyFriends friend_username), s)
        else if (status =? "pending")%string then ((false, AlreadyPending friend_username), s)
        else if (status =? "rejected")%string then
          ((true, RequestSent friend_username),
           with_friendships (Sql.update (Friendships.has_id friendship_id)
                                        (Friendships.set_status "pending")) s)
        else insert_friendship user_id friend_id friend_username s
      | None => insert_friendship user_id friend_id friend_username s
      end
  end.

(** [WHERE id = :request_id AND friend_id = :user_id AND status = 'pending'] *)
Definition is_request_for (request_id : Z) (user_id : string) (r : Friendships.row) : bool :=
  Friendships.has_id request_id r && (Friendships.friend_id r =? user_id)%string
  && (Friendships.status r =? "pending")%string.

Definition respond_to_friend_request (request_id : Z) (user_id action : string) (d : db)
    (s : tables) : (bool * message) * tables :=
  match Sql.fetchone (Sql.select (is_request_for request_id user_id) (friendships s)) with
  | None => ((false, RequestNotFound), s)
  | Some result =>
    let sender_id := Friendships.user_id result in
    let sender_name :=
      match fetch_user sender_id d with
      | Some result => Users.username result
      | None => "User"
      end in
    let status := if (action =? "accept")%string then "accepted" else "rejected" in
    let s1 := with_friendships (Sql.update (Friendships.has_id request_id)
                                           (Friendships.set_status status)) s in
    if (action =? "accept")%string then ((true, NowFriends sender_name), s1)
    else ((true, RequestRejected sender_name), s1)
  end.

(** [create_competition]: the competition takes the next id of its
    sequence and the default status, and its creator becomes a member. *)
Definition create_competition (user_id name : string) (s : tables)
    : (bool * message * option Z) * tables :=
  let competition_id := competitions_seq s in
  ((true, CompetitionCreated name, Some competition_id),
   mk_tables (friendships s) (friendships_seq s)
             (Sql.insert (Competitions.mk competition_id name user_id "active")
                         (competitions s))
             (competitions_seq s + 1)%Z
             (Sql.insert (CompetitionMembers.mk competition_id user_id)
                         (competition_members s))
             (players s) (fantasy_team_players s)).

(** [WHERE competition_id = :competition_id AND user_id = :user_id] *)
Definition is_member (competition_id : Z) (user_id : string) (m : CompetitionMembers.row)
    : bool :=
  (CompetitionMembers.competition_id m =? competition_id)%Z
  && (CompetitionMembers.user_id m =? user_id)%string.

Definition join_competition (user_id : string) (competition_id : Z) (s : tables)
    : (bool * message) * tables :=
  match Sql.fetchone (Sql.select (fun c => (Competitions.id c =? competition_id)%Z)
                                 (competitions s)) with
  | None => ((false, CompetitionNotFound), s)
  | Some result =>
    let competition_name := Competitions.name result in
    let status := Competitions.status result in
    if negb (status =? "active")%string then ((false, NoLongerActive competition_name), s)
    else
      match Sql.fetchone (Sql.select (is_member competition_id user_id)
                                     (competition_members s)) with
      | Some _ => ((false, AlreadyMember competition_name), s)
      | None =>
          ((true, Joined competition_name),
           with_competition_members
             (Sql.insert (CompetitionMembers.mk competition_id user_id)) s)
      end
  end.

(** [WHERE team_id = :team_id AND player_name = :player_name] *)
Definition is_on_team (team_id : Z) (player_name : string) (r : FantasyTeamPlayers.row)
    : bool :=
  (FantasyTeamPlayers.team_id r =? team_id)%Z
  && (FantasyTeamPlayers.player_name r =? player_name)%string.

Definition add_player_to_fantasy_team (team_id : Z) (player_name : string) (s : tables)
    : (bool * message) * tables :=
  match Sql.fetchone (Sql.select (fun n => (n =? player_name)%string) (players s)) with
  | None => ((false, PlayerNotFound player_name), s)
  | Some _ =>
      match Sql.fetchone (Sql.select (is_on_team team_id player_name)
                                     (fantasy_team_players s)) with
      | Some _ => ((false, AlreadyOnTeam player_name), s)
      | None =>
          ((true, PlayerAdded player_name),
           mk_tables (friendships s) (friendships_seq s) (competitions s)
                     (competitions_seq s) (competition_members s) (players s)
                     (Sql.insert (FantasyTeamPlayers.mk team_id player_name)
                                 (fantasy_team_players s)))
      end
  end.

End Social.

(** ** Further observations *)

Module Audit.

(** The ids of bets, parlays and parlay legs are below the next values of
    their sequences. *)
Definition betting_sequences (d : db) : Prop :=
  Forall (fun i => (i < user_bets_seq d)%Z) (map Bets.id (user_bets d))
  /\ Forall (fun i => (i < parlay_bets_seq d)%Z) (map ParlayBets.id (parlay_bets d))
  /\ Forall (fun i => (i < parlays_seq d)%Z) (map Parlays.id (parlays d)).

(** The rows of [trade_offer_assets] that record the assets of a request
    under an offer, for one side. *)
Definition recorded (offer_id : Z) (user_id : option string) (assets : list Offers.asset)
    : list TradeOfferAssets.row :=
  map (fun a => TradeOfferAssets.mk offer_id user_id (Offers.asset_type a)
                                    (Offers.asset_name a) (Offers.quantity a)) assets.

(** The check of [create_trade_offer] on one offered asset: the sender's
    holdings row of the asset has at least the offered quantity. *)
Definition can_offer (sender_id : string) (d : db) (a : Offers.asset) : bool :=
  match fetch_holding sender_id (Offers.asset_type a) (Offers.asset_name a) d with
  | Some h => (Offers.quantity a <=? Holdings.quantity h)%Z
  | None => false
  end.

(** [a] is on or before [b] in the calendar. *)
Definition date_le (a b : Verification.date) : Prop :=
  (Verification.year a < Verification.year b
   \/ (Verification.year a = Verification.year b
       /\ (Verification.month a < Verification.month b
           \/ (Verification.month a = Verification.month b
               /\ Verification.day a <= Verification.day b))))%Z.

(** The twenty-first birthday. *)
Definition twenty_first (b : Verification.date) : Verification.date :=
  Verification.mk_date (Verification.year b + 21) (Verification.month b)
                       (Verification.day b).

(** The pair of users of a friendship row, whatever its direction. *)
Definition same_pair (r r' : Friendships.row) : Prop :=
  (Friendships.user_id r = Friendships.user_id r'
   /\ Friendships.friend_id r = Friendships.friend_id r')
  \/ (Friendships.user_id r = Friendships.friend_id r'
      /\ Friendships.friend_id r = Friendships.user_id r').

(** The statuses that the code writes to a friendship. *)
Definition written (st : string) : Prop :=
  st = "pending" \/ st = "accepted" \/ st = "rejected".

(** The friendships table is well formed: ids are those of a [SERIAL]
    primary key, every status is one of the three the code writes, nobody
    is a friend of oneself, and two users share at most one row, in either
    direction. *)
Definition friendships_ok (s : Social.tables) : Prop :=
  NoDup (map Friendships.id (Social.friendships s))
  /\ Forall (fun i => (i < Social.friendships_seq s)%Z)
            (map Friendships.id (Social.friendships s))
  /\ Forall (fun r => written (Friendships.status r)) (Social.friendships s)
  /\ Forall (fun r => Friendships.user_id r <> Friendships.friend_id r)
            (Social.friendships s)
  /\ (forall r r', In r (Social.friendships s) -> In r' (Social.friendships s) ->
                   same_pair r r' -> r = r').

(** [UNIQUE(competition_id, user_id)] and [UNIQUE(team_id, player_name)] *)
Definition member_key (m : CompetitionMembers.row) : Z * string :=
  (CompetitionMembers.competition_id m, CompetitionMembers.user_id m).

Definition team_key (r : FantasyTeamPlayers.row) : Z * string :=
  (FantasyTeamPlayers.team_id r, FantasyTeamPlayers.player_name r).

(** The competitions are well formed: no user is twice a member of a
    competition, and the ids of competitions, and those that members refer
    to, are below the next value of the sequence. *)
Definition competitions_ok (s : Social.tables) : Prop :=
  NoDup (map member_key (Social.competition_members s))
  /\ Forall (fun c => (Competitions.id c < Social.competitions_seq s)%Z)
            (Social.competitions s)
  /\ Forall (fun m => (CompetitionMembers.competition_id m < Social.competitions_seq s)%Z)
            (Social.competition_members s).

(** The tables of the ledger, which betting and settlement do not touch,
    and the sequences of the betting tables. *)
Definition ledger_side (d : db) :=
  (holdings d, holdings_seq d, transactions d, trade_offers d, trade_offer_assets d).

Definition betting_counters (d : db) : Z * Z * Z :=
  (user_bets_seq d, parlays_seq d, parlay_bets_seq d).

(** No game with the given id is open for betting at the given time. *)
Definition closed_for_betting (game_id now : Z) (d : db) : Prop :=
  forall game, In game (upcoming_games d) ->
               Wagering.open_for_betting game_id now game = false.

End Audit.

(** * Properties *)

(** ** Facts about the SQL statements *)

Module SqlFacts.
Section Table.
Context {row : Type}.
Implicit Types (w : row -> bool) (t : list row).

Lemma fetchone_select_some w t r :
  Sql.fetchone (Sql.select w t) = Some r -> In r t /\ w r = true.
Proof.
  unfold Sql.fetchone, Sql.select.
  induction t as [|x t IH]; simpl; [discriminate|].
  destruct (w x) eqn:E; simpl.
  - intros [= ->]. auto.
  - intros H. destruct (IH H). auto.
Qed.

Lemma fetchone_select_none w t :
  Sql.fetchone (Sql.select w t) = None -> forall r, In r t -> w r = false.
Proof.
  unfold Sql.fetchone, Sql.select.
  induction t as [|x t IH]; simpl; [tauto|].
  destruct (w x) eqn:E; simpl; [discriminate|].
  intros H r [<-|Hin]; auto.
Qed.

Lemma select_none w t :
  (forall r, In r t -> w r = false) -> Sql.select w t = [].
Proof.
  unfold Sql.select. induction t as [|x t IH]; simpl; intros H; [reflexivity|].
  rewrite (H x) by auto. apply IH. auto.
Qed.

Lemma update_none w f t :
  (forall r, In r t -> w r = false) -> Sql.update w f t = t.
Proof.
  unfold Sql.update. induction t as [|x t IH]; simpl; intros H; [reflexivity|].
  rewrite (H x) by auto. f_equal. apply IH. auto.
Qed.

(** A query whose [WHERE] clause the [SET] clause leaves alone sees the
    updated first row. *)
Lemma fetchone_select_update w w' f t :
  (forall r, w (f r) = w r) ->
  Sql.fetchone (Sql.select w (Sql.update w' f t))
  = option_map (fun r => if w' r then f r else r) (Sql.fetchone (Sql.select w t)).
Proof.
  intros Hw. unfold Sql.fetchone, Sql.select, Sql.update.
  induction t as [|x t IH]; simpl; [reflexivity|].
  assert (E : w (if w' x then f x else x) = w x) by (destruct (w' x); auto).
  rewrite E. destruct (w x); simpl; auto.
Qed.

Lemma select_insert w r t :
  Sql.select w (Sql.insert r t) = Sql.select w t ++ (if w r then [r] else []).
Proof.
  unfold Sql.select, Sql.insert. rewrite filter_app. simpl.
  destruct (w r); reflexivity.
Qed.

Lemma Forall_update (P : row -> Prop) w f t :
  Forall P t -> (forall r, In r t -> w r = true -> P r -> P (f r)) ->
  Forall P (Sql.update w f t).
Proof.
  unfold Sql.update. intros H Hf. rewrite Forall_forall in *.
  intros y Hy. apply in_map_iff in Hy as (x & <- & Hx).
  destruct (w x) eqn:E; auto.
Qed.

Lemma Forall_delete (P : row -> Prop) w t :
  Forall P t -> Forall P (Sql.delete w t).
Proof.
  unfold Sql.delete. rewrite !Forall_forall. intros H y Hy.
  apply filter_In in Hy as [Hy _]. auto.
Qed.

Lemma Forall_insert (P : row -> Prop) r t :
  Forall P t -> P r -> Forall P (Sql.insert r t).
Proof.
  unfold Sql.insert. intros. apply Forall_app. auto.
Qed.
End Table.

Lemma Qlt_bool_true x y : Sql.Qlt_bool x y = true <-> (x < y)%Q.
Proof.
  unfold Sql.Qlt_bool. rewrite negb_true_iff, <- not_true_iff_false, Qle_bool_iff.
  split; [apply Qnot_le_lt | apply Qlt_not_le].
Qed.

Lemma Qlt_bool_false x y : Sql.Qlt_bool x y = false <-> (y <= x)%Q.
Proof.
  unfold Sql.Qlt_bool. rewrite negb_false_iff. apply Qle_bool_iff.
Qed.
End SqlFacts.

(** ** Buying and selling *)

Module LedgerFacts.
Import Observe.

Lemma ensure_demo_user_existing u d r :
  fetch_user u d = Some r -> Ledger.ensure_demo_user u d = d.
Proof.
  intros H. unfold Ledger.ensure_demo_user. rewrite H.
  destruct (u =? "demo_user_001")%string; reflexivity.
Qed.

(** C2.  A buy by a user whose wallet balance is below the price is refused
    for insufficient funds, and a sell by a user who has no holdings row of
    the asset, or a row with less than the one share sold, is refused for
    insufficient holdings; either refusal returns the database as it was:
    same wallets, same holdings rows, same transaction log. *)
Theorem execute_transaction_refusals :
  forall (user_id asset_type asset_name : string) (price : Q) (d : db) (account : Users.row),
    fetch_user user_id d = Some account ->
    ((Users.wallet_balance account < price)%Q ->
       Ledger.execute_transaction user_id asset_type asset_name "buy" price d
       = ((false, Ledger.InsufficientFunds price (Users.wallet_balance account)), d))
    /\ ((fetch_holding user_id asset_type asset_name d = None
         \/ exists h, fetch_holding user_id asset_type asset_name d = Some h
                      /\ (Holdings.quantity h < 1)%Z) ->
       Ledger.execute_transaction user_id asset_type asset_name "sell" price d
       = ((false, Ledger.NoSharesToSell asset_name), d)).
Proof.
  intros u ty n p d r Hu. unfold Ledger.execute_transaction.
  rewrite (ensure_demo_user_existing _ _ _ Hu), Hu. simpl. split.
  - intros Hlt. apply SqlFacts.Qlt_bool_true in Hlt. now rewrite Hlt.
  - intros [Hnone | (h & Hh & Hq)].
    + now rewrite Hnone.
    + rewrite Hh. apply Z.ltb_lt in Hq. now rewrite Hq.
Qed.

(** Both refusals on a concrete account: balance 5, no shares. *)
Lemma execute_transaction_refusals_witness :
  let d := mkdb [Users.mk "u1" "Ann" (5 # 1) (Some true)] [] 1 [] [] [] [] [] 1 [] 1 [] 1 in
  Ledger.execute_transaction "u1" "Player" "Josh Allen" "buy" (10 # 1) d
  = ((false, Ledger.InsufficientFunds (10 # 1) (5 # 1)), d)
  /\ Ledger.execute_transaction "u1" "Player" "Josh Allen" "sell" (10 # 1) d
     = ((false, Ledger.NoSharesToSell "Josh Allen"), d).
Proof.
  intros d.
  destruct (execute_transaction_refusals "u1" "Player" "Josh Allen" (10 # 1) d
              (Users.mk "u1" "Ann" (5 # 1) (Some true)) eq_refl) as [Hbuy Hsell].
  split.
  - apply Hbuy. reflexivity.
  - apply Hsell. left. reflexivity.
Defined.

(** *** Sums of quantities under statements keyed by the row id *)

Lemma Zsum_app xs ys : Zsum (xs ++ ys) = (Zsum xs + Zsum ys)%Z.
Proof. unfold Zsum. induction xs; simpl; lia. Qed.

Lemma no_other_row_with_id (x : Holdings.row) t :
  ~ In (Holdings.id x) (map Holdings.id t) ->
  forall r, In r t -> Holdings.has_id (Holdings.id x) r = false.
Proof.
  intros Hx r Hr. unfold Holdings.has_id. apply Z.eqb_neq. intros E.
  apply Hx. rewrite <- E. now apply in_map.
Qed.

Lemma quantity_sum_update_by_id (w : Holdings.row -> bool) t h q :
  (forall r, w (Holdings.add_quantity q r) = w r) ->
  NoDup (map Holdings.id t) -> In h t ->
  Zsum (map Holdings.quantity
            (Sql.select w (Sql.update (Holdings.has_id (Holdings.id h))
                                      (Holdings.add_quantity q) t)))
  = (Zsum (map Holdings.quantity (Sql.select w t)) + (if w h then q else 0))%Z.
Proof.
  intros Hw. induction t as [|x t IH]; simpl; [tauto|].
  intros Hnd Hin. inversion Hnd as [|? ? Hx Hnd']; subst.
  destruct Hin as [-> | Hin].
  - assert (E : Holdings.has_id (Holdings.id h) h = true)
      by (unfold Holdings.has_id; apply Z.eqb_refl).
    rewrite !E.
    fold (Sql.update (Holdings.has_id (Holdings.id h)) (Holdings.add_quantity q) t).
    rewrite (SqlFacts.update_none _ _ _ (no_other_row_with_id h t Hx)).
    rewrite Hw. destruct (w h); simpl; lia.
  - assert (E : Holdings.has_id (Holdings.id h) x = false).
    { unfold Holdings.has_id. apply Z.eqb_neq. intros E. apply Hx. rewrite E.
      now apply in_map. }
    rewrite E.
    fold (Sql.update (Holdings.has_id (Holdings.id h)) (Holdings.add_quantity q) t).
    specialize (IH Hnd' Hin). unfold Sql.select in *.
    destruct (w x); simpl; lia.
Qed.

Lemma quantity_sum_delete_by_id (w : Holdings.row -> bool) t h :
  NoDup (map Holdings.id t) -> In h t ->
  Zsum (map Holdings.quantity
            (Sql.select w (Sql.delete (Holdings.has_id (Holdings.id h)) t)))
  = (Zsum (map Holdings.quantity (Sql.select w t))
     - (if w h then Holdings.quantity h else 0))%Z.
Proof.
  induction t as [|x t IH]; simpl; [tauto|].
  intros Hnd Hin. inversion Hnd as [|? ? Hx Hnd']; subst.
  destruct Hin as [-> | Hin].
  - assert (E0 : Holdings.has_id (Holdings.id h) h = true)
      by (unfold Holdings.has_id; apply Z.eqb_refl).
    rewrite !E0. simpl.
    assert (E : Sql.delete (Holdings.has_id (Holdings.id h)) t = t).
    { unfold Sql.delete. apply forallb_filter_id. apply forallb_forall.
      intros r Hr. now rewrite (no_other_row_with_id h t Hx r Hr). }
    rewrite E. destruct (w h); simpl; lia.
  - assert (E : Holdings.has_id (Holdings.id h) x = false).
    { unfold Holdings.has_id. apply Z.eqb_neq. intros E. apply Hx. rewrite E.
      now apply in_map. }
    rewrite E. simpl. specialize (IH Hnd' Hin). unfold Sql.select, Sql.delete in *.
    destruct (w x); simpl; lia.
Qed.

Lemma ids_update (w : Holdings.row -> bool) q t :
  map Holdings.id (Sql.update w (Holdings.add_quantity q) t) = map Holdings.id t.
Proof.
  unfold Sql.update. rewrite map_map. apply map_ext. intros r. now destruct (w r).
Qed.

Lemma user_ids_update (w : Users.row -> bool) f t :
  (forall r, Users.id (f r) = Users.id r) ->
  map Users.id (Sql.update w f t) = map Users.id t.
Proof.
  intros Hf. unfold Sql.update. rewrite map_map. apply map_ext. intros r.
  destruct (w r); auto.
Qed.

Lemma NoDup_ids_delete (w : Holdings.row -> bool) t :
  NoDup (map Holdings.id t) -> NoDup (map Holdings.id (Sql.delete w t)).
Proof.
  unfold Sql.delete. induction t as [|x t IH]; simpl; auto.
  intros Hnd. inversion Hnd as [|? ? Hx Hnd']; subst.
  destruct (w x); simpl; auto. constructor; auto.
  intros Hin. apply Hx. apply in_map_iff in Hin as (y & Hy & Hin).
  apply filter_In in Hin as [Hin _]. rewrite <- Hy. now apply in_map.
Qed.

(** Two rows of a keyed table with the same key are the same row. *)
Lemma keyed_row_unique {row key : Type} (k : row -> key) t (r x : row) :
  NoDup (map k t) -> In r t -> In x t -> k x = k r -> x = r.
Proof.
  induction t as [|y t IH]; simpl; [tauto|].
  intros Hnd Hr Hx E. inversion Hnd as [|? ? Hy Hnd']; subst.
  destruct Hr as [-> | Hr], Hx as [-> | Hx]; auto.
  - exfalso. apply Hy. rewrite <- E. now apply in_map.
  - exfalso. apply Hy. rewrite E. now apply in_map.
Qed.

Lemma Forall_ids_delete (P : Z -> Prop) (w : Holdings.row -> bool) t :
  Forall P (map Holdings.id t) -> Forall P (map Holdings.id (Sql.delete w t)).
Proof.
  rewrite !Forall_map. apply SqlFacts.Forall_delete.
Qed.

Lemma is_asset_add_quantity u ty n q r :
  Holdings.is_asset u ty n (Holdings.add_quantity q r) = Holdings.is_asset u ty n r.
Proof. reflexivity. Qed.

(** A row of one asset belongs to another asset's query exactly when the
    two assets have the same type and name. *)
Lemma is_asset_other u ty n ty' n' h :
  Holdings.is_asset u ty n h = true ->
  Holdings.is_asset u ty' n' h = ((ty =? ty')%string && (n =? n')%string).
Proof.
  unfold Holdings.is_asset. rewrite !andb_true_iff, !String.eqb_eq.
  intros [[-> ->] ->]. now rewrite String.eqb_refl.
Qed.

Lemma fetch_user_row u d r :
  fetch_user u d = Some r -> In r (users d) /\ Users.id r = u.
Proof.
  intros H. apply SqlFacts.fetchone_select_some in H as [Hin Hid].
  split; auto. now apply String.eqb_eq.
Qed.

Lemma fetch_user_updated u f d r :
  (forall x, Users.id (f x) = Users.id x) ->
  fetch_user u d = Some r ->
  Sql.fetchone (Sql.select (Users.has_id u) (Sql.update (Users.has_id u) f (users d)))
  = Some (f r).
Proof.
  intros Hf H. rewrite SqlFacts.fetchone_select_update.
  - fold (fetch_user u d). rewrite H. simpl.
    apply SqlFacts.fetchone_select_some in H as [_ ->]. reflexivity.
  - intros x. unfold Users.has_id. now rewrite Hf.
Qed.

(** *** One request *)

(** From here on the statements stay folded while records are projected. *)
Arguments Sql.select {row} w t : simpl never.
Arguments Sql.update {row} w set t : simpl never.
Arguments Sql.delete {row} w t : simpl never.
Arguments Sql.insert {row} r t : simpl never.
Arguments Sql.count {row} w t : simpl never.
Arguments Sql.fetchone {row} rs : simpl never.
Arguments Observe.Zsum xs : simpl never.


Lemma run_spec u o d r res d' :
  fetch_user u d = Some r -> primary_keys d -> run u o d = (res, d') ->
  (fst res = false -> d' = d)
  /\ (fst res = true ->
      (exists r', fetch_user u d' = Some r'
                  /\ Users.wallet_balance r' = (Users.wallet_balance r + cash_delta o)%Q)
      /\ (forall ty n, held u ty n d' = (held u ty n d + quantity_delta ty n o)%Z)
      /\ primary_keys d'
      /\ (non_negative d -> (0 <= op_price o)%Q -> non_negative d')).
Proof.
  intros Hu (Kusers & Kids & Kseq).
  destruct (fetch_user_row _ _ _ Hu) as [Hr_in Hr_id].
  unfold run, Ledger.execute_transaction.
  rewrite (ensure_demo_user_existing _ _ _ Hu), Hu. cbv zeta.
  unfold cash_delta, quantity_delta.
  destruct (op_transaction_type o =? "buy")%string eqn:Ebuy.
  - (* buy *)
    destruct (Sql.Qlt_bool (Users.wallet_balance r) (op_price o)) eqn:Efunds.
    { intros [= <- <-]. split; [reflexivity | discriminate]. }
    apply SqlFacts.Qlt_bool_false in Efunds.
    change (fetch_holding u (op_asset_type o) (op_asset_name o)
              (debit_wallet u (op_price o) d))
      with (fetch_holding u (op_asset_type o) (op_asset_name o) d).
    destruct (fetch_holding u (op_asset_type o) (op_asset_name o) d) as [h|] eqn:Eh;
      intros [= <- <-]; (split; [discriminate | intros _]).
    + apply SqlFacts.fetchone_select_some in Eh as [Hh_in Hh].
      repeat split.
      * exists (Users.sub_wallet_balance (op_price o) r). split; [|reflexivity].
        unfold fetch_user. cbn. now apply fetch_user_updated.
      * intros ty n. unfold held. cbn.
        rewrite quantity_sum_update_by_id by auto using is_asset_add_quantity.
        now rewrite (is_asset_other _ _ _ ty n _ Hh).
      * cbn. now rewrite user_ids_update.
      * cbn. now rewrite ids_update.
      * cbn. now rewrite ids_update.
      * cbn. apply SqlFacts.Forall_update; [apply H|].
        intros x Hx Hid _. apply String.eqb_eq in Hid.
        assert (x = r) as -> by (apply (keyed_row_unique Users.id (users d)); congruence).
        cbn. lra.
      * cbn. apply SqlFacts.Forall_update; [apply H|].
        intros x _ _ Hq. cbn. lia.
    + repeat split.
      * exists (Users.sub_wallet_balance (op_price o) r). split; [|reflexivity].
        unfold fetch_user. cbn. now apply fetch_user_updated.
      * intros ty n. unfold held. cbn.
        rewrite SqlFacts.select_insert, map_app, Zsum_app. f_equal.
        unfold Holdings.is_asset at 1. cbn. rewrite String.eqb_refl. cbn.
        destruct ((op_asset_type o =? ty)%string && (op_asset_name o =? n)%string);
          reflexivity.
      * cbn. now rewrite user_ids_update.
      * cbn. unfold Sql.insert. rewrite map_app. cbn. apply NoDup_app; auto.
        -- constructor; [tauto | constructor].
        -- intros i Hi [<- | []]. rewrite Forall_forall in Kseq.
           specialize (Kseq _ Hi). lia.
      * cbn. unfold Sql.insert. rewrite map_app. apply Forall_app. split.
        -- eapply Forall_impl; [|exact Kseq]. cbn. intros; lia.
        -- cbn. constructor; [lia | constructor].
      * cbn. apply SqlFacts.Forall_update; [apply H|].
        intros x Hx Hid _. apply String.eqb_eq in Hid.
        assert (x = r) as -> by (apply (keyed_row_unique Users.id (users d)); congruence).
        cbn. lra.
      * cbn. apply SqlFacts.Forall_insert; [apply H | cbn; lia].
  - (* not a buy *)
    destruct (op_transaction_type o =? "sell")%string eqn:Esell.
    2: { intros [= <- <-]. split; [reflexivity | discriminate]. }
    destruct (fetch_holding u (op_asset_type o) (op_asset_name o) d) as [h|] eqn:Eh.
    2: { intros [= <- <-]. split; [reflexivity | discriminate]. }
    destruct (Holdings.quantity h <? 1)%Z eqn:Eq.
    { intros [= <- <-]. split; [reflexivity | discriminate]. }
    apply Z.ltb_ge in Eq.
    apply SqlFacts.fetchone_select_some in Eh as [Hh_in Hh].
    intros [= <- <-]. split; [discriminate | intros _].
    assert (Hbal : exists r',
               Sql.fetchone (Sql.select (Users.has_id u)
                 (Sql.update (Users.has_id u) (Users.add_wallet_balance (op_price o))
                             (users d))) = Some r'
               /\ Users.wallet_balance r' = (Users.wallet_balance r + op_price o)%Q).
    { exists (Users.add_wallet_balance (op_price o) r). split; [|reflexivity].
      now apply fetch_user_updated. }
    destruct (Holdings.quantity h =? 1)%Z eqn:Eone.
    + apply Z.eqb_eq in Eone. repeat split.
      * exact Hbal.
      * intros ty n. unfold held. cbn.
        rewrite quantity_sum_delete_by_id by auto.
        rewrite (is_asset_other _ _ _ ty n _ Hh), Eone.
        destruct ((op_asset_type o =? ty)%string && (op_asset_name o =? n)%string); lia.
      * cbn. now rewrite user_ids_update.
      * cbn. now apply NoDup_ids_delete.
      * cbn. now apply Forall_ids_delete.
      * cbn. apply SqlFacts.Forall_update; [apply H|].
        intros x _ _ Hx. cbn. lra.
      * cbn. apply SqlFacts.Forall_delete. apply H.
    + apply Z.eqb_neq in Eone. repeat split.
      * exact Hbal.
      * intros ty n. unfold held. cbn.
        rewrite quantity_sum_update_by_id by auto using is_asset_add_quantity.
        rewrite (is_asset_other _ _ _ ty n _ Hh).
        destruct ((op_asset_type o =? ty)%string && (op_asset_name o =? n)%string); lia.
      * cbn. now rewrite user_ids_update.
      * cbn. now rewrite ids_update.
      * cbn. now rewrite ids_update.
      * cbn. apply SqlFacts.Forall_update; [apply H|].
        intros x _ _ Hx. cbn. lra.
      * cbn. apply SqlFacts.Forall_update; [apply H|].
        intros x Hx Hid _. apply Z.eqb_eq in Hid.
        assert (x = h) as -> by (apply (keyed_row_unique Holdings.id (holdings d)); auto).
        cbn. lia.
Qed.

(** *** Sequences of requests *)

Lemma replay_cons u o rest d :
  replay u (o :: rest) d
  = (if fst (fst (run u o d))
     then o :: fst (replay u rest (snd (run u o d)))
     else fst (replay u rest (snd (run u o d))),
     snd (replay u rest (snd (run u o d)))).
Proof.
  simpl. destruct (run u o d) as [res d1]. simpl.
  destruct (replay u rest d1). reflexivity.
Qed.

Lemma replay_spec u ops :
  forall d r0,
    fetch_user u d = Some r0 -> primary_keys d ->
    (exists r', fetch_user u (snd (replay u ops d)) = Some r'
                /\ (Users.wallet_balance r'
                    == Users.wallet_balance r0
                       + Sql.Qsum (map cash_delta (fst (replay u ops d))))%Q)
    /\ (forall ty n,
           held u ty n (snd (replay u ops d))
           = (held u ty n d + Zsum (map (quantity_delta ty n) (fst (replay u ops d))))%Z)
    /\ (non_negative d -> Forall (fun o => (0 <= op_price o)%Q) ops ->
        non_negative (snd (replay u ops d))).
Proof.
  induction ops as [|o rest IH]; intros d r0 Hu Hk.
  - simpl. split; [|split].
    + exists r0. split; [assumption | unfold Sql.Qsum; simpl; lra].
    + intros. unfold Zsum. simpl. lia.
    + tauto.
  - rewrite replay_cons. destruct (run u o d) as [res d1] eqn:E.
    destruct (run_spec u o d r0 res d1 Hu Hk E) as [Hrefused Haccepted].
    cbn [fst snd]. destruct (fst res) eqn:Eres.
    + destruct (Haccepted eq_refl) as ((r1 & Hu1 & Hb1) & Hq1 & Hk1 & Hn1).
      destruct (IH d1 r1 Hu1 Hk1) as ((r' & Hu' & Hb') & Hq' & Hn').
      split; [|split].
      * exists r'. split; [assumption|]. rewrite Hb', Hb1.
        unfold Sql.Qsum. simpl. ring.
      * intros ty n. rewrite Hq', Hq1. unfold Zsum. simpl. lia.
      * intros Hn Hp. inversion Hp; subst. apply Hn'; auto.
    + rewrite (Hrefused eq_refl).
      destruct (IH d r0 Hu Hk) as (Hb' & Hq' & Hn').
      split; [|split]; auto.
      intros Hn Hp. inversion Hp; subst. apply Hn'; auto.
Qed.

(** C1.  Replaying any sequence of buy and sell requests of one account
    through [execute_transaction]: the final wallet balance is the initial
    one plus the sum of the signed prices of the accepted requests, the
    final number of shares held of every asset is the initial one plus the
    sum of the signed unit quantities of the accepted requests for that
    asset, and, starting from non-negative wallets and holdings with
    non-negative prices, the state after every request of the sequence has
    no negative wallet and no negative holdings row. *)
Theorem replay_sums_deltas_and_stays_non_negative :
  forall (user_id : string) (ops : list operation) (d : db) (account : Users.row),
    fetch_user user_id d = Some account ->
    primary_keys d ->
    (exists account',
        fetch_user user_id (snd (replay user_id ops d)) = Some account'
        /\ (Users.wallet_balance account'
            == Users.wallet_balance account
               + Sql.Qsum (map cash_delta (fst (replay user_id ops d))))%Q)
    /\ (forall asset_type asset_name,
           held user_id asset_type asset_name (snd (replay user_id ops d))
           = (held user_id asset_type asset_name d
              + Zsum (map (quantity_delta asset_type asset_name)
                          (fst (replay user_id ops d))))%Z)
    /\ (non_negative d -> Forall (fun o => (0 <= op_price o)%Q) ops ->
        forall k, non_negative (snd (replay user_id (firstn k ops) d))).
Proof.
  intros u ops d r0 Hu Hk.
  destruct (replay_spec u ops d r0 Hu Hk) as (Hb & Hq & _).
  split; [|split]; auto.
  intros Hn Hp k.
  destruct (replay_spec u (firstn k ops) d r0 Hu Hk) as (_ & _ & Hnk).
  apply Hnk; [assumption|].
  rewrite Forall_forall in *. intros o Ho. apply Hp.
  rewrite <- (firstn_skipn k ops). apply in_or_app. now left.
Qed.

(** A replay on a concrete account, with two accepted and two refused
    requests. *)
Lemma replay_sums_deltas_and_stays_non_negative_witness :
  let d := mkdb [Users.mk "u1" "Ann" (25 # 1) (Some true)]
                [Holdings.mk 1 "u1" "Josh Allen" "Player" 2] 2
                [] [] [] [] [] 1 [] 1 [] 1 in
  let ops := [mk_operation "Player" "Josh Allen" "buy" (10 # 1);
              mk_operation "Player" "Josh Allen" "buy" (20 # 1);
              mk_operation "Team Fund" "AFC East" "sell" (5 # 1);
              mk_operation "Player" "Josh Allen" "sell" (30 # 1)] in
  fst (replay "u1" ops d)
  = [mk_operation "Player" "Josh Allen" "buy" (10 # 1);
     mk_operation "Player" "Josh Allen" "sell" (30 # 1)]
  /\ (exists account',
        fetch_user "u1" (snd (replay "u1" ops d)) = Some account'
        /\ (Users.wallet_balance account'
            == (25 # 1) + Sql.Qsum (map cash_delta (fst (replay "u1" ops d))))%Q)
  /\ (forall asset_type asset_name,
         held "u1" asset_type asset_name (snd (replay "u1" ops d))
         = (held "u1" asset_type asset_name d
            + Zsum (map (quantity_delta asset_type asset_name)
                        (fst (replay "u1" ops d))))%Z)
  /\ (forall k, non_negative (snd (replay "u1" (firstn k ops) d))).
Proof.
  intros d ops.
  assert (Hk : primary_keys d).
  { unfold primary_keys, d. simpl. repeat split.
    - constructor; [simpl; tauto | constructor].
    - constructor; [simpl; tauto | constructor].
    - constructor; [lia | constructor]. }
  assert (Hn : non_negative d).
  { unfold non_negative, d. simpl. split.
    - constructor; [cbn; discriminate | constructor].
    - constructor; [cbn; lia | constructor]. }
  assert (Hp : Forall (fun o => (0 <= op_price o)%Q) ops).
  { unfold ops. repeat constructor; discriminate. }
  destruct (replay_sums_deltas_and_stays_non_negative
              "u1" ops d (Users.mk "u1" "Ann" (25 # 1) (Some true)) eq_refl Hk)
    as (Hb & Hq & Hnn).
  split; [reflexivity|]. split; [exact Hb|]. split; [exact Hq|]. exact (Hnn Hn Hp).
Defined.

(** *** The cost basis of a sale *)

Lemma transactions_ensure_demo_user u d :
  transactions (Ledger.ensure_demo_user u d) = transactions d.
Proof.
  unfold Ledger.ensure_demo_user.
  destruct (u =? "demo_user_001")%string; [|reflexivity].
  destruct (fetch_user u d); reflexivity.
Qed.

Lemma Qsum_positive xs :
  xs <> [] -> Forall (fun x => (0 < x)%Q) xs -> (0 < Sql.Qsum xs)%Q.
Proof.
  unfold Sql.Qsum. induction xs as [|x xs IH]; [congruence|].
  intros _ H. inversion H as [|? ? Hx Hxs]; subst. simpl.
  destruct xs as [|y ys].
  - simpl. lra.
  - assert (0 < fold_right Qplus 0 (y :: ys))%Q by (apply IH; [discriminate | assumption]).
    lra.
Qed.

Lemma mean_positive xs :
  xs <> [] -> Forall (fun x => (0 < x)%Q) xs -> (0 < mean xs)%Q.
Proof.
  intros Hne Hpos. unfold mean. apply Qlt_shift_div_l.
  - destruct xs as [|x xs]; [congruence|]. unfold Qlt. simpl. lia.
  - rewrite Qmult_0_l. now apply Qsum_positive.
Qed.

(** C8.  On an accepted sale the cost basis used for the profit is the
    arithmetic mean of the unit prices of the user's earlier 'Buy' rows of
    that asset, or the sale price itself when there is no such row, and the
    profit is the sale price minus that cost basis, a difference of two
    floats; the 'Sell' row that is appended records both to the cent, as
    its [NUMERIC(10, 2)] columns hold them.  Recorded buy prices are positive (the platform keeps every price
    at one cent or more); a zero average would read as false in the truth
    test of the average and select the sale price. *)
Theorem sell_cost_basis_is_mean_of_buys :
  forall (user_id asset_type asset_name : string) (price : Q) (d d' : db)
         (msg : Ledger.message),
    Ledger.execute_transaction user_id asset_type asset_name "sell" price d
    = ((true, msg), d') ->
    Forall (fun x => (0 < x)%Q) (buy_prices user_id asset_type asset_name d) ->
    let basis := match buy_prices user_id asset_type asset_name d with
                 | [] => price
                 | _ :: _ => mean (buy_prices user_id asset_type asset_name d)
                 end in
    exists sale,
      transactions d' = transactions d ++ [sale]
      /\ Transactions.transaction_type sale = "Sell"
      /\ Transactions.price sale = price
      /\ Transactions.purchase_price sale = Binary64.to_numeric2 (Binary64.of_Q basis)
      /\ Transactions.profit_loss sale
         = Binary64.to_numeric2 (Binary64.sub (Binary64.of_Q price) (Binary64.of_Q basis)).
Proof.
  intros u ty n p d d' msg Hrun Hpos basis.
  assert (Hbasis : forall dd, transactions dd = transactions d ->
             Ledger.avg_purchase_price u ty n p dd = basis).
  { intros dd Hdd. unfold Ledger.avg_purchase_price, Sql.avg, Sql.select.
    rewrite Hdd. fold (buy_prices u ty n d). unfold basis.
    destruct (buy_prices u ty n d) as [|x xs] eqn:E; [reflexivity|].
    fold (mean (x :: xs)).
    assert (Hm : (0 < mean (x :: xs))%Q) by (apply mean_positive; [discriminate | assumption]).
    destruct (Qeq_bool (mean (x :: xs)) 0) eqn:Ez; [|reflexivity].
    apply Qeq_bool_eq in Ez. lra. }
  unfold Ledger.execute_transaction in Hrun.
  pose proof (transactions_ensure_demo_user u d) as Ht.
  destruct (fetch_user u (Ledger.ensure_demo_user u d)); [|discriminate].
  cbv zeta in Hrun. change ("sell" =? "buy")%string with false in Hrun.
  change ("sell" =? "sell")%string with true in Hrun. cbv iota in Hrun.
  destruct (fetch_holding u ty n (Ledger.ensure_demo_user u d)) as [h|]; [|discriminate].
  destruct (Holdings.quantity h <? 1)%Z; [discriminate|].
  destruct (Holdings.quantity h =? 1)%Z; injection Hrun as _ <-;
    (eexists; split; [|split; [|split; [|split]]];
     [ cbn; rewrite Ht; reflexivity
     | reflexivity
     | reflexivity
     | cbn; rewrite Hbasis by exact Ht; reflexivity
     | cbn; rewrite Hbasis by exact Ht; reflexivity ]).
Qed.

(** The example of the specification: after buys at 10 and at 20, a sale at
    30 records a cost basis of 15 and a profit of 15. *)
Lemma sell_cost_basis_is_mean_of_buys_witness :
  let d0 := mkdb [Users.mk "u1" "Ann" (100 # 1) (Some true)] [] 1
                 [] [] [] [] [] 1 [] 1 [] 1 in
  let d1 := snd (Ledger.execute_transaction "u1" "Player" "Josh Allen" "buy" (10 # 1) d0) in
  let d2 := snd (Ledger.execute_transaction "u1" "Player" "Josh Allen" "buy" (20 # 1) d1) in
  let d3 := snd (Ledger.execute_transaction "u1" "Player" "Josh Allen" "sell" (30 # 1) d2) in
  buy_prices "u1" "Player" "Josh Allen" d2 = [10 # 1; 20 # 1]
  /\ exists sale,
       transactions d3 = transactions d2 ++ [sale]
       /\ Transactions.transaction_type sale = "Sell"
       /\ (Transactions.purchase_price sale == 15 # 1)%Q
       /\ (Transactions.profit_loss sale == 15 # 1)%Q.
Proof.
  intros d0 d1 d2 d3. split; [reflexivity|].
  destruct (sell_cost_basis_is_mean_of_buys
              "u1" "Player" "Josh Allen" (30 # 1) d2 d3 (Ledger.Sold "Josh Allen" (30 # 1)))
    as (sale & Hlog & Hty & _ & Hbasis & Hpl).
  - vm_compute. reflexivity.
  - vm_compute. repeat constructor.
  - exists sale. split; [exact Hlog|]. split; [exact Hty|].
    split; [rewrite Hbasis | rewrite Hpl]; vm_compute; reflexivity.
Defined.

(** A mean that is not a whole number of cents: after buys at 10, 10 and
    11 the mean is 31/3, and a sale at 30 records a cost basis of 10.33 and
    a profit of 19.67. *)
Remark thirds_are_recorded_to_the_cent :
  let d0 := mkdb [Users.mk "u1" "Ann" (100 # 1) (Some true)] [] 1
                 [] [] [] [] [] 1 [] 1 [] 1 in
  let buy := fun p d => snd (Ledger.execute_transaction "u1" "Player" "Josh Allen" "buy" p d) in
  let d3 := buy (11 # 1) (buy (10 # 1) (buy (10 # 1) d0)) in
  let d4 := snd (Ledger.execute_transaction "u1" "Player" "Josh Allen" "sell" (30 # 1) d3) in
  (mean (buy_prices "u1" "Player" "Josh Allen" d3) == 31 # 3)%Q
  /\ map (fun r => (Transactions.purchase_price r, Transactions.profit_loss r))
         (filter (fun r => (Transactions.transaction_type r =? "Sell")%string)
                 (transactions d4))
     = [(1033 # 100, 1967 # 100)].
Proof. vm_compute. split; reflexivity. Qed.

(** A mean on a half cent: after buys at 10.01 and 10.02 the mean is
    10.015, stored as 10.02, and a sale at 30 records a profit of 19.99.
    After buys at 826.77 and 911.02 the mean 868.895 is stored as 868.90;
    a sale at 677.12 leaves the float -191.77499999999998, a little short
    of the half cent, and records a loss of 191.77. *)
Remark half_cents_are_recorded_as_the_floats_print :
  let d0 := mkdb [Users.mk "u1" "Ann" (2000 # 1) (Some true)] [] 1
                 [] [] [] [] [] 1 [] 1 [] 1 in
  let buy := fun p d => snd (Ledger.execute_transaction "u1" "Player" "Josh Allen" "buy" p d) in
  let sell := fun p d => snd (Ledger.execute_transaction "u1" "Player" "Josh Allen" "sell" p d) in
  let sales := fun d =>
    map (fun r => (Transactions.purchase_price r, Transactions.profit_loss r))
        (filter (fun r => (Transactions.transaction_type r =? "Sell")%string)
                (transactions d)) in
  sales (sell (30 # 1) (buy (1002 # 100) (buy (1001 # 100) d0)))
  = [(1002 # 100, 1999 # 100)]
  /\ sales (sell (67712 # 100) (buy (91102 # 100) (buy (82677 # 100) d0)))
     = [(86890 # 100, - (19177 # 100))]%Q.
Proof. vm_compute. split; reflexivity. Qed.

(** Outside that domain: after a single buy at price 0 the average is 0,
    which the truth test takes for a missing average, and a sale at 30
    records the sale price as cost basis and a profit of 0. *)
Remark zero_average_selects_sale_price :
  let d0 := mkdb [Users.mk "u1" "Ann" (100 # 1) (Some true)] [] 1
                 [] [] [] [] [] 1 [] 1 [] 1 in
  let d1 := snd (Ledger.execute_transaction "u1" "Player" "Josh Allen" "buy" 0 d0) in
  let d2 := snd (Ledger.execute_transaction "u1" "Player" "Josh Allen" "sell" (30 # 1) d1) in
  map (fun r => (Transactions.transaction_type r, Transactions.purchase_price r,
                 Transactions.profit_loss r)) (transactions d2)
  = [("Buy", 0, 0); ("Sell", 3000 # 100, 0 # 100)]%Q.
Proof. vm_compute. reflexivity. Qed.

End LedgerFacts.

(** ** Wagering *)

Module WageringFacts.
Import Observe.

Lemma not_verified u d :
  (forall r, fetch_user u d = Some r -> Users.is_verified_adult r <> Some true) ->
  Wagering.truthy (Wagering.is_user_verified_adult u d) = false.
Proof.
  intros H. unfold Wagering.is_user_verified_adult.
  destruct (fetch_user u d) as [r|]; [|reflexivity].
  specialize (H r eq_refl).
  destruct (Users.is_verified_adult r) as [[|]|]; simpl; congruence.
Qed.

(** C10.  For a user whose [is_verified_adult] flag is not true, unknown
    users included, [place_bet] and [create_parlay_bet] answer with the
    age-verification message and return the database as it was, whatever
    the stake, the game, the selections and the funds. *)
Theorem wagering_requires_verified_adult :
  forall (user_id : string) (d : db),
    (forall r, fetch_user user_id d = Some r -> Users.is_verified_adult r <> Some true) ->
    (forall game_id bet_type bet_pick amount now,
        Wagering.place_bet user_id game_id bet_type bet_pick amount now d
        = ((false, Wagering.MustBe21, None), d))
    /\ (forall bets amount now,
           Wagering.create_parlay_bet user_id bets amount now d
           = ((false, Wagering.MustBe21, None), d)).
Proof.
  intros u d H. apply not_verified in H. split; intros.
  - unfold Wagering.place_bet. now rewrite H.
  - unfold Wagering.create_parlay_bet. now rewrite H.
Qed.

(** The age gate on three accounts: flag false, flag NULL, unknown user;
    each has, or would have, funds and an open game. *)
Lemma wagering_requires_verified_adult_witness :
  let d := mkdb [Users.mk "minor" "Max" (500 # 1) (Some false);
                 Users.mk "blank" "Bo" (500 # 1) None]
                [] 1 [] [] []
                [Games.mk 1 "Dallas Cowboys" "Buffalo Bills" 100 (191 # 100) (191 # 100)
                          (- (7 # 2)) (89 # 2) "scheduled" 0 0]
                [] 1 [] 1 [] 1 in
  Wagering.place_bet "minor" 1 "moneyline" "home" (10 # 1) 50 d
  = ((false, Wagering.MustBe21, None), d)
  /\ Wagering.place_bet "blank" 1 "spread" "away" (10 # 1) 50 d
     = ((false, Wagering.MustBe21, None), d)
  /\ Wagering.create_parlay_bet "nobody"
       [Wagering.mk_selection 1 "moneyline" "home"; Wagering.mk_selection 1 "spread" "home"]
       (10 # 1) 50 d
     = ((false, Wagering.MustBe21, None), d).
Proof.
  intros d. split; [|split].
  - apply (wagering_requires_verified_adult "minor" d).
    intros r [= <-]. discriminate.
  - apply (wagering_requires_verified_adult "blank" d).
    intros r [= <-]. discriminate.
  - apply (wagering_requires_verified_adult "nobody" d).
    intros r [=].
Defined.

(** C9, as the code has it.  [place_bet] has no minimum stake.  For a
    verified user and a game open for betting, every stake that does not
    exceed the wallet balance is accepted, be it below 5, zero or negative:
    the stake is debited and a pending bet of that amount is inserted, with
    the potential payout that Python's [round] makes of the float product
    of stake and odds.  A stake is refused only when it exceeds the
    balance, and then the database is returned as it was. *)
Theorem place_bet_checks_funds_only :
  forall (user_id : string) (game_id : Z) (bet_type bet_pick : string) (amount : Q)
         (now : Z) (d : db) (account : Users.row) (game : Games.row),
    Users.is_verified_adult account = Some true ->
    fetch_user user_id d = Some account ->
    Sql.fetchone (Sql.select (Wagering.open_for_betting game_id now) (upcoming_games d))
    = Some game ->
    ((amount <= Users.wallet_balance account)%Q ->
       let odds := Wagering.odds_of bet_type bet_pick game in
       let payout :=
         Wagering.round2 (Binary64.mul (Binary64.of_Q amount) (Binary64.of_Q odds)) in
       exists d',
         Wagering.place_bet user_id game_id bet_type bet_pick amount now d
         = ((true, Wagering.BetPlaced payout, Some (user_bets_seq d)), d')
         /\ balance user_id d' = Some (Users.wallet_balance account - amount)%Q
         /\ user_bets d'
            = user_bets d ++ [Bets.mk (user_bets_seq d) user_id game_id bet_type bet_pick
                                      amount payout odds "pending"])
    /\ ((Users.wallet_balance account < amount)%Q ->
         Wagering.place_bet user_id game_id bet_type bet_pick amount now d
         = ((false, Wagering.InsufficientFunds amount (Users.wallet_balance account), None),
            d)).
Proof.
  intros u g ty pick amt now d r game Hadult Hu Hgame.
  unfold Wagering.place_bet, Wagering.is_user_verified_adult.
  rewrite Hu, Hadult, Hgame. cbn [Wagering.truthy negb]. cbv iota. split.
  - intros Hle. apply SqlFacts.Qlt_bool_false in Hle. rewrite Hle.
    eexists. split; [reflexivity|]. split; [|reflexivity].
    unfold balance, fetch_user. cbn.
    rewrite (LedgerFacts.fetch_user_updated u (Users.sub_wallet_balance amt) d r);
      auto.
  - intros Hlt. apply SqlFacts.Qlt_bool_true in Hlt. now rewrite Hlt.
Qed.

(** Stakes of 3, of 0 and of -5 on a wallet of 100; and a stake of 10.50
    against the spread, where the float product of 10.5 and 1.91 lies just
    below 20.055 and the payout is 20.05. *)
Lemma place_bet_checks_funds_only_witness :
  let d := mkdb [Users.mk "u1" "Ann" (100 # 1) (Some true)] [] 1 [] [] []
                [Games.mk 1 "Dallas Cowboys" "Buffalo Bills" 100 (191 # 100) (2 # 1)
                          (- (7 # 2)) (89 # 2) "scheduled" 0 0]
                [] 1 [] 1 [] 1 in
  (exists d', Wagering.place_bet "u1" 1 "moneyline" "home" (3 # 1) 50 d
              = ((true, Wagering.BetPlaced (573 # 100), Some 1%Z), d')
              /\ balance "u1" d' = Some ((100 # 1) - (3 # 1))%Q)
  /\ (exists d', Wagering.place_bet "u1" 1 "moneyline" "home" 0 50 d
                 = ((true, Wagering.BetPlaced (0 # 100), Some 1%Z), d')
                 /\ balance "u1" d' = Some ((100 # 1) - 0)%Q)
  /\ (exists d', Wagering.place_bet "u1" 1 "moneyline" "away" (- (5 # 1)) 50 d
                 = ((true, Wagering.BetPlaced (- (1000 # 100)), Some 1%Z), d')
                 /\ balance "u1" d' = Some ((100 # 1) - - (5 # 1))%Q)
  /\ (exists d', Wagering.place_bet "u1" 1 "spread" "home" (21 # 2) 50 d
                 = ((true, Wagering.BetPlaced (2005 # 100), Some 1%Z), d')
                 /\ balance "u1" d' = Some ((100 # 1) - (21 # 2))%Q).
Proof.
  intros d.
  pose (game := Games.mk 1 "Dallas Cowboys" "Buffalo Bills" 100 (191 # 100) (2 # 1)
                         (- (7 # 2)) (89 # 2) "scheduled" 0 0).
  pose (account := Users.mk "u1" "Ann" (100 # 1) (Some true)).
  split; [|split; [|split]].
  - destruct (place_bet_checks_funds_only "u1" 1 "moneyline" "home" (3 # 1) 50 d
                account game eq_refl eq_refl eq_refl) as [Hok _].
    destruct (Hok ltac:(discriminate)) as (d' & Hrun & Hbal & _).
    exists d'. split; [exact Hrun | exact Hbal].
  - destruct (place_bet_checks_funds_only "u1" 1 "moneyline" "home" 0 50 d
                account game eq_refl eq_refl eq_refl) as [Hok _].
    destruct (Hok ltac:(discriminate)) as (d' & Hrun & Hbal & _).
    exists d'. split; [exact Hrun | exact Hbal].
  - destruct (place_bet_checks_funds_only "u1" 1 "moneyline" "away" (- (5 # 1)) 50 d
                account game eq_refl eq_refl eq_refl) as [Hok _].
    destruct (Hok ltac:(discriminate)) as (d' & Hrun & Hbal & _).
    exists d'. split; [exact Hrun | exact Hbal].
  - destruct (place_bet_checks_funds_only "u1" 1 "spread" "home" (21 # 2) 50 d
                account game eq_refl eq_refl eq_refl) as [Hok _].
    destruct (Hok ltac:(discriminate)) as (d' & Hrun & Hbal & _).
    exists d'. split; [exact Hrun | exact Hbal].
Defined.

(** C9, as stated, fails: a stake of 3, below the minimum of 5, placed by a
    verified user with a wallet of 100 on an open game, is accepted; the
    wallet is debited to 97 and a pending bet of 3 is recorded. *)
Lemma place_bet_accepts_stake_below_minimum :
  let d := mkdb [Users.mk "u1" "Ann" (100 # 1) (Some true)] [] 1 [] [] []
                [Games.mk 1 "Dallas Cowboys" "Buffalo Bills" 100 (191 # 100) (2 # 1)
                          (- (7 # 2)) (89 # 2) "scheduled" 0 0]
                [] 1 [] 1 [] 1 in
  let run := Wagering.place_bet "u1" 1 "moneyline" "home" (3 # 1) 50 d in
  fst (fst (fst run)) = true
  /\ balance "u1" (snd run) = Some (97 # 1)
  /\ user_bets (snd run)
     = [Bets.mk 1 "u1" 1 "moneyline" "home" (3 # 1) (573 # 100) (191 # 100) "pending"].
Proof.
  vm_compute. repeat split.
Qed.

End WageringFacts.

(** ** Peer-to-peer trades *)

Module PeerTradeFacts.
Import Observe.

(** *** Holdings rows and their keys *)

Lemma is_asset_key u ty n r :
  Holdings.is_asset u ty n r = true <-> holding_key r = (u, ty, n).
Proof.
  unfold Holdings.is_asset, holding_key.
  rewrite !andb_true_iff, !String.eqb_eq. split.
  - intros [[-> ->] ->]. reflexivity.
  - intros [= -> -> ->]. auto.
Qed.

Lemma is_asset_of_row u ty n u' ty' n' h :
  Holdings.is_asset u ty n h = true ->
  Holdings.is_asset u' ty' n' h
  = ((u =? u')%string && (ty =? ty')%string && (n =? n')%string).
Proof.
  intros H. apply is_asset_key in H. unfold holding_key in H.
  injection H as Hu Hty Hn. unfold Holdings.is_asset. now rewrite Hu, Hty, Hn.
Qed.

Lemma keys_update (w : Holdings.row -> bool) q t :
  map holding_key (Sql.update w (Holdings.add_quantity q) t) = map holding_key t.
Proof.
  unfold Sql.update. rewrite map_map. apply map_ext. intros r. now destruct (w r).
Qed.

(** *** Accepting an offer *)

(** C4.  What the code does on an acceptance.  For a pending offer that is
    addressed to the user, every answer other than 'reject' reaches
    [conn.begin()] on a connection whose first query has already begun a
    transaction: the call reports "Error responding to trade offer" and
    returns the database as it was, whether or not the two sides still
    hold the assets of the offer.  The holdings are left untouched and the
    offer stays pending, which is what the claim says of a failed
    validation; the swap that the claim says follows a passed validation
    never takes place. *)
Theorem accepting_an_offer_never_begins :
  forall (offer_id : Z) (user_id action : string) (d : db) (offer : TradeOffers.row),
    Sql.fetchone (Sql.select (PeerTrade.is_offer_for offer_id user_id) (trade_offers d))
    = Some offer ->
    TradeOffers.status offer = "pending" ->
    action <> "reject" ->
    PeerTrade.respond_to_trade_offer offer_id user_id action d
    = ((false, PeerTrade.ErrorResponding), d).
Proof.
  intros offer_id user_id action d offer Hoffer Hpending Haction.
  unfold PeerTrade.respond_to_trade_offer. cbv zeta. rewrite Hoffer, Hpending.
  change (negb ("pending" =? "pending")%string) with false. cbv iota.
  apply String.eqb_neq in Haction. rewrite Haction. reflexivity.
Qed.

(** An offer of 2 shares of a player against 2 shares of a team fund, both
    sides holding what the offer needs: the acceptance is answered with the
    error, nothing is swapped and the offer is still pending. *)
Lemma accepting_an_offer_never_begins_witness :
  let offer := TradeOffers.mk 7 "u1" (Some "u2") "pending" in
  let d := mkdb [Users.mk "u1" "Ann" (100 # 1) (Some true);
                 Users.mk "u2" "Bob" (100 # 1) (Some true)]
                [Holdings.mk 1 "u1" "Josh Allen" "Player" 3;
                 Holdings.mk 2 "u2" "AFC East" "Team Fund" 2] 3
                [] [offer]
                [TradeOfferAssets.mk 7 (Some "u1") "Player" "Josh Allen" 2;
                 TradeOfferAssets.mk 7 (Some "u2") "Team Fund" "AFC East" 2]
                [] [] 1 [] 1 [] 1 in
  forallb (still_held d) (offered 7 "u1" d ++ requested 7 "u1" d) = true
  /\ PeerTrade.respond_to_trade_offer 7 "u2" "accept" d
     = ((false, PeerTrade.ErrorResponding), d)
  /\ held "u2" "Player" "Josh Allen" d = 0%Z
  /\ trade_offers d = [offer].
Proof.
  intros offer d. split; [reflexivity|]. split; [|split; reflexivity].
  apply (accepting_an_offer_never_begins 7 "u2" "accept" d offer);
    [reflexivity | reflexivity | discriminate].
Defined.

End PeerTradeFacts.

(** ** Settlement *)

Module SettlementFacts.
Import Observe.

(** *** Loops of updates keyed by id *)

Lemma find_absent {A : Type} (f : A -> bool) l :
  (forall x, In x l -> f x = false) -> find f l = None.
Proof.
  induction l as [|x l IH]; simpl; intros H; [reflexivity|].
  rewrite (H x) by auto. apply IH. auto.
Qed.

Lemma fold_left_filter {A B : Type} (c : B -> bool) (f : A -> B -> A) l :
  forall a, fold_left (fun a b => if c b then f a b else a) l a = fold_left f (filter c l) a.
Proof.
  induction l as [|x l IH]; intros a; simpl; [reflexivity|].
  destruct (c x); simpl; apply IH.
Qed.

Lemma fold_left_same {A B : Type} (f f' : A -> B -> A) l :
  (forall a b, f a b = f' a b) -> forall a, fold_left f l a = fold_left f' l a.
Proof.
  intros H. induction l as [|x l IH]; intros a; simpl; [reflexivity|].
  now rewrite H, IH.
Qed.

Lemma fold_left_map {A B C : Type} (g : B -> C) (f : A -> C -> A) l :
  forall a, fold_left (fun a b => f a (g b)) l a = fold_left f (map g l) a.
Proof.
  induction l as [|x l IH]; intros a; simpl; [reflexivity | apply IH].
Qed.

Lemma filter_map_swap {A B : Type} (g : A -> B) (f : B -> bool) l :
  filter f (map g l) = map g (filter (fun x => f (g x)) l).
Proof.
  induction l as [|x l IH]; simpl; [reflexivity|].
  destruct (f (g x)); simpl; now rewrite IH.
Qed.

Lemma filter_filter {A : Type} (f g : A -> bool) l :
  filter f (filter g l) = filter (fun x => g x && f x) l.
Proof.
  induction l as [|x l IH]; simpl; [reflexivity|].
  destruct (g x); simpl; [destruct (f x)|]; now rewrite IH.
Qed.

Section UpdatesById.
Context {row item : Type}.
Variables (id : row -> Z) (key : item -> Z) (set : item -> row -> row).
Hypothesis id_set : forall b r, id (set b r) = id r.

(** A loop of [UPDATE t SET ... WHERE id = key b], over items with
    distinct keys, rewrites each row at most once: by the item that has
    the row's id. *)
Lemma fold_updates bs :
  forall t,
    NoDup (map key bs) ->
    fold_left (fun t b => Sql.update (fun r => (id r =? key b)%Z) (set b) t) bs t
    = map (fun r => match find (fun b => (key b =? id r)%Z) bs with
                    | Some b => set b r
                    | None => r
                    end) t.
Proof.
  induction bs as [|a bs IH]; intros t Hnd.
  - simpl. symmetry. apply map_id.
  - inversion Hnd as [|? ? Ha Hnd']; subst. simpl fold_left.
    rewrite IH by assumption. unfold Sql.update. rewrite map_map.
    apply map_ext. intros r. cbn [find]. rewrite (Z.eqb_sym (key a) (id r)).
    destruct (id r =? key a)%Z eqn:E; [|reflexivity].
    rewrite id_set. apply Z.eqb_eq in E.
    rewrite find_absent; [reflexivity|].
    intros b Hb. apply Z.eqb_neq. intros Hk. apply Ha.
    rewrite <- E, <- Hk. now apply in_map.
Qed.
End UpdatesById.

(** In a keyed table, the selected row with the id of [r] is [r] itself. *)
Lemma find_selected {row : Type} (id : row -> Z) (p : row -> bool) t r :
  NoDup (map id t) -> In r t ->
  find (fun b => (id b =? id r)%Z) (filter p t) = if p r then Some r else None.
Proof.
  induction t as [|x t IH]; simpl; [tauto|].
  intros Hnd Hin. inversion Hnd as [|? ? Hx Hnd']; subst.
  assert (Hother : forall b, In b t -> (id b =? id x)%Z = false).
  { intros b Hb. apply Z.eqb_neq. intros E. apply Hx. rewrite <- E. now apply in_map. }
  destruct Hin as [-> | Hin].
  - destruct (p r); simpl; rewrite ?Z.eqb_refl; [reflexivity|].
    apply find_absent. intros b Hb. apply filter_In in Hb as [Hb _]. auto.
  - assert (E : (id x =? id r)%Z = false).
    { rewrite Z.eqb_sym. auto. }
    destruct (p x); simpl; rewrite ?E; auto.
Qed.

(** The same loop over the selected rows of the table itself. *)
Lemma fold_updates_selected {row : Type} (id : row -> Z) (set : row -> row -> row)
    (p : row -> bool) t :
  (forall b r, id (set b r) = id r) ->
  NoDup (map id t) ->
  fold_left (fun t b => Sql.update (fun r => (id r =? id b)%Z) (set b) t) (filter p t) t
  = map (fun r => if p r then set r r else r) t.
Proof.
  intros Hset Hnd. rewrite (fold_updates id id set Hset).
  - apply map_ext_in. intros r Hr. rewrite (find_selected id p t r Hnd Hr).
    now destruct (p r).
  - clear Hset. induction t as [|x t IH]; simpl; [constructor|].
    inversion Hnd as [|? ? Hx Hnd']; subst.
    destruct (p x); simpl; auto. constructor; auto.
    intros Hin. apply Hx. apply in_map_iff in Hin as (y & Hy & Hin).
    apply filter_In in Hin as [Hin _]. rewrite <- Hy. now apply in_map.
Qed.

(** *** The three loops of [simulate_game_result], table by table *)

Lemma settle_bets_tables o bs :
  forall d,
    user_bets (fold_left (Settlement.settle_bet o) bs d)
    = fold_left (fun t b =>
                   Sql.update (fun r => (Bets.id r =? Bets.id b)%Z)
                     (Bets.set_status
                        (Settlement.status_of
                           (Settlement.bet_won o (Bets.bet_type b) (Bets.bet_pick b)))) t)
                bs (user_bets d)
    /\ users (fold_left (Settlement.settle_bet o) bs d)
       = fold_left (fun us b =>
                      if Settlement.bet_won o (Bets.bet_type b) (Bets.bet_pick b)
                      then Sql.update (Users.has_id (Bets.user_id b))
                                      (Users.add_wallet_balance (Bets.potential_payout b)) us
                      else us)
                   bs (users d)
    /\ parlays (fold_left (Settlement.settle_bet o) bs d) = parlays d
    /\ parlay_bets (fold_left (Settlement.settle_bet o) bs d) = parlay_bets d
    /\ upcoming_games (fold_left (Settlement.settle_bet o) bs d) = upcoming_games d.
Proof.
  induction bs as [|b bs IH]; intros d; simpl; [auto|].
  destruct (IH (Settlement.settle_bet o d b)) as (-> & -> & -> & -> & ->).
  unfold Settlement.settle_bet.
  destruct (Settlement.bet_won o (Bets.bet_type b) (Bets.bet_pick b)); cbn; auto.
Qed.

Lemma settle_legs_tables o js :
  forall d (rs : Settlement.results),
    let d' := fst (fold_left (Settlement.settle_leg o) js (d, rs)) in
    parlay_bets d'
    = fold_left (fun t l =>
                   Sql.update (fun r => (ParlayBets.id r =? ParlayBets.id l)%Z)
                     (ParlayBets.set_status
                        (Settlement.status_of
                           (Settlement.bet_won o (ParlayBets.bet_type l)
                                               (ParlayBets.bet_pick l)))) t)
                (map fst js) (parlay_bets d)
    /\ users d' = users d
    /\ parlays d' = parlays d
    /\ user_bets d' = user_bets d
    /\ upcoming_games d' = upcoming_games d.
Proof.
  induction js as [|j js IH]; intros d rs; cbv zeta; [simpl; auto|].
  cbn [fold_left map].
  destruct (Settlement.settle_leg o (d, rs) j) as [d1 rs1] eqn:E.
  destruct (IH d1 rs1) as (-> & -> & -> & -> & ->).
  unfold Settlement.settle_leg in E.
  destruct (Settlement.bet_won o _ _); cbn in E;
    destruct (Settlement.has_key _ rs); cbn in E; injection E as <- _; cbn; auto.
Qed.

Lemma close_parlays_tables rs :
  forall d,
    let legs := parlay_bets d in
    let closes := fun k : Z =>
      (Sql.count (fun l => (ParlayBets.parlay_id l =? k)%Z
                           && (ParlayBets.status l =? "pending")%string) legs =? 0)%Z in
    let unbeaten := fun k : Z =>
      (Sql.count (fun l => (ParlayBets.parlay_id l =? k)%Z
                           && (ParlayBets.status l =? "lost")%string) legs =? 0)%Z in
    let d' := fold_left Settlement.close_parlay rs d in
    parlay_bets d' = parlay_bets d
    /\ user_bets d' = user_bets d
    /\ upcoming_games d' = upcoming_games d
    /\ parlays d'
       = fold_left (fun t e =>
                      if closes (fst e)
                      then Sql.update (fun p => (Parlays.id p =? fst e)%Z)
                             (Parlays.set_status
                                (if unbeaten (fst e) then "won" else "lost")) t
                      else t) rs (parlays d)
    /\ users d'
       = fold_left (fun us e =>
                      if closes (fst e) && unbeaten (fst e)
                      then Sql.update (Users.has_id (Settlement.res_user_id (snd e)))
                             (Users.add_wallet_balance
                                (Settlement.res_potential_payout (snd e))) us
                      else us) rs (users d).
Proof.
  induction rs as [|[k v] rs IH]; intros d; cbv zeta; [simpl; auto|].
  cbn [fold_left fst snd].
  set (d1 := Settlement.close_parlay d (k, v)).
  assert (Hlegs : parlay_bets d1 = parlay_bets d).
  { unfold d1, Settlement.close_parlay.
    destruct (Sql.count _ _ =? 0)%Z; [destruct (Sql.count _ _ =? 0)%Z|]; reflexivity. }
  specialize (IH d1). cbv zeta in IH. rewrite Hlegs in IH.
  destruct IH as (-> & -> & -> & -> & ->).
  unfold d1, Settlement.close_parlay.
  destruct (Sql.count _ (parlay_bets d) =? 0)%Z;
    [destruct (Sql.count _ (parlay_bets d) =? 0)%Z|]; cbn; auto.
Qed.

(** *** The join of legs and parlays *)

Lemma existsb_filter {A : Type} (a f : A -> bool) l :
  existsb (fun x => a x && f x) l = existsb f (filter a l).
Proof.
  induction l as [|x l IH]; simpl; [reflexivity|].
  destruct (a x); simpl; now rewrite IH.
Qed.

Lemma select_by_id (ps : list Parlays.row) k :
  NoDup (map Parlays.id ps) ->
  filter (Parlays.has_id k) ps = [] \/ exists p, filter (Parlays.has_id k) ps = [p].
Proof.
  induction ps as [|x ps IH]; simpl; [auto|].
  intros Hnd. inversion Hnd as [|? ? Hx Hnd']; subst.
  destruct (Parlays.has_id k x) eqn:E; [|auto]. right. exists x. f_equal.
  apply (SqlFacts.select_none (Parlays.has_id k) ps). intros r Hr.
  unfold Parlays.has_id in *. apply Z.eqb_eq in E. apply Z.eqb_neq. intros Er.
  apply Hx. rewrite E, <- Er. now apply in_map.
Qed.

Lemma in_pending_legs g d l p :
  In (l, p) (Settlement.pending_legs g d)
  <-> In l (parlay_bets d) /\ In p (parlays d)
      /\ Parlays.id p = ParlayBets.parlay_id l
      /\ ParlayBets.game_id l = g
      /\ ParlayBets.status l = "pending" /\ Parlays.status p = "pending".
Proof.
  unfold Settlement.pending_legs, Sql.select.
  rewrite filter_In, in_flat_map. cbn [fst snd].
  rewrite !andb_true_iff, Z.eqb_eq, !String.eqb_eq. split.
  - intros [(l0 & Hl0 & Hin) ((Hg & Hl) & Hp)].
    apply in_map_iff in Hin as (p0 & E & Hp0). injection E as -> ->.
    apply filter_In in Hp0 as [Hp0 Hid]. apply Z.eqb_eq in Hid. tauto.
  - intros (Hl & Hp & Hid & Hg & Hsl & Hsp). split; [|tauto].
    exists l. split; [assumption|]. apply in_map. apply filter_In. split; [assumption|].
    now apply Z.eqb_eq.
Qed.

(** With parlay ids as primary key, the join returns each selected leg
    once, in table order. *)
Lemma pending_legs_fst g d :
  NoDup (map Parlays.id (parlays d)) ->
  map fst (Settlement.pending_legs g d)
  = filter (leg_in_play g (parlays d)) (parlay_bets d).
Proof.
  intros Hnd. unfold Settlement.pending_legs, Sql.select.
  induction (parlay_bets d) as [|l legs IH]; [reflexivity|].
  cbn [flat_map filter]. rewrite filter_app, map_app, IH. clear IH.
  unfold leg_in_play at 2. rewrite existsb_filter.
  destruct (select_by_id (parlays d) (ParlayBets.parlay_id l) Hnd) as [-> | [p ->]].
  - cbn. rewrite andb_false_r. reflexivity.
  - cbn. rewrite orb_false_r.
    destruct ((ParlayBets.game_id l =? g)%Z && (ParlayBets.status l =? "pending")%string
              && (Parlays.status p =? "pending")%string); reflexivity.
Qed.

(** *** The dict [parlay_results] *)

Lemma has_key_in k rs : Settlement.has_key k rs = true <-> In k (map fst rs).
Proof.
  unfold Settlement.has_key. rewrite existsb_exists, in_map_iff. split.
  - intros (kv & Hin & E). apply Z.eqb_eq in E. eauto.
  - intros (kv & E & Hin). exists kv. split; [assumption | now apply Z.eqb_eq].
Qed.

Lemma keys_set_result_status k s rs :
  map fst (Settlement.set_result_status k s rs) = map fst rs.
Proof.
  unfold Settlement.set_result_status. rewrite map_map. apply map_ext.
  intros kv. now destruct (fst kv =? k)%Z.
Qed.

Lemma entry_of_set_result_status all k s rs :
  Forall (entry_of all) rs -> Forall (entry_of all) (Settlement.set_result_status k s rs).
Proof.
  unfold Settlement.set_result_status. rewrite !Forall_forall. intros H kv Hin.
  apply in_map_iff in Hin as (kv0 & <- & Hin0). specialize (H kv0 Hin0).
  destruct (fst kv0 =? k)%Z; exact H.
Qed.

Lemma settle_leg_results o d (rs : Settlement.results) j all :
  NoDup (map fst rs) -> Forall (entry_of all) rs -> In j all ->
  NoDup (map fst (snd (Settlement.settle_leg o (d, rs) j)))
  /\ Forall (entry_of all) (snd (Settlement.settle_leg o (d, rs) j))
  /\ (forall k, In k (map fst (snd (Settlement.settle_leg o (d, rs) j)))
                <-> In k (map fst rs) \/ k = Parlays.id (snd j)).
Proof.
  intros Hnd Hall Hj. unfold Settlement.settle_leg.
  assert (Hfresh : Settlement.has_key (Parlays.id (snd j)) rs = false ->
            forall s,
              NoDup (map fst (rs ++ [(Parlays.id (snd j),
                                      Settlement.mk_result (Parlays.user_id (snd j))
                                        (Parlays.potential_payout (snd j)) s)]))
              /\ Forall (entry_of all)
                        (rs ++ [(Parlays.id (snd j),
                                 Settlement.mk_result (Parlays.user_id (snd j))
                                   (Parlays.potential_payout (snd j)) s)])
              /\ (forall k,
                     In k (map fst (rs ++ [(Parlays.id (snd j),
                                            Settlement.mk_result (Parlays.user_id (snd j))
                                              (Parlays.potential_payout (snd j)) s)]))
                     <-> In k (map fst rs) \/ k = Parlays.id (snd j))).
  { intros Hkey s. rewrite map_app. cbn [map fst]. split; [|split].
    - apply NoDup_app; auto.
      + constructor; [simpl; tauto | constructor].
      + intros k Hk [<- | []]. apply has_key_in in Hk. congruence.
    - apply Forall_app. split; [assumption|]. constructor; [|constructor].
      exists j. cbn. auto.
    - intros k. rewrite in_app_iff. simpl. intuition. }
  assert (Hpresent : Settlement.has_key (Parlays.id (snd j)) rs = true ->
            forall k, In k (map fst rs) <-> In k (map fst rs) \/ k = Parlays.id (snd j)).
  { intros Hkey k. apply has_key_in in Hkey. split; [auto|]. intros [H | ->]; auto. }
  destruct (Settlement.bet_won o _ _); cbn [negb];
    destruct (Settlement.has_key (Parlays.id (snd j)) rs) eqn:Ekey; cbn [negb snd].
  - auto.
  - auto.
  - rewrite keys_set_result_status. split; [|split]; auto.
    now apply entry_of_set_result_status.
  - auto.
Qed.

Lemma results_spec o all js :
  forall d (rs : Settlement.results),
    incl js all -> NoDup (map fst rs) -> Forall (entry_of all) rs ->
    NoDup (map fst (snd (fold_left (Settlement.settle_leg o) js (d, rs))))
    /\ Forall (entry_of all) (snd (fold_left (Settlement.settle_leg o) js (d, rs)))
    /\ (forall k, In k (map fst (snd (fold_left (Settlement.settle_leg o) js (d, rs))))
                  <-> In k (map fst rs) \/ In k (map (fun j => Parlays.id (snd j)) js)).
Proof.
  induction js as [|j js IH]; intros d rs Hincl Hnd Hall.
  - simpl. repeat split; auto. tauto.
  - cbn [fold_left map].
    destruct (Settlement.settle_leg o (d, rs) j) as [d1 rs1] eqn:E.
    destruct (settle_leg_results o d rs j all Hnd Hall) as (Hnd1 & Hall1 & Hkeys1).
    { apply Hincl. now left. }
    rewrite E in Hnd1, Hall1, Hkeys1. cbn [snd] in Hnd1, Hall1, Hkeys1.
    destruct (IH d1 rs1) as (Hnd' & Hall' & Hkeys'); auto.
    { intros x Hx. apply Hincl. now right. }
    split; [assumption|]. split; [assumption|].
    intros k. rewrite Hkeys', Hkeys1. simpl. intuition.
Qed.

Lemma settle_legs_run o js d (rs : Settlement.results) d' rs' :
  fold_left (Settlement.settle_leg o) js (d, rs) = (d', rs') ->
  (parlay_bets d'
   = fold_left (fun t l =>
                  Sql.update (fun r => (ParlayBets.id r =? ParlayBets.id l)%Z)
                    (ParlayBets.set_status
                       (Settlement.status_of
                          (Settlement.bet_won o (ParlayBets.bet_type l)
                                              (ParlayBets.bet_pick l)))) t)
               (map fst js) (parlay_bets d)
   /\ users d' = users d
   /\ parlays d' = parlays d
   /\ user_bets d' = user_bets d
   /\ upcoming_games d' = upcoming_games d)
  /\ (NoDup (map fst rs) -> Forall (entry_of js) rs ->
      NoDup (map fst rs')
      /\ Forall (entry_of js) rs'
      /\ (forall k, In k (map fst rs')
                    <-> In k (map fst rs) \/ In k (map (fun j => Parlays.id (snd j)) js))).
Proof.
  intros E. split.
  - pose proof (settle_legs_tables o js d rs) as H. cbv zeta in H.
    rewrite E in H. exact H.
  - intros Hnd Hall.
    pose proof (results_spec o js js d rs (incl_refl _) Hnd Hall) as H.
    rewrite E in H. exact H.
Qed.

(** *** The tables after a settlement *)

Lemma count_zero {row : Type} (w : row -> bool) t :
  (Sql.count w t =? 0)%Z = negb (existsb w t).
Proof.
  unfold Sql.count. induction t as [|x t IH]; simpl; [reflexivity|].
  destruct (w x); simpl; [reflexivity | exact IH].
Qed.

Lemma NoDup_keys_filter {A : Type} (k : A -> Z) (c : A -> bool) l :
  NoDup (map k l) -> NoDup (map k (filter c l)).
Proof.
  induction l as [|x l IH]; simpl; [constructor|].
  intros Hnd. inversion Hnd as [|? ? Hx Hnd']; subst.
  destruct (c x); simpl; auto. constructor; auto.
  intros Hin. apply Hx. apply in_map_iff in Hin as (y & Hy & Hin).
  apply filter_In in Hin as [Hin _]. rewrite <- Hy. now apply in_map.
Qed.

Lemma find_entry (c : Z -> bool) (rs : Settlement.results) k :
  find (fun e => (fst e =? k)%Z) (filter (fun e => c (fst e)) rs)
  = if Settlement.has_key k rs && c k
    then find (fun e => (fst e =? k)%Z) rs
    else None.
Proof.
  unfold Settlement.has_key. induction rs as [|e rs IH]; simpl; [reflexivity|].
  destruct (fst e =? k)%Z eqn:E; simpl.
  - apply Z.eqb_eq in E. rewrite E.
    destruct (c k) eqn:Ec; simpl.
    + rewrite <- E, Z.eqb_refl. reflexivity.
    + rewrite IH. rewrite ?Ec, ?andb_false_r. reflexivity.
  - destruct (c (fst e)); simpl; rewrite ?E; exact IH.
Qed.

Lemma find_key_present (rs : Settlement.results) k :
  Settlement.has_key k rs = true ->
  exists e, find (fun e => (fst e =? k)%Z) rs = Some e /\ fst e = k /\ In e rs.
Proof.
  unfold Settlement.has_key. induction rs as [|e rs IH]; simpl; [discriminate|].
  destruct (fst e =? k)%Z eqn:E; simpl.
  - intros _. exists e. apply Z.eqb_eq in E. auto.
  - intros H. destruct (IH H) as (e' & ? & ? & ?). eauto.
Qed.

(** The parlays whose id is a key of the dict are those in play. *)
Lemma key_iff_in_play g d p :
  NoDup (map Parlays.id (parlays d)) -> In p (parlays d) ->
  In (Parlays.id p) (map (fun j => Parlays.id (snd j)) (Settlement.pending_legs g d))
  <-> parlay_in_play g (parlay_bets d) p = true.
Proof.
  intros Hnd Hp. unfold parlay_in_play.
  rewrite andb_true_iff, String.eqb_eq, existsb_exists, in_map_iff. split.
  - intros ([l p0] & Hid & Hin). cbn in Hid.
    apply in_pending_legs in Hin as (Hl & Hp0 & Hpid & Hg & Hsl & Hsp).
    assert (p0 = p) as -> by (apply (LedgerFacts.keyed_row_unique Parlays.id (parlays d)); auto).
    split; [assumption|]. exists l. split; [assumption|].
    rewrite !andb_true_iff, !Z.eqb_eq, String.eqb_eq. auto.
  - intros (Hsp & l & Hl & Hw).
    rewrite !andb_true_iff, !Z.eqb_eq, String.eqb_eq in Hw. destruct Hw as ((Hpid & Hg) & Hsl).
    exists (l, p). split; [reflexivity|]. apply in_pending_legs. repeat split; auto.
Qed.

Lemma simulate_tables g hs as_ d game :
  Sql.fetchone (Sql.select (Games.has_id g) (upcoming_games d)) = Some game ->
  betting_keys d ->
  let o := Settlement.determine_outcome game hs as_ in
  let legs' := map (settled_leg o g (parlays d)) (parlay_bets d) in
  let d' := snd (Settlement.simulate_game_result g hs as_ d) in
  fst (Settlement.simulate_game_result g hs as_ d)
  = (true, Settlement.Simulated (Games.home_team game) hs as_ (Games.away_team game))
  /\ upcoming_games d'
     = Sql.update (Games.has_id g) (Games.complete hs as_) (upcoming_games d)
  /\ user_bets d' = map (settled_bet o g) (user_bets d)
  /\ parlay_bets d' = legs'
  /\ parlays d' = map (closed_parlay g (parlay_bets d) legs') (parlays d)
  /\ exists rs : Settlement.results,
       NoDup (map fst rs)
       /\ Forall (entry_of (Settlement.pending_legs g d)) rs
       /\ (forall p, In p (parlays d) ->
                     (Settlement.has_key (Parlays.id p) rs = parlay_in_play g (parlay_bets d) p))
       /\ users d'
          = fold_left
              (fun us e =>
                 if negb (has_leg "pending" (fst e) legs') && negb (has_leg "lost" (fst e) legs')
                 then Sql.update (Users.has_id (Settlement.res_user_id (snd e)))
                        (Users.add_wallet_balance
                           (Settlement.res_potential_payout (snd e))) us
                 else us) rs
              (fold_left
                 (fun us b =>
                    if Settlement.bet_won o (Bets.bet_type b) (Bets.bet_pick b)
                    then Sql.update (Users.has_id (Bets.user_id b))
                           (Users.add_wallet_balance (Bets.potential_payout b)) us
                    else us)
                 (filter (bet_in_play g) (user_bets d)) (users d)).
Proof.
  intros Hgame (Kbets & Klegs & Kparlays) o legs' d'.
  unfold d', Settlement.simulate_game_result. rewrite Hgame. cbv zeta. fold o.
  set (d1 := with_upcoming_games
               (Sql.update (Games.has_id g) (Games.complete hs as_)) d).
  set (bets := Sql.select _ (user_bets d1)).
  destruct (settle_bets_tables o bets d1) as (Hb2 & Hu2 & Hp2 & Hl2 & Hg2).
  set (d2 := fold_left (Settlement.settle_bet o) bets d1) in *.
  assert (Hjoin : Settlement.pending_legs g d2 = Settlement.pending_legs g d).
  { unfold Settlement.pending_legs. now rewrite Hp2, Hl2. }
  rewrite Hjoin.
  set (js := Settlement.pending_legs g d).
  destruct (fold_left (Settlement.settle_leg o) js (d2, [])) as [d3 rs] eqn:Efold.
  destruct (settle_legs_run o js d2 [] d3 rs Efold)
    as ((Hl3 & Hu3 & Hp3 & Hb3 & Hg3) & Hresults).
  destruct Hresults as (Hnd & Hall & Hkeys); [constructor | constructor |].
  destruct (close_parlays_tables rs d3) as (Hl4 & Hb4 & Hg4 & Hp4 & Hu4).
  set (d4 := fold_left Settlement.close_parlay rs d3) in *.
  assert (Hlegs : parlay_bets d3 = legs').
  { rewrite Hl3, Hl2. unfold js. rewrite pending_legs_fst by assumption.
    change (parlay_bets d1) with (parlay_bets d).
    rewrite (fold_updates_selected ParlayBets.id
               (fun l => ParlayBets.set_status
                           (Settlement.status_of
                              (Settlement.bet_won o (ParlayBets.bet_type l)
                                                  (ParlayBets.bet_pick l))))
               (leg_in_play g (parlays d))); auto. }
  assert (Hplay : forall p, In p (parlays d) ->
             Settlement.has_key (Parlays.id p) rs = parlay_in_play g (parlay_bets d) p).
  { intros p Hp. apply eq_true_iff_eq.
    rewrite has_key_in, Hkeys, <- (key_iff_in_play g d p Kparlays Hp). simpl. tauto. }
  split; [reflexivity|]. cbn [snd]. split; [|split; [|split; [|split]]].
  5: { exists rs. split; [assumption|]. split; [assumption|]. split; [assumption|].
       rewrite Hu4, Hu3, Hu2, Hlegs. change (users d1) with (users d).
       unfold bets, Sql.select. change (user_bets d1) with (user_bets d).
       apply fold_left_same. intros us e. rewrite !count_zero. reflexivity. }
  - rewrite Hg4, Hg3, Hg2. reflexivity.
  - rewrite Hb4, Hb3, Hb2. unfold bets, Sql.select.
    change (user_bets d1) with (user_bets d).
    apply (fold_updates_selected Bets.id
             (fun b => Bets.set_status
                         (Settlement.status_of
                            (Settlement.bet_won o (Bets.bet_type b) (Bets.bet_pick b))))
             (bet_in_play g)); auto.
  - rewrite Hl4. exact Hlegs.
  - rewrite Hp4, Hp3, Hp2, Hlegs. change (parlays d1) with (parlays d).
    rewrite (fold_left_filter
               (fun e => (Sql.count (fun l => (ParlayBets.parlay_id l =? fst e)%Z
                                              && (ParlayBets.status l =? "pending")%string)
                                    legs' =? 0)%Z)
               (fun t e => Sql.update (fun p => (Parlays.id p =? fst e)%Z)
                             (Parlays.set_status
                                (if (Sql.count
                                       (fun l => (ParlayBets.parlay_id l =? fst e)%Z
                                                 && (ParlayBets.status l =? "lost")%string)
                                       legs' =? 0)%Z then "won" else "lost")) t)).
    rewrite (fold_updates Parlays.id fst
               (fun e => Parlays.set_status
                           (if (Sql.count
                                  (fun l => (ParlayBets.parlay_id l =? fst e)%Z
                                            && (ParlayBets.status l =? "lost")%string)
                                  legs' =? 0)%Z then "won" else "lost")));
      [| reflexivity | now apply NoDup_keys_filter].
    apply map_ext_in. intros p Hp.
    rewrite (find_entry
               (fun k => (Sql.count (fun l => (ParlayBets.parlay_id l =? k)%Z
                                              && (ParlayBets.status l =? "pending")%string)
                                    legs' =? 0)%Z) rs (Parlays.id p)).
    unfold closed_parlay.
    destruct (parlay_in_play g (parlay_bets d) p) eqn:Eplay.
    + assert (Hkey : Settlement.has_key (Parlays.id p) rs = true)
        by (now rewrite Hplay).
      rewrite Hkey. cbn [andb]. rewrite !count_zero. fold (has_leg "pending" (Parlays.id p) legs').
      destruct (has_leg "pending" (Parlays.id p) legs'); cbn [negb]; [reflexivity|].
      destruct (find_key_present rs _ Hkey) as (e & -> & He & _). rewrite He.
      rewrite count_zero. fold (has_leg "lost" (Parlays.id p) legs').
      destruct (has_leg "lost" (Parlays.id p) legs'); reflexivity.
    + assert (Hkey : Settlement.has_key (Parlays.id p) rs = false)
        by (now rewrite Hplay).
      rewrite Hkey. reflexivity.
Qed.

(** *** The wallets after a settlement *)

Lemma Qsum_app xs ys : (Sql.Qsum (xs ++ ys) == Sql.Qsum xs + Sql.Qsum ys)%Q.
Proof.
  unfold Sql.Qsum. induction xs as [|x xs IH]; simpl; [ring|]. rewrite IH. ring.
Qed.

Lemma Qsum_permutation xs ys : Permutation xs ys -> (Sql.Qsum xs == Sql.Qsum ys)%Q.
Proof.
  unfold Sql.Qsum. induction 1; simpl.
  - reflexivity.
  - now rewrite IHPermutation.
  - ring.
  - now rewrite IHPermutation1.
Qed.

Lemma credits_balance (cs : list (string * Q)) :
  forall us u r,
    Sql.fetchone (Sql.select (Users.has_id u) us) = Some r ->
    exists r',
      Sql.fetchone (Sql.select (Users.has_id u) (fold_left pay_out cs us)) = Some r'
      /\ (Users.wallet_balance r'
          == Users.wallet_balance r
             + Sql.Qsum (map snd (filter (fun c => (fst c =? u)%string) cs)))%Q.
Proof.
  induction cs as [|c cs IH]; intros us u r Hr; cbn [fold_left filter].
  - exists r. split; [assumption|]. unfold Sql.Qsum. simpl. ring.
  - assert (H1 : Sql.fetchone (Sql.select (Users.has_id u) (pay_out us c))
                 = Some (if Users.has_id (fst c) r
                         then Users.add_wallet_balance (snd c) r else r)).
    { unfold pay_out. rewrite SqlFacts.fetchone_select_update by reflexivity.
      now rewrite Hr. }
    destruct (IH _ u _ H1) as (r' & Hr' & Hb). exists r'. split; [assumption|].
    rewrite Hb. apply SqlFacts.fetchone_select_some in Hr as [_ Hid].
    unfold Users.has_id in *. apply String.eqb_eq in Hid. rewrite Hid.
    rewrite (String.eqb_sym u (fst c)).
    destruct (fst c =? u)%string; unfold Sql.Qsum; simpl; ring.
Qed.

Lemma find_by_id (ps : list Parlays.row) p :
  NoDup (map Parlays.id ps) -> In p ps -> find (Parlays.has_id (Parlays.id p)) ps = Some p.
Proof.
  induction ps as [|x ps IH]; simpl; [tauto|].
  intros Hnd Hin. inversion Hnd as [|? ? Hx Hnd']; subst.
  unfold Parlays.has_id at 1.
  destruct Hin as [-> | Hin]; [now rewrite Z.eqb_refl|].
  destruct (Parlays.id x =? Parlays.id p)%Z eqn:E; [|auto].
  exfalso. apply Hx. apply Z.eqb_eq in E. rewrite E. now apply in_map.
Qed.

(** An entry of the dict carries the user and the potential payout of the
    parlay with its key. *)
Lemma entry_parlay g d e :
  NoDup (map Parlays.id (parlays d)) ->
  entry_of (Settlement.pending_legs g d) e ->
  In (fst e) (map Parlays.id (parlays d))
  /\ Settlement.res_user_id (snd e) = owner_of (parlays d) (fst e)
  /\ Settlement.res_potential_payout (snd e) = payout_of (parlays d) (fst e).
Proof.
  intros Hnd ([l p] & Hj & Hid & Hu & Hp). cbn [snd] in *.
  apply in_pending_legs in Hj as (_ & Hin & _).
  unfold owner_of, payout_of. rewrite <- Hid, (find_by_id _ _ Hnd Hin).
  split; [now apply in_map | auto].
Qed.

Lemma simulate_wallets g hs as_ d game u r :
  Sql.fetchone (Sql.select (Games.has_id g) (upcoming_games d)) = Some game ->
  betting_keys d ->
  fetch_user u d = Some r ->
  let o := Settlement.determine_outcome game hs as_ in
  let legs' := map (settled_leg o g (parlays d)) (parlay_bets d) in
  exists r',
    fetch_user u (snd (Settlement.simulate_game_result g hs as_ d)) = Some r'
    /\ (Users.wallet_balance r'
        == Users.wallet_balance r
           + bet_winnings o g u (user_bets d)
           + parlay_winnings g (parlay_bets d) legs' u (parlays d))%Q.
Proof.
  intros Hgame Hkeys Hu o legs'.
  destruct (simulate_tables g hs as_ d game Hgame Hkeys)
    as (_ & _ & _ & _ & _ & rs & Hnd & Hall & Hplay & Husers).
  fold o legs' in Husers. destruct Hkeys as (_ & _ & Kparlays).
  unfold fetch_user. rewrite Husers. clear Husers.
  set (won := fun b => Settlement.bet_won o (Bets.bet_type b) (Bets.bet_pick b)).
  set (closes := fun k => negb (has_leg "pending" k legs') && negb (has_leg "lost" k legs')).
  rewrite (fold_left_same _ (fun us b => if won b then pay_out us (Bets.user_id b, Bets.potential_payout b) else us))
    by reflexivity.
  rewrite (fold_left_filter won
             (fun us b => pay_out us (Bets.user_id b, Bets.potential_payout b))).
  rewrite (fold_left_map (fun b => (Bets.user_id b, Bets.potential_payout b)) pay_out).
  rewrite (fold_left_same _
             (fun us e => if closes (fst e)
                          then pay_out us (Settlement.res_user_id (snd e),
                                           Settlement.res_potential_payout (snd e))
                          else us)) by reflexivity.
  rewrite (fold_left_filter (fun e => closes (fst e))
             (fun us e => pay_out us (Settlement.res_user_id (snd e),
                                      Settlement.res_potential_payout (snd e)))).
  rewrite (fold_left_map (fun e : Z * Settlement.parlay_result =>
                            (Settlement.res_user_id (snd e),
                             Settlement.res_potential_payout (snd e))) pay_out).
  destruct (credits_balance
              (map (fun b => (Bets.user_id b, Bets.potential_payout b))
                   (filter won (filter (bet_in_play g) (user_bets d))))
              (users d) u r Hu) as (r1 & Hr1 & Hb1).
  destruct (credits_balance
              (map (fun e : Z * Settlement.parlay_result =>
                      (Settlement.res_user_id (snd e),
                       Settlement.res_potential_payout (snd e)))
                   (filter (fun e => closes (fst e)) rs))
              _ u r1 Hr1) as (r2 & Hr2 & Hb2).
  exists r2. split; [exact Hr2|]. rewrite Hb2, Hb1. clear Hr1 Hr2 Hb1 Hb2.
  apply Qplus_comp; [apply Qplus_comp; [reflexivity|]|].
  - (* single bets *)
    unfold bet_winnings.
    rewrite filter_map_swap, map_map, !filter_filter. cbn [fst snd].
    erewrite filter_ext; [reflexivity|].
    intros b. unfold won. cbn. apply andb_assoc.
  - (* parlays *)
    unfold parlay_winnings.
    rewrite filter_map_swap, map_map, filter_filter. cbn [fst snd].
    set (own := fun k => (owner_of (parlays d) k =? u)%string).
    assert (Hentry : forall e, In e rs ->
               In (fst e) (map Parlays.id (parlays d))
               /\ Settlement.res_user_id (snd e) = owner_of (parlays d) (fst e)
               /\ Settlement.res_potential_payout (snd e) = payout_of (parlays d) (fst e)).
    { intros e He. apply (entry_parlay g d e Kparlays).
      rewrite Forall_forall in Hall. auto. }
    transitivity (Sql.Qsum (map (payout_of (parlays d))
                              (filter (fun k => closes k && own k) (map fst rs)))).
    { rewrite filter_map_swap, map_map.
      rewrite (filter_ext_in (fun e => closes (fst e)
                                     && (Settlement.res_user_id (snd e) =? u)%string)
                             (fun e => closes (fst e) && own (fst e))).
      - rewrite (map_ext_in (fun e => Settlement.res_potential_payout (snd e))
                            (fun e => payout_of (parlays d) (fst e))); [reflexivity|].
        intros e He. apply filter_In in He as [He _]. apply (Hentry e He).
      - intros e He. unfold own. destruct (Hentry e He) as (_ & -> & _). reflexivity. }
    transitivity (Sql.Qsum (map (payout_of (parlays d))
                              (filter (fun k => Settlement.has_key k rs && closes k && own k)
                                      (map Parlays.id (parlays d))))).
    { apply Qsum_permutation, Permutation_map, NoDup_Permutation.
      - now apply NoDup_filter.
      - now apply NoDup_filter.
      - intros k. rewrite !filter_In, !andb_true_iff, has_key_in. split.
        + intros (Hk & Hc). split; [|tauto].
          apply in_map_iff in Hk as (e & <- & He). apply (Hentry e He).
        + tauto. }
    rewrite filter_map_swap, map_map.
    rewrite (filter_ext_in
               (fun p => Settlement.has_key (Parlays.id p) rs && closes (Parlays.id p)
                         && own (Parlays.id p))
               (fun p => parlay_wins g (parlay_bets d) legs' p
                         && (Parlays.user_id p =? u)%string)).
    + rewrite (map_ext_in (fun p => payout_of (parlays d) (Parlays.id p))
                          Parlays.potential_payout); [reflexivity|].
      intros p Hp. apply filter_In in Hp as [Hp _].
      unfold payout_of. now rewrite (find_by_id _ _ Kparlays Hp).
    + intros p Hp. unfold parlay_wins, own, owner_of, closes.
      rewrite (Hplay p Hp), (find_by_id _ _ Kparlays Hp).
      now rewrite andb_assoc.
Qed.

(** *** Single bets against the spread *)

(** C7, as the code has it.  On a game whose home line is -3.5, a final
    score of 24 to 20 gives [home_score + spread = 20.5 > 20]: the home side
    covers, so the settlement marks every pending spread bet on the home
    side won and every other pending spread bet on the game lost. *)
Theorem spread_minus_three_and_a_half_at_24_20 :
  forall (game_id : Z) (d : db) (game : Games.row),
    Sql.fetchone (Sql.select (Games.has_id game_id) (upcoming_games d)) = Some game ->
    (Games.spread game == - (7 # 2))%Q ->
    betting_keys d ->
    Settlement.home_covered (Settlement.determine_outcome game 24 20) = true
    /\ forall b,
         In b (user_bets d) ->
         Bets.game_id b = game_id -> Bets.status b = "pending" ->
         Bets.bet_type b = "spread" ->
         In (Bets.set_status (if (Bets.bet_pick b =? "home")%string then "won" else "lost") b)
            (user_bets (snd (Settlement.simulate_game_result game_id 24 20 d))).
Proof.
  intros g d game Hgame Hspread Hkeys.
  assert (Hcov : Settlement.home_covered (Settlement.determine_outcome game 24 20) = true).
  { cbn. apply SqlFacts.Qlt_bool_true. rewrite Hspread. reflexivity. }
  split; [exact Hcov|].
  intros b Hb Hg Hpending Htype.
  destruct (simulate_tables g 24 20 d game Hgame Hkeys) as (_ & _ & -> & _).
  apply in_map_iff. exists b. split; [|assumption].
  unfold settled_bet, bet_in_play. rewrite Hg, Hpending, Z.eqb_refl. cbn [andb].
  change ("pending" =? "pending")%string with true. cbv iota.
  unfold Settlement.bet_won. rewrite Htype.
  change ("spread" =? "moneyline")%string with false.
  change ("spread" =? "spread")%string with true. cbv iota. rewrite Hcov.
  destruct (Bets.bet_pick b =? "home")%string; reflexivity.
Qed.

(** The example on a game of two NFL teams, whose scores are drawn from the
    list that holds 24 and 20. *)
Lemma spread_minus_three_and_a_half_at_24_20_witness :
  let game := Games.mk 1 "Dallas Cowboys" "Buffalo Bills" 100 (191 # 100) (191 # 100)
                       (- (7 # 2)) (89 # 2) "scheduled" 0 0 in
  let home := Bets.mk 1 "u1" 1 "spread" "home" (10 # 1) (1910 # 100) (191 # 100) "pending" in
  let away := Bets.mk 2 "u2" 1 "spread" "away" (10 # 1) (1910 # 100) (191 # 100) "pending" in
  let d := mkdb [Users.mk "u1" "Ann" (90 # 1) (Some true);
                 Users.mk "u2" "Bob" (90 # 1) (Some true)]
                [] 1 [] [] [] [game] [home; away] 3 [] 1 [] 1 in
  Settlement.can_draw (Settlement.detect_sport_from_team (Games.home_team game)) 24 20 = true
  /\ In (Bets.set_status "won" home)
        (user_bets (snd (Settlement.simulate_game_result 1 24 20 d)))
  /\ In (Bets.set_status "lost" away)
        (user_bets (snd (Settlement.simulate_game_result 1 24 20 d))).
Proof.
  intros game home away d.
  assert (Hkeys : betting_keys d).
  { unfold betting_keys, d, home, away. cbn. repeat split.
    - repeat constructor; cbn; intuition discriminate.
    - constructor.
    - constructor. }
  destruct (spread_minus_three_and_a_half_at_24_20 1 d game eq_refl ltac:(reflexivity) Hkeys)
    as [_ Hbets].
  split; [reflexivity|]. split.
  - apply (Hbets home); [left | | |]; reflexivity.
  - apply (Hbets away); [right; left | | |]; reflexivity.
Defined.

(** C7, as stated, fails: at home line -3.5 and final score 24 to 20 the
    home pick is settled won and credited, the away pick is settled lost. *)
Lemma home_pick_wins_at_minus_three_and_a_half :
  let game := Games.mk 1 "Dallas Cowboys" "Buffalo Bills" 100 (191 # 100) (191 # 100)
                       (- (7 # 2)) (89 # 2) "scheduled" 0 0 in
  let home := Bets.mk 1 "u1" 1 "spread" "home" (10 # 1) (1910 # 100) (191 # 100) "pending" in
  let away := Bets.mk 2 "u2" 1 "spread" "away" (10 # 1) (1910 # 100) (191 # 100) "pending" in
  let d := mkdb [Users.mk "u1" "Ann" (90 # 1) (Some true);
                 Users.mk "u2" "Bob" (90 # 1) (Some true)]
                [] 1 [] [] [] [game] [home; away] 3 [] 1 [] 1 in
  let d' := snd (Settlement.simulate_game_result 1 24 20 d) in
  map (fun b => (Bets.bet_pick b, Bets.status b)) (user_bets d')
  = [("home", "won"); ("away", "lost")]
  /\ ~ (In (Bets.set_status "lost" home) (user_bets d')
        /\ In (Bets.set_status "won" away) (user_bets d')).
Proof.
  vm_compute. split; [reflexivity|].
  intros [[H | [H | []]] _]; discriminate.
Qed.

(** *** Lines that are met exactly *)

(** The settlement writes no status but 'won' and 'lost': a bet that has
    another status afterwards had it before. *)
Lemma settlement_writes_won_or_lost g hs as_ d game b' :
  Sql.fetchone (Sql.select (Games.has_id g) (upcoming_games d)) = Some game ->
  betting_keys d ->
  In b' (user_bets (snd (Settlement.simulate_game_result g hs as_ d))) ->
  Bets.status b' = "won" \/ Bets.status b' = "lost" \/ In b' (user_bets d).
Proof.
  intros Hgame Hkeys Hin.
  destruct (simulate_tables g hs as_ d game Hgame Hkeys) as (_ & _ & Hbets & _).
  rewrite Hbets in Hin. apply in_map_iff in Hin as (b & <- & Hb).
  unfold settled_bet. destruct (bet_in_play g b); [|auto].
  destruct (Settlement.bet_won _ _ _); cbn; auto.
Qed.

(** On a line met exactly, [home_covered] and [over_hit] are both false:
    the home and the over picks are marked lost, the away and the under
    picks won; no pending bet on the game is given any other status. *)
Lemma exact_line_has_no_push g hs as_ d game b :
  Sql.fetchone (Sql.select (Games.has_id g) (upcoming_games d)) = Some game ->
  betting_keys d ->
  In b (user_bets d) -> Bets.game_id b = g -> Bets.status b = "pending" ->
  (Bets.bet_type b = "spread" /\ (inject_Z hs + Games.spread game == inject_Z as_)%Q
   \/ Bets.bet_type b = "over_under" /\ (inject_Z (hs + as_) == Games.over_under game)%Q) ->
  In (Bets.set_status
        (if (Bets.bet_pick b
             =? (if (Bets.bet_type b =? "spread") then "home" else "over"))%string
         then "lost" else "won") b)
     (user_bets (snd (Settlement.simulate_game_result g hs as_ d))).
Proof.
  intros Hgame Hkeys Hb Hg Hpending Hline.
  destruct (simulate_tables g hs as_ d game Hgame Hkeys) as (_ & _ & -> & _).
  apply in_map_iff. exists b. split; [|assumption].
  unfold settled_bet, bet_in_play. rewrite Hg, Hpending, Z.eqb_refl. cbn [andb].
  change ("pending" =? "pending")%string with true. cbv iota.
  unfold Settlement.bet_won. f_equal.
  destruct Hline as [[Hty Hmet] | [Hty Hmet]]; rewrite Hty.
  - change ("spread" =? "moneyline")%string with false.
    change ("spread" =? "spread")%string with true. cbv iota.
    assert (Hcov : Settlement.home_covered (Settlement.determine_outcome game hs as_) = false).
    { cbn. apply SqlFacts.Qlt_bool_false. rewrite Hmet. apply Qle_refl. }
    rewrite Hcov. destruct (Bets.bet_pick b =? "home")%string; reflexivity.
  - change ("over_under" =? "moneyline")%string with false.
    change ("over_under" =? "spread")%string with false.
    change ("over_under" =? "over_under")%string with true. cbv iota.
    assert (Hover : Settlement.over_hit (Settlement.determine_outcome game hs as_) = false).
    { cbn. apply SqlFacts.Qlt_bool_false. rewrite <- Hmet. apply Qle_refl. }
    rewrite Hover. destruct (Bets.bet_pick b =? "over")%string; reflexivity.
Qed.

(** C6 on the code: a game with home line -3 and total line 45 that ends
    24 to 21 meets both lines exactly.  The settlement marks the home and
    the over picks lost, with no refund, and the away and the under picks
    won, with the potential payout of 19.10 rather than the stake of 10; no
    bet gets the status 'push'. *)
Theorem exact_line_is_settled_won_or_lost :
  let game := Games.mk 1 "Dallas Cowboys" "Buffalo Bills" 100 (191 # 100) (191 # 100)
                       (- (3 # 1)) (45 # 1) "scheduled" 0 0 in
  let bet := fun id user bet_type bet_pick =>
    Bets.mk id user 1 bet_type bet_pick (10 # 1) (1910 # 100) (191 # 100) "pending" in
  let d := mkdb [Users.mk "u1" "Ann" (90 # 1) (Some true);
                 Users.mk "u2" "Bob" (90 # 1) (Some true);
                 Users.mk "u3" "Cyd" (90 # 1) (Some true);
                 Users.mk "u4" "Dan" (90 # 1) (Some true)]
                [] 1 [] [] [] [game]
                [bet 1%Z "u1" "spread" "home"; bet 2%Z "u2" "spread" "away";
                 bet 3%Z "u3" "over_under" "over"; bet 4%Z "u4" "over_under" "under"]
                5 [] 1 [] 1 in
  let d' := snd (Settlement.simulate_game_result 1 24 21 d) in
  Settlement.can_draw (Settlement.detect_sport_from_team (Games.home_team game)) 24 21 = true
  /\ (inject_Z 24 + Games.spread game == inject_Z 21)%Q
  /\ (inject_Z (24 + 21) == Games.over_under game)%Q
  /\ map Bets.status (user_bets d') = ["lost"; "won"; "lost"; "won"]
  /\ map Users.wallet_balance (users d') = [90 # 1; 10910 # 100; 90 # 1; 10910 # 100].
Proof.
  vm_compute. repeat split.
Qed.

(** *** Settling a game that is already settled *)

Lemma settled_bet_not_in_play o g b : bet_in_play g (settled_bet o g b) = false.
Proof.
  unfold settled_bet. destruct (bet_in_play g b) eqn:E; [|exact E].
  unfold bet_in_play. destruct (Settlement.bet_won _ _ _); cbn; apply andb_false_r.
Qed.

Lemma settled_leg_pending o g ps l :
  ParlayBets.status (settled_leg o g ps l) = "pending" ->
  settled_leg o g ps l = l /\ leg_in_play g ps l = false.
Proof.
  unfold settled_leg. destruct (leg_in_play g ps l); [|auto].
  destruct (Settlement.bet_won _ _ _); cbn; discriminate.
Qed.

Lemma closed_parlay_id g legs legs' p :
  Parlays.id (closed_parlay g legs legs' p) = Parlays.id p.
Proof.
  unfold closed_parlay. destruct (parlay_in_play g legs p); [|reflexivity].
  destruct (has_leg "pending" _ _); [reflexivity|].
  destruct (has_leg "lost" _ _); reflexivity.
Qed.

Lemma closed_parlay_pending g legs legs' p :
  Parlays.status (closed_parlay g legs legs' p) = "pending" ->
  Parlays.status p = "pending".
Proof.
  unfold closed_parlay. destruct (parlay_in_play g legs p); [|auto].
  destruct (has_leg "pending" _ _); [auto|].
  destruct (has_leg "lost" _ _); cbn; discriminate.
Qed.

(** After a settlement of game [g], no leg on [g] is pending in a pending
    parlay. *)
Lemma no_leg_in_play_after o g legs ps ps' l' p' :
  (forall p', In p' ps' ->
     exists p, In p ps /\ Parlays.id p' = Parlays.id p
               /\ (Parlays.status p' = "pending" -> Parlays.status p = "pending")) ->
  In l' (map (settled_leg o g ps) legs) -> In p' ps' ->
  Parlays.id p' = ParlayBets.parlay_id l' ->
  ParlayBets.game_id l' = g ->
  ParlayBets.status l' = "pending" -> Parlays.status p' = "pending" -> False.
Proof.
  intros Hps Hl' Hp' Hid Hg Hsl Hsp.
  apply in_map_iff in Hl' as (l & <- & Hl).
  destruct (settled_leg_pending _ _ _ _ Hsl) as [El Hplay]. rewrite El in *.
  destruct (Hps p' Hp') as (p & Hp & Hpid & Hpending).
  unfold leg_in_play in Hplay. rewrite Hg, Hsl, Z.eqb_refl in Hplay.
  cbn in Hplay. apply not_true_iff_false in Hplay. apply Hplay.
  apply existsb_exists. exists p. split; [assumption|].
  unfold Parlays.has_id. rewrite <- Hpid, Hid, Z.eqb_refl, (Hpending Hsp). reflexivity.
Qed.

Lemma map_unchanged {A : Type} (f : A -> A) l :
  (forall x, In x l -> f x = x) -> map f l = l.
Proof.
  intros H. rewrite <- (map_id l) at 2. now apply map_ext_in.
Qed.

Lemma settled_bet_id o g b : Bets.id (settled_bet o g b) = Bets.id b.
Proof. unfold settled_bet. now destruct (bet_in_play g b). Qed.

Lemma settled_leg_id o g ps l : ParlayBets.id (settled_leg o g ps l) = ParlayBets.id l.
Proof. unfold settled_leg. now destruct (leg_in_play g ps l). Qed.

Lemma nothing_in_play_after g hs as_ d game :
  Sql.fetchone (Sql.select (Games.has_id g) (upcoming_games d)) = Some game ->
  betting_keys d ->
  let d1 := snd (Settlement.simulate_game_result g hs as_ d) in
  betting_keys d1
  /\ Sql.fetchone (Sql.select (Games.has_id g) (upcoming_games d1))
     = Some (Games.complete hs as_ game)
  /\ (forall b, In b (user_bets d1) -> bet_in_play g b = false)
  /\ (forall l, In l (parlay_bets d1) -> leg_in_play g (parlays d1) l = false)
  /\ (forall p, In p (parlays d1) -> parlay_in_play g (parlay_bets d1) p = false)
  /\ Settlement.pending_legs g d1 = [].
Proof.
  intros Hgame Hkeys d1.
  destruct (simulate_tables g hs as_ d game Hgame Hkeys)
    as (_ & Hgames & Hbets & Hlegs & Hparlays & _).
  fold d1 in Hgames, Hbets, Hlegs, Hparlays.
  set (o := Settlement.determine_outcome game hs as_) in *.
  destruct Hkeys as (Kbets & Klegs & Kparlays).
  assert (Hps : forall p', In p' (parlays d1) ->
            exists p, In p (parlays d) /\ Parlays.id p' = Parlays.id p
                      /\ (Parlays.status p' = "pending" -> Parlays.status p = "pending")).
  { intros p' Hp'. rewrite Hparlays in Hp'. apply in_map_iff in Hp' as (p & <- & Hp).
    exists p. split; [assumption|]. split.
    - apply closed_parlay_id.
    - apply closed_parlay_pending. }
  assert (Hnone : forall l' p', In l' (parlay_bets d1) -> In p' (parlays d1) ->
            Parlays.id p' = ParlayBets.parlay_id l' -> ParlayBets.game_id l' = g ->
            ParlayBets.status l' = "pending" -> Parlays.status p' = "pending" -> False).
  { intros l' p' Hl'. rewrite Hlegs in Hl'.
    now apply (no_leg_in_play_after o g (parlay_bets d) (parlays d) (parlays d1) l' p'). }
  split; [|split; [|split; [|split; [|split]]]].
  - unfold betting_keys. rewrite Hbets, Hlegs, Hparlays, !map_map.
    rewrite (map_ext _ Bets.id) by apply settled_bet_id.
    rewrite (map_ext (fun l => ParlayBets.id (settled_leg o g (parlays d) l)) ParlayBets.id)
      by apply settled_leg_id.
    rewrite (map_ext (fun p => Parlays.id (closed_parlay _ _ _ p)) Parlays.id)
      by (intros; apply closed_parlay_id).
    auto.
  - rewrite Hgames, SqlFacts.fetchone_select_update by reflexivity.
    rewrite Hgame. cbn. apply SqlFacts.fetchone_select_some in Hgame as [_ ->]. reflexivity.
  - intros b Hb. rewrite Hbets in Hb. apply in_map_iff in Hb as (b0 & <- & _).
    apply settled_bet_not_in_play.
  - intros l Hl. apply not_true_iff_false. intros Hplay. unfold leg_in_play in Hplay.
    rewrite !andb_true_iff, Z.eqb_eq, String.eqb_eq, existsb_exists in Hplay.
    destruct Hplay as ((Hg & Hsl) & p & Hp & Hw).
    apply andb_true_iff in Hw as [Hid Hsp].
    apply Z.eqb_eq in Hid. apply String.eqb_eq in Hsp. eauto.
  - intros p Hp. apply not_true_iff_false. intros Hplay. unfold parlay_in_play in Hplay.
    rewrite andb_true_iff, String.eqb_eq, existsb_exists in Hplay.
    destruct Hplay as (Hsp & l & Hl & Hw).
    rewrite !andb_true_iff, !Z.eqb_eq, String.eqb_eq in Hw.
    destruct Hw as ((Hid & Hg) & Hsl). eauto.
  - destruct (Settlement.pending_legs g d1) as [|[l p] js] eqn:E; [reflexivity|].
    exfalso. assert (Hin : In (l, p) (Settlement.pending_legs g d1)) by (rewrite E; now left).
    apply in_pending_legs in Hin as (Hl & Hp & Hid & Hg & Hsl & Hsp). eauto.
Qed.

(** C3, as the code has it.  [simulate_game_result] does not refuse a game
    that is already settled: a second call on it reports success again.
    It pays nothing twice: the bets, the parlays, their legs and every
    wallet are after the second call what they were after the first, and
    the game still has the status 'completed'. *)
Theorem settling_twice_pays_once :
  forall (game_id home_score away_score home_score' away_score' : Z) (d : db),
    betting_keys d ->
    fst (fst (Settlement.simulate_game_result game_id home_score away_score d)) = true ->
    let d1 := snd (Settlement.simulate_game_result game_id home_score away_score d) in
    let again := Settlement.simulate_game_result game_id home_score' away_score' d1 in
    fst (fst again) = true
    /\ user_bets (snd again) = user_bets d1
    /\ parlay_bets (snd again) = parlay_bets d1
    /\ parlays (snd again) = parlays d1
    /\ users (snd again) = users d1
    /\ (forall game, In game (upcoming_games (snd again)) -> Games.id game = game_id ->
                     Games.status game = "completed").
Proof.
  intros g h1 a1 h2 a2 d Hkeys Hfirst d1 again.
  destruct (Sql.fetchone (Sql.select (Games.has_id g) (upcoming_games d))) as [game|] eqn:Hgame.
  2: { unfold Settlement.simulate_game_result in Hfirst. rewrite Hgame in Hfirst.
       discriminate. }
  destruct (nothing_in_play_after g h1 a1 d game Hgame Hkeys)
    as (Hkeys1 & Hgame1 & Hbets1 & Hlegs1 & Hparlays1 & Hjoin1).
  fold d1 in Hkeys1, Hgame1, Hbets1, Hlegs1, Hparlays1, Hjoin1.
  destruct (simulate_tables g h2 a2 d1 _ Hgame1 Hkeys1)
    as (Hres & Hgames & Hbets & Hlegs & Hparlays & rs & _ & Hall & _ & Husers).
  fold again in Hres, Hgames, Hbets, Hlegs, Hparlays, Husers.
  assert (Hlegs' : parlay_bets (snd again) = parlay_bets d1).
  { rewrite Hlegs. apply map_unchanged. intros l Hl. unfold settled_leg.
    now rewrite (Hlegs1 l Hl). }
  split; [now rewrite Hres|]. split; [|split; [|split; [|split]]].
  - rewrite Hbets. apply map_unchanged. intros b Hb. unfold settled_bet.
    now rewrite (Hbets1 b Hb).
  - exact Hlegs'.
  - rewrite Hparlays. apply map_unchanged. intros p Hp. unfold closed_parlay.
    now rewrite (Hparlays1 p Hp).
  - rewrite Husers.
    assert (rs = []) as ->.
    { destruct rs as [|e rs]; [reflexivity|]. exfalso.
      inversion Hall as [|? ? (j & Hj & _) _]; subst. rewrite Hjoin1 in Hj. exact Hj. }
    assert (filter (bet_in_play g) (user_bets d1) = []) as ->
      by (apply (SqlFacts.select_none (bet_in_play g)); exact Hbets1).
    reflexivity.
  - intros game' Hin Hid. rewrite Hgames in Hin. unfold Sql.update in Hin.
    apply in_map_iff in Hin as (x & Hx & _).
    destruct (Games.has_id g x) eqn:E.
    + now subst game'.
    + subst game'. unfold Games.has_id in E. apply Z.eqb_neq in E. contradiction.
Qed.

(** On a settled game, a second call redraws the scores and pays nothing. *)
Lemma settling_twice_pays_once_witness :
  let game := Games.mk 1 "Dallas Cowboys" "Buffalo Bills" 100 (191 # 100) (191 # 100)
                       (- (7 # 2)) (89 # 2) "scheduled" 0 0 in
  let d := mkdb [Users.mk "u1" "Ann" (90 # 1) (Some true)] [] 1 [] [] [] [game]
                [Bets.mk 1 "u1" 1 "moneyline" "home" (10 # 1) (1910 # 100) (191 # 100)
                         "pending"]
                2 [] 1 [] 1 in
  let d1 := snd (Settlement.simulate_game_result 1 24 20 d) in
  let again := Settlement.simulate_game_result 1 10 7 d1 in
  fst (fst again) = true
  /\ user_bets (snd again) = user_bets d1
  /\ parlay_bets (snd again) = parlay_bets d1
  /\ parlays (snd again) = parlays d1
  /\ users (snd again) = users d1
  /\ map Users.wallet_balance (users (snd again)) = [10910 # 100].
Proof.
  intros game d d1 again.
  assert (Hkeys : betting_keys d).
  { unfold betting_keys, d. cbn. repeat split; repeat constructor. cbn. tauto. }
  destruct (settling_twice_pays_once 1 24 20 10 7 d Hkeys eq_refl)
    as (Hok & Hbets & Hlegs & Hparlays & Husers & _).
  repeat (split; [assumption|]). reflexivity.
Defined.

(** C3, as stated, fails: on a game settled at 24 to 20, a second call that
    draws 10 to 7 reports success, not an error, and overwrites the final
    score. *)
Lemma second_settlement_succeeds :
  let game := Games.mk 1 "Dallas Cowboys" "Buffalo Bills" 100 (191 # 100) (191 # 100)
                       (- (7 # 2)) (89 # 2) "scheduled" 0 0 in
  let d := mkdb [Users.mk "u1" "Ann" (90 # 1) (Some true)] [] 1 [] [] [] [game]
                [Bets.mk 1 "u1" 1 "moneyline" "home" (10 # 1) (1910 # 100) (191 # 100)
                         "pending"]
                2 [] 1 [] 1 in
  let d1 := snd (Settlement.simulate_game_result 1 24 20 d) in
  let again := Settlement.simulate_game_result 1 10 7 d1 in
  Settlement.can_draw (Settlement.detect_sport_from_team (Games.home_team game)) 10 7 = true
  /\ map Games.status (upcoming_games d1) = ["completed"]
  /\ fst again = (true, Settlement.Simulated "Dallas Cowboys" 10 7 "Buffalo Bills")
  /\ map (fun x => (Games.home_score x, Games.away_score x)) (upcoming_games d1)
     = [(24, 20)%Z]
  /\ map (fun x => (Games.home_score x, Games.away_score x)) (upcoming_games (snd again))
     = [(10, 7)%Z]
  /\ snd again <> d1.
Proof.
  vm_compute. repeat split. discriminate.
Qed.

(** *** Parlays *)

Lemma price_selections_spec now d bets :
  forall total valid total' valid',
    Wagering.price_selections now d bets total valid = inr (total', valid') ->
    exists priced,
      valid' = valid ++ priced
      /\ map fst priced = bets
      /\ total' = fold_left (fun t odds => Binary64.mul t (Binary64.of_Q odds))
                            (map snd priced) total.
Proof.
  induction bets as [|bet rest IH]; intros total valid total' valid'; simpl.
  - intros [= <- <-]. exists []. rewrite app_nil_r. auto.
  - destruct (Sql.fetchone _) as [game|]; [|discriminate].
    intros H. apply IH in H as (priced & -> & <- & ->).
    exists ((bet, Wagering.odds_of (Wagering.sel_bet_type bet) (Wagering.sel_bet_pick bet)
                                    game) :: priced).
    rewrite <- app_assoc. auto.
Qed.

Lemma insert_parlay_bets_spec parlay_id valid :
  forall d,
    exists legs,
      parlay_bets (fold_left (Wagering.insert_parlay_bet parlay_id) valid d)
      = parlay_bets d ++ legs
      /\ map ParlayBets.odds legs = map snd valid
      /\ Forall (fun l => ParlayBets.parlay_id l = parlay_id
                          /\ ParlayBets.status l = "pending") legs
      /\ parlays (fold_left (Wagering.insert_parlay_bet parlay_id) valid d) = parlays d.
Proof.
  induction valid as [|bet rest IH]; intros d; simpl.
  - exists []. rewrite app_nil_r. auto.
  - destruct (IH (Wagering.insert_parlay_bet parlay_id d bet))
      as (legs & Hlegs & Hodds & Hall & Hparlays).
    eexists (_ :: legs). split; [|split; [|split]].
    + rewrite Hlegs. cbn. unfold Sql.insert. rewrite <- app_assoc. reflexivity.
    + cbn. now rewrite Hodds.
    + constructor; [cbn; auto | assumption].
    + rewrite Hparlays. reflexivity.
Qed.

(** C5, as the code has it.  The potential payout of a parlay is locked
    when it is created: the stake times the product of its legs' odds, a
    product of floats taken leg by leg from 1.0, rounded to cents by
    Python's [round].  A settlement of a game changes the status of a
    pending parlay with a pending leg on that game only when, afterwards,
    none of its legs is pending: the parlay is then lost if some leg is
    lost, and won otherwise.  So legs [won, pending] leave the parlay
    pending and legs [won, lost] make it lost, but a lost leg does not close
    a parlay that has another leg still pending.  Every other parlay keeps
    its row.  Each wallet grows by the potential payouts of its user's bets
    won and parlays won in this settlement. *)
Theorem parlay_closes_once_every_leg_is_decided :
  (forall (user_id : string) (bets : list Wagering.selection) (amount : Q) (now : Z)
          (d d' : db) (msg : Wagering.message) (parlay_id : Z),
      Wagering.create_parlay_bet user_id bets amount now d = ((true, msg, Some parlay_id), d') ->
      exists legs,
        parlay_bets d' = parlay_bets d ++ legs
        /\ Forall (fun l => ParlayBets.parlay_id l = parlay_id
                            /\ ParlayBets.status l = "pending") legs
        /\ parlays d'
           = parlays d
             ++ [Parlays.mk parlay_id user_id amount
                   (Wagering.round2
                      (Binary64.mul (Binary64.of_Q amount)
                                    (product_of_odds (map ParlayBets.odds legs))))
                   "pending"])
  /\ (forall (game_id home_score away_score : Z) (d : db) (game : Games.row),
         Sql.fetchone (Sql.select (Games.has_id game_id) (upcoming_games d)) = Some game ->
         betting_keys d ->
         let o := Settlement.determine_outcome game home_score away_score in
         let d' := snd (Settlement.simulate_game_result game_id home_score away_score d) in
         (forall p, In p (parlays d) ->
            if parlay_in_play game_id (parlay_bets d) p then
              if has_leg "pending" (Parlays.id p) (parlay_bets d') then In p (parlays d')
              else if has_leg "lost" (Parlays.id p) (parlay_bets d')
                   then In (Parlays.set_status "lost" p) (parlays d')
                   else In (Parlays.set_status "won" p) (parlays d')
            else In p (parlays d'))
         /\ (forall u r, fetch_user u d = Some r ->
               exists r',
                 fetch_user u d' = Some r'
                 /\ (Users.wallet_balance r'
                     == Users.wallet_balance r
                        + bet_winnings o game_id u (user_bets d)
                        + parlay_winnings game_id (parlay_bets d) (parlay_bets d') u
                                          (parlays d))%Q)).
Proof.
  split.
  - intros u bets amount now d d' msg pid. unfold Wagering.create_parlay_bet.
    destruct (negb _); [discriminate|].
    destruct (List.length bets <? 2)%nat; [discriminate|].
    destruct (fetch_user u d) as [r|]; [|discriminate].
    destruct (Sql.Qlt_bool _ _); [discriminate|].
    destruct (Wagering.price_selections now d bets (Binary64.of_Q 1) [])
      as [closed | [total valid]] eqn:E; [discriminate|].
    apply price_selections_spec in E as (priced & -> & _ & ->). cbn [app].
    fold (product_of_odds (map snd priced)).
    set (payout := Wagering.round2 _).
    cbn. intros [= _ <- <-].
    destruct (insert_parlay_bets_spec (parlays_seq d) priced
                (snd (Wagering.insert_parlay u amount payout (debit_wallet u amount d))))
      as (legs & Hlegs & Hodds & Hall & Hparlays).
    exists legs. cbn in Hlegs, Hparlays. rewrite Hlegs, Hparlays, Hodds. auto.
  - intros g hs as_ d game Hgame Hkeys o d'.
    destruct (simulate_tables g hs as_ d game Hgame Hkeys)
      as (_ & _ & _ & Hlegs & Hparlays & _).
    fold d' o in Hlegs, Hparlays. split.
    + intros p Hp. rewrite Hparlays, Hlegs.
      set (close := closed_parlay g (parlay_bets d)
                      (map (settled_leg o g (parlays d)) (parlay_bets d))).
      pose proof (in_map close (parlays d) p Hp) as Hin.
      unfold close at 1 in Hin. unfold closed_parlay in Hin.
      destruct (parlay_in_play g (parlay_bets d) p); [|exact Hin].
      destruct (has_leg "pending" _ _); [exact Hin|].
      destruct (has_leg "lost" _ _); exact Hin.
    + intros u r Hu. rewrite Hlegs.
      exact (simulate_wallets g hs as_ d game u r Hgame Hkeys Hu).
Qed.

Ltac distinct_keys :=
  vm_compute; repeat (constructor; [cbn; intuition discriminate|]); constructor.

(** A stake of 5 on two legs at 1.50 and 2.13 locks 15.97: the float
    product of 5 and 1.0 * 1.5 * 2.13 lies just below 15.975.  After the
    first game the legs are [won, pending] and the parlay is pending; the
    second game then makes it won, and credits 15.97, or lost. *)
Lemma parlay_closes_once_every_leg_is_decided_witness :
  let game1 := Games.mk 1 "Dallas Cowboys" "Buffalo Bills" 100 (3 # 2) (5 # 2)
                        (- (7 # 2)) (89 # 2) "scheduled" 0 0 in
  let game2 := Games.mk 2 "Green Bay Packers" "Chicago Bears" 100 (213 # 100) (17 # 10)
                        (- (7 # 2)) (89 # 2) "scheduled" 0 0 in
  let d0 := mkdb [Users.mk "u1" "Ann" (100 # 1) (Some true)] [] 1 [] [] []
                 [game1; game2] [] 1 [] 1 [] 1 in
  let created := Wagering.create_parlay_bet "u1"
                   [Wagering.mk_selection 1 "moneyline" "home";
                    Wagering.mk_selection 2 "moneyline" "home"] (5 # 1) 50 d0 in
  let parlay := Parlays.mk 1 "u1" (5 # 1) (1597 # 100) "pending" in
  let d1 := snd created in
  let d2 := snd (Settlement.simulate_game_result 1 24 20 d1) in
  let won := snd (Settlement.simulate_game_result 2 24 20 d2) in
  let lost := snd (Settlement.simulate_game_result 2 20 24 d2) in
  parlays d1 = [parlay]
  /\ (map ParlayBets.status (parlay_bets d2) = ["won"; "pending"] /\ In parlay (parlays d2))
  /\ (map ParlayBets.status (parlay_bets won) = ["won"; "won"]
      /\ In (Parlays.set_status "won" parlay) (parlays won)
      /\ exists r, fetch_user "u1" won = Some r
                   /\ (Users.wallet_balance r == (95 # 1) + 0 + (1597 # 100))%Q)
  /\ (map ParlayBets.status (parlay_bets lost) = ["won"; "lost"]
      /\ In (Parlays.set_status "lost" parlay) (parlays lost)).
Proof.
  intros game1 game2 d0 created parlay d1 d2 won lost.
  destruct parlay_closes_once_every_leg_is_decided as [Hcreate Hsettle].
  assert (Hd1 : parlays d1 = [parlay]).
  { destruct (Hcreate "u1" [Wagering.mk_selection 1 "moneyline" "home";
                           Wagering.mk_selection 2 "moneyline" "home"] (5 # 1) 50%Z d0 d1
                      (Wagering.ParlayCreated (1597 # 100)) 1%Z)
      as (legs & Hlegs & _ & Hparlays).
    - vm_compute. reflexivity.
    - vm_compute in Hlegs. rewrite Hparlays, <- Hlegs. vm_compute. reflexivity. }
  assert (Hin1 : In parlay (parlays d1)) by (rewrite Hd1; now left).
  assert (Hkeys1 : betting_keys d1) by (repeat split; distinct_keys).
  assert (Hkeys2 : betting_keys d2) by (repeat split; distinct_keys).
  destruct (Hsettle 1%Z 24%Z 20%Z d1 game1 ltac:(vm_compute; reflexivity) Hkeys1)
    as [Hfirst _].
  specialize (Hfirst parlay Hin1).
  assert (Hin2 : In parlay (parlays d2)) by exact Hfirst.
  destruct (Hsettle 2%Z 24%Z 20%Z d2 game2 ltac:(vm_compute; reflexivity) Hkeys2)
    as [Hwon Hpaid].
  specialize (Hwon parlay Hin2).
  destruct (Hpaid "u1" (Users.mk "u1" "Ann" (95 # 1) (Some true))
                  ltac:(vm_compute; reflexivity)) as (r & Hr & Hbalance).
  destruct (Hsettle 2%Z 20%Z 24%Z d2 game2 ltac:(vm_compute; reflexivity) Hkeys2)
    as [Hlost _].
  specialize (Hlost parlay Hin2).
  split; [exact Hd1|]. split; [|split].
  - split; [vm_compute; reflexivity | exact Hin2].
  - split; [vm_compute; reflexivity|]. split; [exact Hwon|].
    exists r. split; [exact Hr|]. rewrite Hbalance. vm_compute. reflexivity.
  - split; [vm_compute; reflexivity | exact Hlost].
Defined.

(** C5, as stated, fails: a parlay of three legs whose first two games end
    with one leg won and one leg lost is still pending, because its third
    leg is. *)
Lemma lost_leg_waits_for_pending_leg :
  let game := fun id home away =>
    Games.mk id home away 100 (191 # 100) (191 # 100) (- (7 # 2)) (89 # 2) "scheduled" 0 0 in
  let leg := fun id game_id =>
    ParlayBets.mk id 1 game_id "moneyline" "home" (191 # 100) "pending" in
  let d := mkdb [Users.mk "u1" "Ann" (90 # 1) (Some true)] [] 1 [] [] []
                [game 1%Z "Dallas Cowboys" "Buffalo Bills";
                 game 2%Z "Green Bay Packers" "Chicago Bears";
                 game 3%Z "Detroit Lions" "Minnesota Vikings"]
                [] 1
                [Parlays.mk 1 "u1" (10 # 1) (6968 # 100) "pending"] 2
                [leg 1%Z 1%Z; leg 2%Z 2%Z; leg 3%Z 3%Z] 4 in
  let d1 := snd (Settlement.simulate_game_result 1 24 20 d) in
  let d2 := snd (Settlement.simulate_game_result 2 20 24 d1) in
  map ParlayBets.status (parlay_bets d2) = ["won"; "lost"; "pending"]
  /\ map Parlays.status (parlays d2) = ["pending"]
  /\ map Parlays.status (parlays d2) <> ["lost"].
Proof.
  vm_compute. repeat split. discriminate.
Qed.

End SettlementFacts.

(** ** Further properties of buying and selling *)

Module LedgerAudit.
Import Observe.

Lemma fetchone_none_select {row : Type} (w : row -> bool) t :
  Sql.fetchone (Sql.select w t) = None -> Sql.select w t = [].
Proof.
  unfold Sql.fetchone. destruct (Sql.select w t); [reflexivity | discriminate].
Qed.

Lemma NoDup_map_filter {A B : Type} (k : A -> B) (c : A -> bool) l :
  NoDup (map k l) -> NoDup (map k (filter c l)).
Proof.
  induction l as [|x l IH]; simpl; auto.
  intros Hnd. inversion Hnd as [|? ? Hx Hnd']; subst.
  destruct (c x); simpl; auto. constructor; auto.
  intros Hin. apply Hx. apply in_map_iff in Hin as (y & Hy & Hin).
  apply filter_In in Hin as [Hin _]. rewrite <- Hy. now apply in_map.
Qed.

(** X1.  Every accepted request appends exactly one row to the transaction
    log, with the user, the asset, the price and a quantity of one share: a
    'Buy' row with the price as purchase price and no profit, or a 'Sell'
    row that holds the cost basis of the sale, taken over the log as it was
    before the request, and the price less that basis, two floats, each
    rounded to cents on its own as its column stores it.  A refused request appends
    nothing, and leaves the database as it was once the demo account
    exists. *)
Theorem every_accepted_request_is_logged_once :
  forall (user_id asset_type asset_name transaction_type : string) (price : Q) (d : db),
    let out :=
      Ledger.execute_transaction user_id asset_type asset_name transaction_type price d in
    (fst (fst out) = false ->
       snd out = Ledger.ensure_demo_user user_id d
       /\ transactions (snd out) = transactions d)
    /\ (fst (fst out) = true ->
        exists t,
          transactions (snd out) = transactions d ++ [t]
          /\ Transactions.user_id t = user_id
          /\ Transactions.asset_type t = asset_type
          /\ Transactions.asset_name t = asset_name
          /\ Transactions.price t = price
          /\ Transactions.quantity t = 1%Z
          /\ ((transaction_type = "buy" /\ Transactions.transaction_type t = "Buy"
               /\ Transactions.purchase_price t = price
               /\ Transactions.profit_loss t = 0%Q)
              \/ (transaction_type = "sell" /\ Transactions.transaction_type t = "Sell"
                  /\ let basis :=
                       Binary64.of_Q
                         (Ledger.avg_purchase_price user_id asset_type asset_name price d) in
                     Transactions.purchase_price t = Binary64.to_numeric2 basis
                     /\ Transactions.profit_loss t
                        = Binary64.to_numeric2 (Binary64.sub (Binary64.of_Q price) basis)))).
Proof.
  intros u ty n tt p d out. subst out. unfold Ledger.execute_transaction.
  pose proof (LedgerFacts.transactions_ensure_demo_user u d) as Ht.
  set (d0 := Ledger.ensure_demo_user u d) in *.
  destruct (fetch_user u d0) as [r|]; cbv zeta.
  2: { cbn. split; [auto | discriminate]. }
  destruct (tt =? "buy")%string eqn:Ebuy.
  - apply String.eqb_eq in Ebuy.
    destruct (Sql.Qlt_bool (Users.wallet_balance r) p).
    { cbn. split; [auto | discriminate]. }
    split; [discriminate | intros _].
    eexists. split.
    { destruct (fetch_holding u ty n (debit_wallet u p d0)); cbn; now rewrite Ht. }
    repeat (split; [reflexivity|]). left. auto.
  - destruct (tt =? "sell")%string eqn:Esell.
    2: { cbn. split; [auto | discriminate]. }
    apply String.eqb_eq in Esell.
    destruct (fetch_holding u ty n d0) as [h|].
    2: { cbn. split; [auto | discriminate]. }
    destruct (Holdings.quantity h <? 1)%Z.
    { cbn. split; [auto | discriminate]. }
    split; [discriminate | intros _].
    assert (Hbasis : forall d2, transactions d2 = transactions d0 ->
              Ledger.avg_purchase_price u ty n p d2 = Ledger.avg_purchase_price u ty n p d).
    { intros d2 E. unfold Ledger.avg_purchase_price. now rewrite E, Ht. }
    eexists. split.
    { destruct (Holdings.quantity h =? 1)%Z; cbn; now rewrite Ht. }
    repeat (split; [reflexivity|]). right.
    split; [exact Esell|]. split; [reflexivity|]. cbv zeta.
    destruct (Holdings.quantity h =? 1)%Z; cbn;
      (rewrite Hbasis by reflexivity); split; reflexivity.
Qed.

Lemma ensure_demo_user_opens d :
  fetch_user "demo_user_001" d = None ->
  Ledger.ensure_demo_user "demo_user_001" d
  = with_users (Sql.insert (Users.mk "demo_user_001" "Demo User" (300 # 1) (Some false))) d.
Proof. intros H. unfold Ledger.ensure_demo_user. rewrite H. reflexivity. Qed.

Lemma fetch_user_inserted u r d :
  fetch_user u d = None -> Users.id r = u ->
  fetch_user u (with_users (Sql.insert r) d) = Some r.
Proof.
  intros H Hid. unfold fetch_user in *. unfold with_users. cbn [users].
  rewrite SqlFacts.select_insert, (fetchone_none_select _ _ H).
  unfold Users.has_id. rewrite Hid, String.eqb_refl. reflexivity.
Qed.

(** The balance read back after a debit or a credit of an existing user. *)
Lemma balance_updated u f d r :
  (forall x, Users.id (f x) = Users.id x) ->
  fetch_user u d = Some r ->
  forall d', users d' = Sql.update (Users.has_id u) f (users d) ->
  fetch_user u d' = Some (f r).
Proof.
  intros Hf Hu d' E. unfold fetch_user. rewrite E.
  now apply LedgerFacts.fetch_user_updated.
Qed.

(** X2.  The first request of the demo account opens it with a balance of
    300.00: the call never answers that the user is unknown, a refused
    request still leaves the new account behind, and a buy at a price of at
    most 300.00 is accepted and leaves 300.00 less the price. *)
Theorem demo_account_opens_with_300 :
  forall (asset_type asset_name transaction_type : string) (price : Q) (d : db),
    fetch_user "demo_user_001" d = None ->
    let out := Ledger.execute_transaction "demo_user_001" asset_type asset_name
                 transaction_type price d in
    let opened :=
      with_users (Sql.insert (Users.mk "demo_user_001" "Demo User" (300 # 1) (Some false)))
                 d in
    snd (fst out) <> Ledger.UserNotFound "demo_user_001"
    /\ (fst (fst out) = false ->
        snd out = opened /\ balance "demo_user_001" (snd out) = Some (300 # 1))
    /\ (transaction_type = "buy" -> (price <= 300 # 1)%Q ->
        fst (fst out) = true
        /\ balance "demo_user_001" (snd out) = Some ((300 # 1) - price)%Q).
Proof.
  intros ty n tt p d Hnone out opened. subst out.
  unfold Ledger.execute_transaction. rewrite (ensure_demo_user_opens d Hnone).
  fold opened.
  assert (Hu : fetch_user "demo_user_001" opened
               = Some (Users.mk "demo_user_001" "Demo User" (300 # 1) (Some false)))
    by (apply fetch_user_inserted; auto).
  rewrite Hu. cbv zeta. cbn [Users.wallet_balance].
  assert (Hbal : balance "demo_user_001" opened = Some (300 # 1))
    by (unfold balance; now rewrite Hu).
  split; [|split].
  - destruct (tt =? "buy")%string.
    + destruct (Sql.Qlt_bool (300 # 1) p); discriminate.
    + destruct (tt =? "sell")%string; [|discriminate].
      destruct (fetch_holding "demo_user_001" ty n opened) as [h|]; [|discriminate].
      destruct (Holdings.quantity h <? 1)%Z; discriminate.
  - destruct (tt =? "buy")%string.
    + destruct (Sql.Qlt_bool (300 # 1) p); [auto | discriminate].
    + destruct (tt =? "sell")%string; [|auto].
      destruct (fetch_holding "demo_user_001" ty n opened) as [h|]; [|auto].
      destruct (Holdings.quantity h <? 1)%Z; [auto | discriminate].
  - intros -> Hp. change ("buy" =? "buy")%string with true. cbv iota.
    apply SqlFacts.Qlt_bool_false in Hp. rewrite Hp.
    split; [reflexivity|]. unfold balance.
    rewrite (balance_updated "demo_user_001" (Users.sub_wallet_balance p) opened _
               (fun _ => eq_refl) Hu); [reflexivity|].
    destruct (fetch_holding "demo_user_001" ty n (debit_wallet "demo_user_001" p opened));
      reflexivity.
Qed.

(** The demo account opened by a refused sell, and by a buy at 120.00. *)
Lemma demo_account_opens_with_300_witness :
  let d := mkdb [] [] 1 [] [] [] [] [] 1 [] 1 [] 1 in
  balance "demo_user_001"
          (snd (Ledger.execute_transaction "demo_user_001" "Player" "Josh Allen" "sell"
                                           (10 # 1) d)) = Some (300 # 1)
  /\ balance "demo_user_001"
             (snd (Ledger.execute_transaction "demo_user_001" "Player" "Josh Allen" "buy"
                                              (120 # 1) d)) = Some ((300 # 1) - (120 # 1))%Q.
Proof.
  intros d. split.
  - apply (demo_account_opens_with_300 "Player" "Josh Allen" "sell" (10 # 1) d eq_refl).
    reflexivity.
  - apply (demo_account_opens_with_300 "Player" "Josh Allen" "buy" (120 # 1) d eq_refl);
      [reflexivity | discriminate].
Defined.

(** *** A request of any user, through the account it finds *)

Lemma ensure_demo_user_twice u d :
  Ledger.ensure_demo_user u (Ledger.ensure_demo_user u d) = Ledger.ensure_demo_user u d.
Proof.
  destruct (fetch_user u d) as [r|] eqn:Hu.
  { now rewrite !(LedgerFacts.ensure_demo_user_existing u d r Hu). }
  destruct (u =? "demo_user_001")%string eqn:E.
  - assert (H0 : Ledger.ensure_demo_user u d
                 = with_users (Sql.insert (Users.mk u "Demo User" (300 # 1) (Some false))) d)
      by (unfold Ledger.ensure_demo_user; now rewrite E, Hu).
    rewrite H0.
    apply (LedgerFacts.ensure_demo_user_existing u _
             (Users.mk u "Demo User" (300 # 1) (Some false))).
    now apply fetch_user_inserted.
  - assert (H0 : Ledger.ensure_demo_user u d = d)
      by (unfold Ledger.ensure_demo_user; now rewrite E).
    now rewrite !H0.
Qed.

Lemma execute_transaction_opened u ty n tt p d :
  Ledger.execute_transaction u ty n tt p d
  = Ledger.execute_transaction u ty n tt p (Ledger.ensure_demo_user u d).
Proof.
  unfold Ledger.execute_transaction. now rewrite ensure_demo_user_twice.
Qed.

Lemma execute_transaction_unknown u ty n tt p d :
  fetch_user u d = None ->
  Ledger.execute_transaction u ty n tt p d
  = ((false, Ledger.UserNotFound u), Ledger.ensure_demo_user u d)
  \/ exists r, fetch_user u (Ledger.ensure_demo_user u d) = Some r.
Proof.
  intros _. unfold Ledger.execute_transaction.
  destruct (fetch_user u (Ledger.ensure_demo_user u d)) as [r|]; eauto.
Qed.

Lemma fetch_other_user v u f us :
  v <> u -> (forall x, Users.id (f x) = Users.id x) ->
  Sql.fetchone (Sql.select (Users.has_id v) (Sql.update (Users.has_id u) f us))
  = Sql.fetchone (Sql.select (Users.has_id v) us).
Proof.
  intros Hv Hf. rewrite SqlFacts.fetchone_select_update.
  - destruct (Sql.fetchone (Sql.select (Users.has_id v) us)) as [x|] eqn:E; [|reflexivity].
    apply SqlFacts.fetchone_select_some in E as [_ E]. apply String.eqb_eq in E.
    cbn. unfold Users.has_id. rewrite E.
    destruct (String.eqb_spec v u); [contradiction | reflexivity].
  - intros x. unfold Users.has_id. now rewrite Hf.
Qed.

Lemma ensure_demo_user_frame u d :
  holdings (Ledger.ensure_demo_user u d) = holdings d
  /\ holdings_seq (Ledger.ensure_demo_user u d) = holdings_seq d
  /\ (forall v, v <> u ->
        fetch_user v (Ledger.ensure_demo_user u d) = fetch_user v d)
  /\ (NoDup (map Users.id (users d)) ->
      NoDup (map Users.id (users (Ledger.ensure_demo_user u d)))).
Proof.
  unfold Ledger.ensure_demo_user.
  destruct (u =? "demo_user_001")%string; [|auto].
  destruct (fetch_user u d) as [r|] eqn:Hu; [auto|].
  repeat split.
  - intros v Hv. unfold fetch_user, with_users. cbn [users].
    rewrite SqlFacts.select_insert. unfold Users.has_id at 2. cbn [Users.id].
    destruct (String.eqb_spec u v); [congruence|]. now rewrite app_nil_r.
  - intros Hnd. unfold with_users, Sql.insert. cbn [users]. rewrite map_app. cbn.
    apply NoDup_app; auto.
    + constructor; [cbn; tauto | constructor].
    + intros i Hi [<- | []]. apply in_map_iff in Hi as (x & Hx & Hin).
      pose proof (SqlFacts.fetchone_select_none _ _ Hu x Hin) as E.
      unfold Users.has_id in E. rewrite Hx, String.eqb_refl in E. discriminate.
Qed.

(** What a request of an existing account leaves alone: the rule of one
    holdings row per asset, and the wallets and the shares of every other
    user. *)
Lemma run_frame u o d r res d' :
  fetch_user u d = Some r -> primary_keys d -> run u o d = (res, d') ->
  (one_row_per_asset d -> one_row_per_asset d')
  /\ (forall v, v <> u ->
        fetch_user v d' = fetch_user v d
        /\ forall ty n, held v ty n d' = held v ty n d).
Proof.
  intros Hu (Kusers & Kids & Kseq).
  unfold run, Ledger.execute_transaction.
  rewrite (LedgerFacts.ensure_demo_user_existing _ _ _ Hu), Hu. cbv zeta.
  assert (Hother : forall v ty n h,
             v <> u -> Holdings.is_asset u (op_asset_type o) (op_asset_name o) h = true ->
             Holdings.is_asset v ty n h = false).
  { intros v ty n h Hv Hh. rewrite (PeerTradeFacts.is_asset_of_row _ _ _ v ty n _ Hh).
    destruct (String.eqb_spec u v); [congruence | reflexivity]. }
  destruct (op_transaction_type o =? "buy")%string.
  - destruct (Sql.Qlt_bool (Users.wallet_balance r) (op_price o)).
    { intros [= <- <-]. auto. }
    change (fetch_holding u (op_asset_type o) (op_asset_name o)
              (debit_wallet u (op_price o) d))
      with (fetch_holding u (op_asset_type o) (op_asset_name o) d).
    destruct (fetch_holding u (op_asset_type o) (op_asset_name o) d) as [h|] eqn:Eh;
      intros [= <- <-].
    + apply SqlFacts.fetchone_select_some in Eh as [Hh_in Hh]. split.
      * unfold one_row_per_asset. cbn. now rewrite PeerTradeFacts.keys_update.
      * intros v Hv. split.
        -- unfold fetch_user. cbn. now apply fetch_other_user.
        -- intros ty n. unfold held. cbn.
           rewrite LedgerFacts.quantity_sum_update_by_id
             by auto using LedgerFacts.is_asset_add_quantity.
           rewrite (Hother v ty n h Hv Hh). lia.
    + split.
      * unfold one_row_per_asset. cbn. unfold Sql.insert. rewrite map_app. cbn.
        intros Hone. apply NoDup_app; auto.
        -- constructor; [cbn; tauto | constructor].
        -- intros k Hk [<- | []]. apply in_map_iff in Hk as (x & Hx & Hin).
           apply PeerTradeFacts.is_asset_key in Hx. cbn in Hx.
           pose proof (SqlFacts.fetchone_select_none _ _ Eh x Hin). congruence.
      * intros v Hv. split.
        -- unfold fetch_user. cbn. now apply fetch_other_user.
        -- intros ty n. unfold held. cbn.
           rewrite SqlFacts.select_insert. unfold Holdings.is_asset at 2. cbn.
           destruct (String.eqb_spec u v); [congruence|]. cbn. now rewrite app_nil_r.
  - destruct (op_transaction_type o =? "sell")%string.
    2: { intros [= <- <-]. auto. }
    destruct (fetch_holding u (op_asset_type o) (op_asset_name o) d) as [h|] eqn:Eh.
    2: { intros [= <- <-]. auto. }
    destruct (Holdings.quantity h <? 1)%Z.
    { intros [= <- <-]. auto. }
    apply SqlFacts.fetchone_select_some in Eh as [Hh_in Hh].
    destruct (Holdings.quantity h =? 1)%Z; intros [= <- <-].
    + split.
      * unfold one_row_per_asset. cbn. apply NoDup_map_filter.
      * intros v Hv. split.
        -- unfold fetch_user. cbn. now apply fetch_other_user.
        -- intros ty n. unfold held. cbn.
           rewrite LedgerFacts.quantity_sum_delete_by_id by auto.
           rewrite (Hother v ty n h Hv Hh). lia.
    + split.
      * unfold one_row_per_asset. cbn. now rewrite PeerTradeFacts.keys_update.
      * intros v Hv. split.
        -- unfold fetch_user. cbn. now apply fetch_other_user.
        -- intros ty n. unfold held. cbn.
           rewrite LedgerFacts.quantity_sum_update_by_id
             by auto using LedgerFacts.is_asset_add_quantity.
           rewrite (Hother v ty n h Hv Hh). lia.
Qed.

Lemma execute_transaction_no_account u ty n tt p d :
  fetch_user u (Ledger.ensure_demo_user u d) = None ->
  Ledger.execute_transaction u ty n tt p d
  = ((false, Ledger.UserNotFound u), Ledger.ensure_demo_user u d).
Proof.
  intros H. unfold Ledger.execute_transaction. now rewrite H.
Qed.

Lemma ensure_demo_user_keys u d :
  primary_keys d -> primary_keys (Ledger.ensure_demo_user u d).
Proof.
  intros (Kusers & Kids & Kseq).
  destruct (ensure_demo_user_frame u d) as (Hh & Hs & _ & Hnd).
  unfold primary_keys. rewrite Hh, Hs. auto.
Qed.

(** X3.  The keys of the ledger are invariants of [execute_transaction]:
    whatever the request and whoever makes it, user ids and holdings ids
    stay pairwise distinct, holdings ids stay below the next value of their
    sequence, and every user keeps at most one holdings row per asset. *)
Theorem execute_transaction_keeps_the_keys :
  forall (user_id asset_type asset_name transaction_type : string) (price : Q) (d : db),
    primary_keys d -> one_row_per_asset d ->
    let d' := snd (Ledger.execute_transaction user_id asset_type asset_name
                                              transaction_type price d) in
    primary_keys d' /\ one_row_per_asset d'.
Proof.
  intros u ty n tt p d Hk Hone d'. subst d'.
  rewrite execute_transaction_opened.
  pose proof (ensure_demo_user_keys u d Hk) as Hk0.
  assert (Hone0 : one_row_per_asset (Ledger.ensure_demo_user u d)).
  { unfold one_row_per_asset. destruct (ensure_demo_user_frame u d) as (-> & _). exact Hone. }
  set (d0 := Ledger.ensure_demo_user u d) in *.
  destruct (fetch_user u d0) as [r|] eqn:Hu.
  - destruct (run u (mk_operation ty n tt p) d0) as [res d1] eqn:E.
    change (Ledger.execute_transaction u ty n tt p d0)
      with (run u (mk_operation ty n tt p) d0).
    rewrite E. cbn [snd].
    destruct (LedgerFacts.run_spec _ _ _ _ _ _ Hu Hk0 E) as [Hrefused Haccepted].
    destruct (run_frame _ _ _ _ _ _ Hu Hk0 E) as [Hrow _].
    split; [|auto].
    destruct (fst res); [apply Haccepted; reflexivity | now rewrite Hrefused].
  - rewrite execute_transaction_no_account; unfold d0 in *;
      rewrite ensure_demo_user_twice; auto.
Qed.

(** The keys kept by a first buy of a new asset. *)
Lemma execute_transaction_keeps_the_keys_witness :
  let d := mkdb [Users.mk "u1" "Ann" (25 # 1) (Some true)]
                [Holdings.mk 1 "u1" "Josh Allen" "Player" 2] 2
                [] [] [] [] [] 1 [] 1 [] 1 in
  let d' := snd (Ledger.execute_transaction "u1" "Team Fund" "AFC East" "buy" (10 # 1) d) in
  primary_keys d' /\ one_row_per_asset d'.
Proof.
  intros d.
  apply (execute_transaction_keeps_the_keys "u1" "Team Fund" "AFC East" "buy" (10 # 1) d).
  - unfold primary_keys. vm_compute. repeat split.
    + constructor; [simpl; tauto | constructor].
    + constructor; [simpl; tauto | constructor].
    + constructor; [reflexivity | constructor].
  - unfold one_row_per_asset. vm_compute. constructor; [simpl; tauto | constructor].
Defined.

(** X4.  A request touches the account that makes it and no other: the
    wallet balance of every other user, and the number of shares every
    other user holds of every asset, are as before. *)
Theorem execute_transaction_leaves_other_accounts :
  forall (user_id asset_type asset_name transaction_type : string) (price : Q) (d : db)
         (other : string),
    primary_keys d -> other <> user_id ->
    let d' := snd (Ledger.execute_transaction user_id asset_type asset_name
                                              transaction_type price d) in
    balance other d' = balance other d
    /\ forall ty n, held other ty n d' = held other ty n d.
Proof.
  intros u ty n tt p d v Hk Hv d'. subst d'.
  rewrite execute_transaction_opened.
  pose proof (ensure_demo_user_keys u d Hk) as Hk0.
  destruct (ensure_demo_user_frame u d) as (Hh & _ & Hf & _).
  specialize (Hf v Hv).
  assert (Hheld : forall ty' n', held v ty' n' (Ledger.ensure_demo_user u d) = held v ty' n' d)
    by (intros; unfold held; now rewrite Hh).
  set (d0 := Ledger.ensure_demo_user u d) in *.
  destruct (fetch_user u d0) as [r|] eqn:Hu.
  - destruct (run u (mk_operation ty n tt p) d0) as [res d1] eqn:E.
    change (Ledger.execute_transaction u ty n tt p d0)
      with (run u (mk_operation ty n tt p) d0).
    rewrite E. cbn [snd].
    destruct (run_frame _ _ _ _ _ _ Hu Hk0 E) as [_ Hout].
    destruct (Hout v Hv) as [Hb Hq]. split.
    + unfold balance. now rewrite Hb, Hf.
    + intros ty' n'. now rewrite Hq.
  - rewrite execute_transaction_no_account by (unfold d0; now rewrite ensure_demo_user_twice).
    unfold d0. rewrite ensure_demo_user_twice. fold d0. cbn [snd]. split.
    + unfold balance. now rewrite Hf.
    + exact Hheld.
Qed.

(** A buy by one user, seen from another. *)
Lemma execute_transaction_leaves_other_accounts_witness :
  let d := mkdb [Users.mk "u1" "Ann" (25 # 1) (Some true);
                 Users.mk "u2" "Bob" (40 # 1) (Some true)]
                [Holdings.mk 1 "u2" "Josh Allen" "Player" 2] 2
                [] [] [] [] [] 1 [] 1 [] 1 in
  let d' := snd (Ledger.execute_transaction "u1" "Player" "Josh Allen" "buy" (10 # 1) d) in
  balance "u2" d' = Some (40 # 1) /\ held "u2" "Player" "Josh Allen" d' = 2%Z.
Proof.
  intros d d'.
  assert (Hk : primary_keys d).
  { unfold primary_keys. vm_compute. repeat split.
    - constructor; [simpl; intros [H | []]; discriminate|].
      constructor; [simpl; tauto | constructor].
    - constructor; [simpl; tauto | constructor].
    - constructor; [reflexivity | constructor]. }
  assert (Hv : "u2" <> "u1") by discriminate.
  destruct (execute_transaction_leaves_other_accounts
              "u1" "Player" "Josh Allen" "buy" (10 # 1) d "u2" Hk Hv) as [Hb Hq].
  split.
  - exact Hb.
  - exact (Hq "Player" "Josh Allen").
Defined.

(** *** A buy followed by a sell *)

Lemma buy_holding u ty n p d r :
  fetch_user u d = Some r -> (p <= Users.wallet_balance r)%Q ->
  exists d1 h1,
    Ledger.execute_transaction u ty n "buy" p d = ((true, Ledger.Bought n p), d1)
    /\ fetch_holding u ty n d1 = Some h1
    /\ Holdings.quantity h1
       = match fetch_holding u ty n d with
         | Some h => (Holdings.quantity h + 1)%Z
         | None => 1%Z
         end.
Proof.
  intros Hu Hp. unfold Ledger.execute_transaction.
  rewrite (LedgerFacts.ensure_demo_user_existing _ _ _ Hu), Hu. cbv zeta.
  change ("buy" =? "buy")%string with true. cbv iota.
  apply SqlFacts.Qlt_bool_false in Hp. rewrite Hp.
  change (fetch_holding u ty n (debit_wallet u p d)) with (fetch_holding u ty n d).
  destruct (fetch_holding u ty n d) as [h|] eqn:Eh.
  - eexists. exists (Holdings.add_quantity 1 h). split; [reflexivity|]. split; [|reflexivity].
    unfold fetch_holding in *. cbn.
    rewrite SqlFacts.fetchone_select_update by (intros; apply LedgerFacts.is_asset_add_quantity).
    rewrite Eh. cbn. unfold Holdings.has_id. now rewrite Z.eqb_refl.
  - eexists. exists (Holdings.mk (holdings_seq d) u n ty 1). split; [reflexivity|].
    split; [|reflexivity].
    unfold fetch_holding in *. cbn.
    rewrite SqlFacts.select_insert, (fetchone_none_select _ _ Eh).
    unfold Holdings.is_asset. cbn. now rewrite !String.eqb_refl.
Qed.

Lemma sell_accepted u ty n p d r h :
  fetch_user u d = Some r -> fetch_holding u ty n d = Some h ->
  (1 <= Holdings.quantity h)%Z ->
  fst (Ledger.execute_transaction u ty n "sell" p d) = (true, Ledger.Sold n p).
Proof.
  intros Hu Hh Hq. unfold Ledger.execute_transaction.
  rewrite (LedgerFacts.ensure_demo_user_existing _ _ _ Hu), Hu. cbv zeta.
  change ("sell" =? "buy")%string with false. change ("sell" =? "sell")%string with true.
  cbv iota. rewrite Hh. apply Z.ltb_ge in Hq. rewrite Hq. reflexivity.
Qed.

(** X5.  A buy that the wallet covers, followed by a sell of the same asset
    at the same price, is a round trip: both requests are accepted, the
    wallet balance is back at its value, and the number of shares held of
    every asset is as before. *)
Theorem buy_then_sell_restores_the_account :
  forall (user_id asset_type asset_name : string) (price : Q) (d : db) (account : Users.row),
    fetch_user user_id d = Some account ->
    primary_keys d ->
    Forall (fun h => (0 <= Holdings.quantity h)%Z) (holdings d) ->
    (price <= Users.wallet_balance account)%Q ->
    let bought := Ledger.execute_transaction user_id asset_type asset_name "buy" price d in
    let sold :=
      Ledger.execute_transaction user_id asset_type asset_name "sell" price (snd bought) in
    fst bought = (true, Ledger.Bought asset_name price)
    /\ fst sold = (true, Ledger.Sold asset_name price)
    /\ (exists account',
           fetch_user user_id (snd sold) = Some account'
           /\ (Users.wallet_balance account' == Users.wallet_balance account)%Q)
    /\ (forall ty n, held user_id ty n (snd sold) = held user_id ty n d).
Proof.
  intros u ty n p d r Hu Hk Hnn Hp bought sold. subst sold bought.
  destruct (buy_holding u ty n p d r Hu Hp) as (d1 & h1 & Ebuy & Hh1 & Hq1).
  rewrite Ebuy. cbn [fst snd].
  destruct (LedgerFacts.run_spec u (mk_operation ty n "buy" p) d r _ d1 Hu Hk Ebuy)
    as [_ Hacc].
  destruct (Hacc eq_refl) as ((r1 & Hu1 & Hb1) & Hheld1 & Hk1 & _).
  assert (Hone : (1 <= Holdings.quantity h1)%Z).
  { rewrite Hq1. destruct (fetch_holding u ty n d) as [h|] eqn:Eh; [|lia].
    apply SqlFacts.fetchone_select_some in Eh as [Hin _].
    rewrite Forall_forall in Hnn. specialize (Hnn h Hin). lia. }
  pose proof (sell_accepted u ty n p d1 r1 h1 Hu1 Hh1 Hone) as Esell.
  destruct (Ledger.execute_transaction u ty n "sell" p d1) as [res2 d2] eqn:E2.
  cbn [fst snd] in *. subst res2.
  destruct (LedgerFacts.run_spec u (mk_operation ty n "sell" p) d1 r1 _ d2 Hu1 Hk1 E2)
    as [_ Hacc2].
  destruct (Hacc2 eq_refl) as ((r2 & Hu2 & Hb2) & Hheld2 & _).
  split; [reflexivity|]. split; [reflexivity|]. split.
  - exists r2. split; [exact Hu2|]. rewrite Hb2, Hb1. unfold cash_delta. cbn. ring.
  - intros ty' n'. rewrite Hheld2, Hheld1. unfold quantity_delta. cbn.
    destruct ((ty =? ty')%string && (n =? n')%string); lia.
Qed.

(** A round trip at 10.00 on an account that holds two shares already. *)
Lemma buy_then_sell_restores_the_account_witness :
  let d := mkdb [Users.mk "u1" "Ann" (25 # 1) (Some true)]
                [Holdings.mk 1 "u1" "Josh Allen" "Player" 2] 2
                [] [] [] [] [] 1 [] 1 [] 1 in
  let bought := Ledger.execute_transaction "u1" "Player" "Josh Allen" "buy" (10 # 1) d in
  let sold :=
    Ledger.execute_transaction "u1" "Player" "Josh Allen" "sell" (10 # 1) (snd bought) in
  fst sold = (true, Ledger.Sold "Josh Allen" (10 # 1))
  /\ held "u1" "Player" "Josh Allen" (snd sold) = held "u1" "Player" "Josh Allen" d.
Proof.
  intros d.
  assert (Hk : primary_keys d).
  { unfold primary_keys. vm_compute. repeat split.
    - constructor; [simpl; tauto | constructor].
    - constructor; [simpl; tauto | constructor].
    - constructor; [reflexivity | constructor]. }
  assert (Hnn : Forall (fun h => (0 <= Holdings.quantity h)%Z) (holdings d)).
  { vm_compute. constructor; [discriminate | constructor]. }
  assert (Hp : (10 # 1 <= 25 # 1)%Q) by discriminate.
  destruct (buy_then_sell_restores_the_account
              "u1" "Player" "Josh Allen" (10 # 1) d
              (Users.mk "u1" "Ann" (25 # 1) (Some true)) eq_refl Hk Hnn Hp)
    as (_ & Hsold & _ & Hheld).
  split.
  - exact Hsold.
  - exact (Hheld "Player" "Josh Allen").
Defined.

(** *** The loops of the trading page *)

Lemma buy_refused u ty n p d r :
  fetch_user u d = Some r -> (Users.wallet_balance r < p)%Q ->
  Ledger.execute_transaction u ty n "buy" p d
  = ((false, Ledger.InsufficientFunds p (Users.wallet_balance r)), d).
Proof.
  intros Hu Hp. unfold Ledger.execute_transaction.
  rewrite (LedgerFacts.ensure_demo_user_existing _ _ _ Hu), Hu. cbv zeta.
  change ("buy" =? "buy")%string with true. cbv iota.
  apply SqlFacts.Qlt_bool_true in Hp. now rewrite Hp.
Qed.

Lemma trade_shares_step qty u ty n tt p d :
  Desk.trade_shares (S qty) u ty n tt p d
  = if fst (fst (Ledger.execute_transaction u ty n tt p d))
    then Desk.trade_shares qty u ty n tt p (snd (Ledger.execute_transaction u ty n tt p d))
    else (false, snd (Ledger.execute_transaction u ty n tt p d)).
Proof.
  simpl. now destruct (Ledger.execute_transaction u ty n tt p d).
Qed.

(** X6.  The "Buy Now" loop buys one share at a time and stops at the first
    refusal, keeping what it has bought: it buys some number of shares up to
    the quantity asked, debits the price that many times, and reports
    success exactly when it bought them all; when it stops early the wallet
    is left with less than one price.  It buys them all when the wallet
    covers the quantity times the price. *)
Theorem buy_now_fills_what_the_wallet_covers :
  forall (qty : nat) (user_id asset_type asset_name : string) (price : Q) (d : db)
         (account : Users.row),
    fetch_user user_id d = Some account ->
    primary_keys d ->
    (0 <= price)%Q ->
    let out := Desk.trade_shares qty user_id asset_type asset_name "buy" price d in
    (exists (bought : nat) (account' : Users.row),
        (bought <= qty)%nat
        /\ fetch_user user_id (snd out) = Some account'
        /\ (Users.wallet_balance account'
            == Users.wallet_balance account - inject_Z (Z.of_nat bought) * price)%Q
        /\ held user_id asset_type asset_name (snd out)
           = (held user_id asset_type asset_name d + Z.of_nat bought)%Z
        /\ (fst out = true <-> bought = qty)
        /\ ((bought < qty)%nat -> (Users.wallet_balance account' < price)%Q))
    /\ ((inject_Z (Z.of_nat qty) * price <= Users.wallet_balance account)%Q ->
        fst out = true).
Proof.
  intros qty u ty n p d r Hu Hk Hp out.
  assert (Hloop : exists (bought : nat) (r' : Users.row),
             (bought <= qty)%nat
             /\ fetch_user u (snd out) = Some r'
             /\ (Users.wallet_balance r'
                 == Users.wallet_balance r - inject_Z (Z.of_nat bought) * p)%Q
             /\ held u ty n (snd out) = (held u ty n d + Z.of_nat bought)%Z
             /\ (fst out = true <-> bought = qty)
             /\ ((bought < qty)%nat -> (Users.wallet_balance r' < p)%Q)).
  { subst out. revert d r Hu Hk. induction qty as [|k IH]; intros d r Hu Hk.
    - exists 0%nat, r. cbn. repeat split; auto; try lia. ring.
    - rewrite trade_shares_step.
      destruct (Qlt_le_dec (Users.wallet_balance r) p) as [Hlt | Hle].
      + rewrite (buy_refused u ty n p d r Hu Hlt). cbn [fst snd].
        exists 0%nat, r. repeat split; auto; try lia; try discriminate. cbn. ring.
      + destruct (buy_holding u ty n p d r Hu Hle) as (d1 & h1 & Ebuy & _).
        rewrite Ebuy. cbn [fst snd].
        destruct (LedgerFacts.run_spec u (mk_operation ty n "buy" p) d r _ d1 Hu Hk Ebuy)
          as [_ Hacc].
        destruct (Hacc eq_refl) as ((r1 & Hu1 & Hb1) & Hheld1 & Hk1 & _).
        destruct (IH d1 r1 Hu1 Hk1) as (b & r' & Hb & Hu' & Hbal & Hheld & Hall & Hstop).
        exists (S b), r'. split; [lia|]. split; [exact Hu'|]. split; [|split; [|split]].
        * rewrite Hbal, Hb1. unfold cash_delta. cbn [op_transaction_type op_price].
          change ("buy" =? "buy")%string with true. cbv iota.
          rewrite Nat2Z.inj_succ. unfold Z.succ. rewrite inject_Z_plus.
          change (inject_Z 1) with 1%Q. ring.
        * rewrite Hheld, Hheld1. unfold quantity_delta. cbn.
          rewrite !String.eqb_refl. cbn. lia.
        * rewrite Hall. lia.
        * intros Hlt. apply Hstop. lia. }
  split; [exact Hloop|].
  intros Hcover. destruct Hloop as (b & r' & Hb & _ & Hbal & _ & Hall & Hstop).
  apply Hall. destruct (Nat.eq_dec b qty) as [|Hne]; [assumption | exfalso].
  assert (Hlt : (b < qty)%nat) by lia. specialize (Hstop Hlt).
  rewrite Hbal in Hstop.
  assert (Hq : (inject_Z (Z.of_nat b) + 1 <= inject_Z (Z.of_nat qty))%Q).
  { change 1%Q with (inject_Z 1). rewrite <- inject_Z_plus. rewrite <- Zle_Qle. lia. }
  assert (Hmul : ((inject_Z (Z.of_nat b) + 1) * p <= inject_Z (Z.of_nat qty) * p)%Q)
    by (apply Qmult_le_compat_r; assumption).
  lra.
Qed.

(** Three shares at 10.00 asked with 25.00 in the wallet: two are bought. *)
Lemma buy_now_fills_what_the_wallet_covers_witness :
  let d := mkdb [Users.mk "u1" "Ann" (25 # 1) (Some true)] [] 1
                [] [] [] [] [] 1 [] 1 [] 1 in
  let out := Desk.trade_shares 3 "u1" "Player" "Josh Allen" "buy" (10 # 1) d in
  exists (bought : nat) (account' : Users.row),
    (bought <= 3)%nat
    /\ fetch_user "u1" (snd out) = Some account'
    /\ (Users.wallet_balance account' == (25 # 1) - inject_Z (Z.of_nat bought) * (10 # 1))%Q
    /\ held "u1" "Player" "Josh Allen" (snd out)
       = (held "u1" "Player" "Josh Allen" d + Z.of_nat bought)%Z
    /\ (fst out = true <-> bought = 3%nat)
    /\ ((bought < 3)%nat -> (Users.wallet_balance account' < 10 # 1)%Q).
Proof.
  intros d.
  assert (Hk : primary_keys d).
  { unfold primary_keys. vm_compute. repeat split.
    - constructor; [simpl; tauto | constructor].
    - constructor.
    - constructor. }
  assert (Hp : (0 <= 10 # 1)%Q) by discriminate.
  exact (proj1 (buy_now_fills_what_the_wallet_covers
                  3 "u1" "Player" "Josh Allen" (10 # 1) d
                  (Users.mk "u1" "Ann" (25 # 1) (Some true)) eq_refl Hk Hp)).
Defined.

End LedgerAudit.

(** ** Further properties of peer-to-peer trades *)

Module PeerTradeAudit.
Import Observe.

Lemma is_offer_for_set_status offer_id user_id s o :
  PeerTrade.is_offer_for offer_id user_id (TradeOffers.set_status s o)
  = PeerTrade.is_offer_for offer_id user_id o.
Proof. reflexivity. Qed.

(** The offer row that a user's query finds once the offer has been given
    a status. *)
Lemma answered_offer offer_id user_id s offers offer :
  Sql.fetchone (Sql.select (PeerTrade.is_offer_for offer_id user_id) offers) = Some offer ->
  Sql.fetchone
    (Sql.select (PeerTrade.is_offer_for offer_id user_id)
       (Sql.update (TradeOffers.has_id offer_id) (TradeOffers.set_status s) offers))
  = Some (TradeOffers.set_status s offer).
Proof.
  intros H. rewrite SqlFacts.fetchone_select_update
    by (intros; apply is_offer_for_set_status).
  rewrite H. cbn. apply SqlFacts.fetchone_select_some in H as [_ H].
  apply andb_true_iff in H as [-> _]. reflexivity.
Qed.

(** X7.  An offer is answered at most once: after a response that succeeded,
    whether it accepted or rejected the offer, every further response of
    the same user to that offer is refused as already accepted or already
    rejected, and changes nothing. *)
Theorem an_offer_is_answered_at_most_once :
  forall (offer_id : Z) (user_id action : string) (d : db)
         (msg : PeerTrade.message) (d' : db),
    PeerTrade.respond_to_trade_offer offer_id user_id action d = ((true, msg), d') ->
    forall action' : string,
    exists status,
      (status = "accepted" \/ status = "rejected")
      /\ PeerTrade.respond_to_trade_offer offer_id user_id action' d'
         = ((false, PeerTrade.AlreadyResponded status), d').
Proof.
  intros offer_id user_id action d msg d' H action'.
  unfold PeerTrade.respond_to_trade_offer in H.
  destruct (Sql.fetchone (Sql.select (PeerTrade.is_offer_for offer_id user_id)
                                     (trade_offers d))) as [offer|] eqn:Hoffer;
    [|discriminate].
  cbv zeta in H.
  destruct (negb (TradeOffers.status offer =? "pending")%string); [discriminate|].
  assert (Hafter : forall s,
             trade_offers d'
             = Sql.update (TradeOffers.has_id offer_id) (TradeOffers.set_status s)
                          (trade_offers d) ->
             s <> "pending" ->
             PeerTrade.respond_to_trade_offer offer_id user_id action' d'
             = ((false, PeerTrade.AlreadyResponded s), d')).
  { intros s E Hs. unfold PeerTrade.respond_to_trade_offer.
    rewrite E, (answered_offer _ _ s _ _ Hoffer). cbv zeta. cbn [TradeOffers.status TradeOffers.set_status].
    destruct (String.eqb_spec s "pending"); [contradiction | reflexivity]. }
  destruct (action =? "reject")%string.
  - injection H as _ <-. exists "rejected". split; [auto|].
    apply Hafter; [reflexivity | discriminate].
  - cbv [Connection.begin Connection.execute Connection.connect] in H. discriminate.
Qed.

(** An offer rejected, then answered again with an acceptance. *)
Lemma an_offer_is_answered_at_most_once_witness :
  let offer := TradeOffers.mk 7 "u1" (Some "u2") "pending" in
  let d := mkdb [Users.mk "u1" "Ann" (100 # 1) (Some true);
                 Users.mk "u2" "Bob" (100 # 1) (Some true)]
                [Holdings.mk 1 "u1" "Josh Allen" "Player" 3] 2
                [] [offer] [TradeOfferAssets.mk 7 (Some "u1") "Player" "Josh Allen" 2]
                [] [] 1 [] 1 [] 1 in
  let d' := snd (PeerTrade.respond_to_trade_offer 7 "u2" "reject" d) in
  exists status,
    (status = "accepted" \/ status = "rejected")
    /\ PeerTrade.respond_to_trade_offer 7 "u2" "accept" d'
       = ((false, PeerTrade.AlreadyResponded status), d').
Proof.
  intros offer d d'.
  exact (an_offer_is_answered_at_most_once 7 "u2" "reject" d (PeerTrade.Rejected "u1") d'
           eq_refl "accept").
Defined.

(** X8.  Only the recipient named in an offer can answer it: when no offer
    with the given id names the user as its recipient, the call answers
    that the offer was not found and changes nothing.  So the sender cannot
    answer an offer made to somebody else, and nobody can answer an open
    offer, whose recipient is [NULL]. *)
Theorem only_the_recipient_can_answer :
  forall (offer_id : Z) (user_id action : string) (d : db),
    (forall o, In o (trade_offers d) -> TradeOffers.id o = offer_id ->
               TradeOffers.recipient_id o <> Some user_id) ->
    PeerTrade.respond_to_trade_offer offer_id user_id action d
    = ((false, PeerTrade.OfferNotFound), d).
Proof.
  intros offer_id user_id action d H. unfold PeerTrade.respond_to_trade_offer.
  rewrite SqlFacts.select_none; [reflexivity|].
  intros o Ho. unfold PeerTrade.is_offer_for, TradeOffers.has_id.
  destruct (Z.eqb_spec (TradeOffers.id o) offer_id) as [E|]; [|reflexivity].
  specialize (H o Ho E). cbn.
  destruct (TradeOffers.recipient_id o) as [u|]; [|reflexivity].
  destruct (String.eqb_spec u user_id); [congruence | reflexivity].
Qed.

(** The sender of an offer to another user, and anybody on an open offer. *)
Lemma only_the_recipient_can_answer_witness :
  let d := mkdb [] [] 1 []
                [TradeOffers.mk 7 "u1" (Some "u2") "pending";
                 TradeOffers.mk 8 "u1" None "pending"] [] [] [] 1 [] 1 [] 1 in
  PeerTrade.respond_to_trade_offer 7 "u1" "accept" d = ((false, PeerTrade.OfferNotFound), d)
  /\ PeerTrade.respond_to_trade_offer 8 "u2" "accept" d
     = ((false, PeerTrade.OfferNotFound), d).
Proof.
  intros d. split.
  - apply (only_the_recipient_can_answer 7 "u1" "accept" d).
    intros o [<- | [<- | []]]; cbn; intros; discriminate.
  - apply (only_the_recipient_can_answer 8 "u2" "accept" d).
    intros o [<- | [<- | []]]; cbn; intros; discriminate.
Defined.

End PeerTradeAudit.

(** ** Creating an offer *)

Module OffersAudit.
Import Observe Audit.

Lemma filter_all {A : Type} (f : A -> bool) l :
  (forall x, In x l -> f x = true) -> filter f l = l.
Proof.
  induction l as [|x l IH]; simpl; intros H; [reflexivity|].
  rewrite (H x) by auto. f_equal. apply IH. auto.
Qed.

Lemma filter_none {A : Type} (f : A -> bool) l :
  (forall x, In x l -> f x = false) -> filter f l = [].
Proof.
  induction l as [|x l IH]; simpl; intros H; [reflexivity|].
  rewrite (H x) by auto. apply IH. auto.
Qed.

Lemma in_recorded offer_id u assets row :
  In row (recorded offer_id u assets) ->
  TradeOfferAssets.trade_offer_id row = offer_id /\ TradeOfferAssets.user_id row = u.
Proof.
  unfold recorded. intros H. apply in_map_iff in H as (a & <- & _). auto.
Qed.

(** The loop over the offered assets: it records them all when the sender
    can offer each of them, and stops otherwise. *)
Lemma add_sender_assets_spec offer_id s assets :
  forall d,
    (forallb (can_offer s d) assets = true ->
     Offers.add_sender_assets offer_id s assets d
     = inr (Offers.with_trade_offer_assets
              (fun t => t ++ recorded offer_id (Some s) assets) d))
    /\ (forallb (can_offer s d) assets = false ->
        exists name, Offers.add_sender_assets offer_id s assets d = inl name).
Proof.
  induction assets as [|a rest IH]; intros d.
  - split; [|discriminate]. intros _. cbn. unfold Offers.with_trade_offer_assets.
    rewrite app_nil_r. now destruct d.
  - cbn [forallb Offers.add_sender_assets]. unfold can_offer at 1 3.
    destruct (fetch_holding s (Offers.asset_type a) (Offers.asset_name a) d) as [h|];
      [|split; [discriminate | eauto]].
    rewrite (Z.leb_antisym (Holdings.quantity h) (Offers.quantity a)).
    destruct (Holdings.quantity h <? Offers.quantity a)%Z; cbn [negb andb];
      [split; [discriminate | eauto]|].
    destruct (IH (Offers.insert_asset offer_id (Some s) d a)) as [Hyes Hno].
    change (can_offer s (Offers.insert_asset offer_id (Some s) d a)) with (can_offer s d)
      in *.
    split; [|exact Hno].
    intros Hall. rewrite (Hyes Hall).
    unfold Offers.with_trade_offer_assets, Offers.insert_asset, Sql.insert. cbn.
    now rewrite <- app_assoc.
Qed.

Lemma insert_assets_spec offer_id u assets :
  forall d,
    fold_left (Offers.insert_asset offer_id u) assets d
    = Offers.with_trade_offer_assets (fun t => t ++ recorded offer_id u assets) d.
Proof.
  induction assets as [|a rest IH]; intros d.
  - cbn. unfold Offers.with_trade_offer_assets. rewrite app_nil_r. now destruct d.
  - cbn [fold_left]. rewrite IH.
    unfold Offers.with_trade_offer_assets, Offers.insert_asset, Sql.insert. cbn.
    now rewrite <- app_assoc.
Qed.

Lemma create_trade_offer_spec_aux s r sa ra offer_id d :
  (forallb (can_offer s d) sa = false ->
     exists name,
       Offers.create_trade_offer s r sa ra offer_id d
       = ((false, Offers.NotEnoughShares name, None), d))
  /\ (forallb (can_offer s d) sa = true ->
      exists recipient_name,
        fst (Offers.create_trade_offer s r sa ra offer_id d)
        = (true, Offers.OfferSent recipient_name, Some offer_id)
        /\ trade_offers (snd (Offers.create_trade_offer s r sa ra offer_id d))
           = trade_offers d ++ [TradeOffers.mk offer_id s r "pending"]
        /\ trade_offer_assets (snd (Offers.create_trade_offer s r sa ra offer_id d))
           = trade_offer_assets d ++ recorded offer_id (Some s) sa
                                  ++ recorded offer_id r ra
        /\ holdings (snd (Offers.create_trade_offer s r sa ra offer_id d)) = holdings d
        /\ users (snd (Offers.create_trade_offer s r sa ra offer_id d)) = users d).
Proof.
  unfold Offers.create_trade_offer.
  set (d1 := with_trade_offers
               (Sql.insert (TradeOffers.mk offer_id s r "pending")) d).
  destruct (add_sender_assets_spec offer_id s sa d1) as [Hyes Hno].
  change (can_offer s d1) with (can_offer s d) in *.
  split.
  - intros H. destruct (Hno H) as [name ->]. eauto.
  - intros H. rewrite (Hyes H). cbv zeta. rewrite insert_assets_spec.
    eexists. split; [reflexivity|]. cbn. rewrite <- app_assoc. auto.
Qed.

(** X11.  [create_trade_offer] checks the sender's side and nothing else.
    When the sender's holdings row of some offered asset is missing or
    short, the call is refused and the database is as before, offer
    included.  Otherwise the call succeeds whatever the recipient holds: it
    adds one pending offer and one asset row per offered and per requested
    asset, and reserves nothing, holdings and wallets being as before. *)
Theorem create_trade_offer_checks_the_sender_only :
  forall (sender_id : string) (recipient_id : option string)
         (sender_assets recipient_assets : list Offers.asset) (offer_id : Z) (d : db),
    let out := Offers.create_trade_offer sender_id recipient_id sender_assets
                 recipient_assets offer_id d in
    (forallb (can_offer sender_id d) sender_assets = false ->
       exists name, out = ((false, Offers.NotEnoughShares name, None), d))
    /\ (forallb (can_offer sender_id d) sender_assets = true ->
        exists recipient_name,
          fst out = (true, Offers.OfferSent recipient_name, Some offer_id)
          /\ trade_offers (snd out)
             = trade_offers d ++ [TradeOffers.mk offer_id sender_id recipient_id "pending"]
          /\ trade_offer_assets (snd out)
             = trade_offer_assets d ++ recorded offer_id (Some sender_id) sender_assets
                                    ++ recorded offer_id recipient_id recipient_assets
          /\ holdings (snd out) = holdings d
          /\ users (snd out) = users d).
Proof.
  intros s r sa ra offer_id d out. subst out.
  apply create_trade_offer_spec_aux.
Qed.

(** The state a successful [create_trade_offer] leaves, read the way
    [respond_to_trade_offer] reads it. *)
Lemma created_offer s r sa ra offer_id d msg d' :
  Offers.create_trade_offer s (Some r) sa ra offer_id d = ((true, msg, Some offer_id), d') ->
  (forall o, In o (trade_offers d) -> TradeOffers.id o <> offer_id) ->
  (forall a, In a (trade_offer_assets d) -> TradeOfferAssets.trade_offer_id a <> offer_id) ->
  r <> s ->
  Sql.fetchone (Sql.select (PeerTrade.is_offer_for offer_id r) (trade_offers d'))
  = Some (TradeOffers.mk offer_id s (Some r) "pending")
  /\ offered offer_id s d' = recorded offer_id (Some s) sa
  /\ requested offer_id s d' = recorded offer_id (Some r) ra
  /\ holdings d' = holdings d
  /\ forallb (can_offer s d) sa = true.
Proof.
  intros Hcreate Hfresh Hfresh' Hne.
  destruct (create_trade_offer_spec_aux s (Some r) sa ra offer_id d) as [Hno Hyes].
  destruct (forallb (can_offer s d) sa) eqn:Hall.
  2: { destruct (Hno eq_refl) as [name E]. rewrite E in Hcreate. discriminate. }
  destruct (Hyes eq_refl) as (rn & _ & Hoffers & Hassets & Hh & _).
  rewrite Hcreate in *. cbn [snd] in *.
  assert (Eall : offer_assets offer_id d'
                 = recorded offer_id (Some s) sa ++ recorded offer_id (Some r) ra).
  { unfold offer_assets, Sql.select. rewrite Hassets, !filter_app.
    rewrite filter_none, !filter_all; [reflexivity | | |].
    - intros x Hx. apply in_recorded in Hx as [-> _]. apply Z.eqb_refl.
    - intros x Hx. apply in_recorded in Hx as [-> _]. apply Z.eqb_refl.
    - intros x Hx. apply Z.eqb_neq. auto. }
  split; [|split; [|split; [|split]]]; auto.
  - rewrite Hoffers. fold (Sql.insert (TradeOffers.mk offer_id s (Some r) "pending")
                                       (trade_offers d)).
    rewrite SqlFacts.select_insert, SqlFacts.select_none.
    + unfold PeerTrade.is_offer_for, TradeOffers.has_id. cbn.
      now rewrite Z.eqb_refl, String.eqb_refl.
    + intros o Ho. unfold PeerTrade.is_offer_for, TradeOffers.has_id.
      destruct (Z.eqb_spec (TradeOffers.id o) offer_id); [|reflexivity].
      exfalso. eapply Hfresh; eauto.
  - unfold offered. rewrite Eall, filter_app, filter_all, filter_none.
    + apply app_nil_r.
    + intros x Hx. apply in_recorded in Hx as [_ ->]. cbn.
      now apply String.eqb_neq.
    + intros x Hx. apply in_recorded in Hx as [_ ->]. cbn. apply String.eqb_refl.
  - unfold requested. rewrite Eall, filter_app, filter_none, filter_all.
    + reflexivity.
    + intros x Hx. apply in_recorded in Hx as [_ ->]. cbn.
      apply negb_true_iff. now apply String.eqb_neq.
    + intros x Hx. apply in_recorded in Hx as [_ ->]. cbn.
      now rewrite String.eqb_refl.
Qed.

(** X12.  An offer that [create_trade_offer] has written is the offer that
    [respond_to_trade_offer] reads.  For an offer to another user under a
    fresh id: the recipient's query finds the offer, pending; the assets
    read back as offered are the sender's assets of the request and those
    read back as requested are the recipient's.  The recipient can reject
    the offer, which marks it rejected and changes nothing else; any other
    answer of the recipient ends in the error reply when the transaction
    is begun on the connection that has just read the offer, and leaves
    the database as it was. *)
Theorem a_created_offer_is_read_back :
  forall (sender_id recipient_id : string) (sender_assets recipient_assets : list Offers.asset)
         (offer_id : Z) (d : db) (msg : Offers.message) (d' : db),
    Offers.create_trade_offer sender_id (Some recipient_id) sender_assets recipient_assets
                              offer_id d
    = ((true, msg, Some offer_id), d') ->
    (forall o, In o (trade_offers d) -> TradeOffers.id o <> offer_id) ->
    (forall a, In a (trade_offer_assets d) ->
               TradeOfferAssets.trade_offer_id a <> offer_id) ->
    recipient_id <> sender_id ->
    Sql.fetchone (Sql.select (PeerTrade.is_offer_for offer_id recipient_id)
                             (trade_offers d'))
    = Some (TradeOffers.mk offer_id sender_id (Some recipient_id) "pending")
    /\ offered offer_id sender_id d' = recorded offer_id (Some sender_id) sender_assets
    /\ requested offer_id sender_id d'
       = recorded offer_id (Some recipient_id) recipient_assets
    /\ PeerTrade.respond_to_trade_offer offer_id recipient_id "reject" d'
       = ((true, PeerTrade.Rejected sender_id),
          with_trade_offers
            (Sql.update (TradeOffers.has_id offer_id) (TradeOffers.set_status "rejected"))
            d')
    /\ (forall action : string,
          action <> "reject" ->
          PeerTrade.respond_to_trade_offer offer_id recipient_id action d'
          = ((false, PeerTrade.ErrorResponding), d')).
Proof.
  intros s r sa ra offer_id d msg d' Hcreate Hfresh Hfresh' Hne.
  destruct (created_offer s r sa ra offer_id d msg d' Hcreate Hfresh Hfresh' Hne)
    as (Hoffer & Hoff & Hreq & _ & _).
  split; [exact Hoffer|]. split; [exact Hoff|]. split; [exact Hreq|].
  unfold PeerTrade.respond_to_trade_offer. rewrite Hoffer. cbv zeta.
  cbn [TradeOffers.status TradeOffers.sender_id].
  change (negb ("pending" =? "pending")%string) with false. cbv iota.
  split; [reflexivity|].
  intros action Ha. destruct (String.eqb_spec action "reject"); [contradiction|].
  reflexivity.
Qed.

(** Two shares of a player offered against one share of a fund that the
    recipient holds: the offer is read back as written, and the
    recipient's acceptance gets the error reply. *)
Lemma a_created_offer_is_read_back_witness :
  let d := mkdb [Users.mk "u1" "Ann" (100 # 1) (Some true);
                 Users.mk "u2" "Bob" (100 # 1) (Some true)]
                [Holdings.mk 1 "u1" "Josh Allen" "Player" 3;
                 Holdings.mk 2 "u2" "AFC East" "Team Fund" 2] 3
                [] [] [] [] [] 1 [] 1 [] 1 in
  let give := [Offers.mk_asset "Player" "Josh Allen" 2] in
  let take := [Offers.mk_asset "Team Fund" "AFC East" 1] in
  let d' := snd (Offers.create_trade_offer "u1" (Some "u2") give take 7 d) in
  offered 7 "u1" d' = recorded 7 (Some "u1") give
  /\ requested 7 "u1" d' = recorded 7 (Some "u2") take
  /\ fst (PeerTrade.respond_to_trade_offer 7 "u2" "reject" d')
     = (true, PeerTrade.Rejected "u1")
  /\ PeerTrade.respond_to_trade_offer 7 "u2" "accept" d'
     = ((false, PeerTrade.ErrorResponding), d').
Proof.
  intros d give take d'.
  assert (Hne : "u2" <> "u1") by discriminate.
  destruct (a_created_offer_is_read_back "u1" "u2" give take 7 d (Offers.OfferSent "Bob") d'
              eq_refl (fun o (H : In o []) => match H with end)
              (fun a (H : In a []) => match H with end) Hne)
    as (_ & Hoff & Hreq & Hreject & Haccept).
  split; [exact Hoff|]. split; [exact Hreq|].
  split; [rewrite Hreject; reflexivity|].
  apply Haccept. discriminate.
Defined.

End OffersAudit.

(** ** Further properties of wagering *)

Module WageringAudit.
Import Observe Audit.

(** The two ways a call of [place_bet] ends. *)
Lemma place_bet_spec u g ty pick amount now d :
  (fst (fst (fst (Wagering.place_bet u g ty pick amount now d))) = false
   /\ snd (Wagering.place_bet u g ty pick amount now d) = d)
  \/ exists r game,
       Wagering.truthy (Wagering.is_user_verified_adult u d) = true
       /\ fetch_user u d = Some r
       /\ Sql.fetchone (Sql.select (Wagering.open_for_betting g now) (upcoming_games d))
          = Some game
       /\ (amount <= Users.wallet_balance r)%Q
       /\ Wagering.place_bet u g ty pick amount now d
          = ((true,
              Wagering.BetPlaced (Wagering.round2 (Binary64.mul (Binary64.of_Q amount)
                   (Binary64.of_Q (Wagering.odds_of ty pick game)))),
              Some (user_bets_seq d)),
             snd (Wagering.insert_bet u g ty pick amount
                    (Wagering.round2 (Binary64.mul (Binary64.of_Q amount)
                   (Binary64.of_Q (Wagering.odds_of ty pick game))))
                    (Wagering.odds_of ty pick game) (debit_wallet u amount d))).
Proof.
  unfold Wagering.place_bet.
  destruct (Wagering.truthy (Wagering.is_user_verified_adult u d)); cbn [negb]; [|auto].
  destruct (Sql.fetchone (Sql.select (Wagering.open_for_betting g now) (upcoming_games d)))
    as [game|]; [|auto].
  destruct (fetch_user u d) as [r|]; [|auto]. cbv zeta.
  destruct (Sql.Qlt_bool (Users.wallet_balance r) amount) eqn:E; [auto|].
  right. exists r, game. apply SqlFacts.Qlt_bool_false in E. auto 6.
Qed.

(** The loop over the selections stops at a selection whose game is not
    open. *)
Lemma price_selections_closed now d bets :
  forall total valid,
    (exists s, In s bets /\ closed_for_betting (Wagering.sel_game_id s) now d) ->
    exists game_id, Wagering.price_selections now d bets total valid = inl game_id.
Proof.
  induction bets as [|b rest IH]; intros total valid (s & Hs & Hclosed); [destruct Hs|].
  cbn [Wagering.price_selections].
  destruct (Sql.fetchone (Sql.select (Wagering.open_for_betting (Wagering.sel_game_id b) now)
                                     (upcoming_games d))) as [game|] eqn:E; [|eauto].
  destruct Hs as [-> | Hs].
  - apply SqlFacts.fetchone_select_some in E as [Hin E].
    rewrite (Hclosed game Hin) in E. discriminate.
  - apply IH. eauto.
Qed.

(** The two ways a call of [create_parlay_bet] ends. *)
Lemma create_parlay_bet_spec u bets amount now d :
  (fst (fst (fst (Wagering.create_parlay_bet u bets amount now d))) = false
   /\ snd (Wagering.create_parlay_bet u bets amount now d) = d)
  \/ exists r total_odds valid_bets,
       fetch_user u d = Some r
       /\ (amount <= Users.wallet_balance r)%Q
       /\ Wagering.price_selections now d bets (Binary64.of_Q 1) [] = inr (total_odds, valid_bets)
       /\ Wagering.create_parlay_bet u bets amount now d
          = ((true, Wagering.ParlayCreated (Wagering.round2 (Binary64.mul (Binary64.of_Q amount) total_odds)),
              Some (parlays_seq d)),
             fold_left (Wagering.insert_parlay_bet (parlays_seq d)) valid_bets
               (snd (Wagering.insert_parlay u amount (Wagering.round2 (Binary64.mul (Binary64.of_Q amount) total_odds))
                       (debit_wallet u amount d)))).
Proof.
  unfold Wagering.create_parlay_bet.
  destruct (Wagering.truthy (Wagering.is_user_verified_adult u d)); cbn [negb]; [|auto].
  destruct (List.length bets <? 2)%nat; [auto|].
  destruct (fetch_user u d) as [r|]; [|auto]. cbv zeta.
  destruct (Sql.Qlt_bool (Users.wallet_balance r) amount) eqn:E; [auto|].
  destruct (Wagering.price_selections now d bets (Binary64.of_Q 1) []) as [game_id | [total valid]] eqn:P;
    [auto|].
  right. exists r, total, valid. apply SqlFacts.Qlt_bool_false in E. auto 6.
Qed.

(** X13.  A refused bet changes nothing: when [place_bet] or
    [create_parlay_bet] reports failure, for whatever reason, the database
    is as before; a parlay refused at one of its selections leaves no
    trace of the selections before it. *)
Theorem a_refused_bet_changes_nothing :
  forall (user_id : string) (now : Z) (d : db),
    (forall game_id bet_type bet_pick amount,
        fst (fst (fst (Wagering.place_bet user_id game_id bet_type bet_pick amount now d)))
        = false ->
        snd (Wagering.place_bet user_id game_id bet_type bet_pick amount now d) = d)
    /\ (forall bets amount,
           fst (fst (fst (Wagering.create_parlay_bet user_id bets amount now d))) = false ->
           snd (Wagering.create_parlay_bet user_id bets amount now d) = d).
Proof.
  intros u now d. split.
  - intros g ty pick amount H.
    destruct (place_bet_spec u g ty pick amount now d) as [[_ E] | (r & game & _ & _ & _ & _ & E)];
      [exact E|].
    rewrite E in H. discriminate.
  - intros bets amount H.
    destruct (create_parlay_bet_spec u bets amount now d)
      as [[_ E] | (r & total & valid & _ & _ & _ & E)]; [exact E|].
    rewrite E in H. discriminate.
Qed.

(** The state a placed bet leaves. *)
Lemma placed_bet u g ty pick amount now d msg bet_id d' :
  Wagering.place_bet u g ty pick amount now d = ((true, msg, bet_id), d') ->
  exists r game payout,
    fetch_user u d = Some r
    /\ In game (upcoming_games d) /\ Games.id game = g
    /\ msg = Wagering.BetPlaced payout
    /\ fetch_user u d' = Some (Users.sub_wallet_balance amount r)
    /\ user_bets d'
       = user_bets d ++ [Bets.mk (user_bets_seq d) u g ty pick amount payout
                                 (Wagering.odds_of ty pick game) "pending"]
    /\ user_bets_seq d' = (user_bets_seq d + 1)%Z
    /\ upcoming_games d' = upcoming_games d
    /\ parlays d' = parlays d /\ parlay_bets d' = parlay_bets d.
Proof.
  intros H.
  destruct (place_bet_spec u g ty pick amount now d)
    as [[Hno _] | (r & game & _ & Hu & Hgame & _ & E)].
  { rewrite H in Hno. discriminate. }
  rewrite E in H. injection H as <- _ <-.
  apply SqlFacts.fetchone_select_some in Hgame as [Hin Hopen].
  unfold Wagering.open_for_betting, Games.has_id in Hopen.
  apply andb_true_iff in Hopen as [Hopen _]. apply andb_true_iff in Hopen as [Hid _].
  apply Z.eqb_eq in Hid.
  exists r, game, (Wagering.round2 (Binary64.mul (Binary64.of_Q amount)
                   (Binary64.of_Q (Wagering.odds_of ty pick game)))).
  repeat (split; [first [assumption | reflexivity]|]).
  split; [|cbn; auto 6].
  apply (LedgerAudit.balance_updated u (Users.sub_wallet_balance amount) d r
           (fun _ => eq_refl) Hu). reflexivity.
Qed.

(** *** Keys and sequences of the betting tables *)

Lemma fresh_key (ids : list Z) (seq : Z) :
  NoDup ids -> Forall (fun i => (i < seq)%Z) ids ->
  NoDup (ids ++ [seq]) /\ Forall (fun i => (i < seq + 1)%Z) (ids ++ [seq]).
Proof.
  intros Hnd Hlt. split.
  - apply NoDup_app; auto.
    + constructor; [simpl; tauto | constructor].
    + intros i Hi [<- | []]. rewrite Forall_forall in Hlt. specialize (Hlt _ Hi). lia.
  - apply Forall_app. split.
    + eapply Forall_impl; [|exact Hlt]. cbn. intros; lia.
    + constructor; [lia | constructor].
Qed.

Lemma insert_parlay_bets_keys parlay_id valid :
  forall d,
    NoDup (map ParlayBets.id (parlay_bets d)) ->
    Forall (fun i => (i < parlay_bets_seq d)%Z) (map ParlayBets.id (parlay_bets d)) ->
    let d' := fold_left (Wagering.insert_parlay_bet parlay_id) valid d in
    NoDup (map ParlayBets.id (parlay_bets d'))
    /\ Forall (fun i => (i < parlay_bets_seq d')%Z) (map ParlayBets.id (parlay_bets d'))
    /\ parlays d' = parlays d /\ parlays_seq d' = parlays_seq d
    /\ user_bets d' = user_bets d /\ user_bets_seq d' = user_bets_seq d.
Proof.
  induction valid as [|b rest IH]; intros d Hnd Hlt; [cbn; auto 6|].
  cbn [fold_left].
  destruct (fresh_key _ _ Hnd Hlt) as [Hnd1 Hlt1].
  destruct (IH (Wagering.insert_parlay_bet parlay_id d b)) as (H1 & H2 & H3 & H4 & H5 & H6).
  - cbn. unfold Sql.insert. rewrite map_app. exact Hnd1.
  - cbn. unfold Sql.insert. rewrite map_app. exact Hlt1.
  - cbv zeta. rewrite H3, H4, H5, H6. auto 6.
Qed.

(** *** What settlement leaves alone *)

Lemma settle_bets_frame o bs :
  forall d,
    ledger_side (fold_left (Settlement.settle_bet o) bs d) = ledger_side d
    /\ betting_counters (fold_left (Settlement.settle_bet o) bs d) = betting_counters d.
Proof.
  induction bs as [|b rest IH]; intros d; [auto|].
  cbn [fold_left]. destruct (IH (Settlement.settle_bet o d b)) as [-> ->].
  unfold Settlement.settle_bet.
  destruct (Settlement.bet_won o (Bets.bet_type b) (Bets.bet_pick b)); auto.
Qed.

Lemma settle_legs_frame o js :
  forall st : db * Settlement.results,
    ledger_side (fst (fold_left (Settlement.settle_leg o) js st)) = ledger_side (fst st)
    /\ betting_counters (fst (fold_left (Settlement.settle_leg o) js st))
       = betting_counters (fst st).
Proof.
  induction js as [|j rest IH]; intros st; [auto|].
  cbn [fold_left]. destruct (IH (Settlement.settle_leg o st j)) as [-> ->].
  destruct st as [d rs]. unfold Settlement.settle_leg.
  destruct (negb (Settlement.bet_won o (ParlayBets.bet_type (fst j))
                                     (ParlayBets.bet_pick (fst j))));
    destruct (negb (Settlement.has_key (Parlays.id (snd j)) rs)); auto.
Qed.

Lemma close_parlays_frame rs :
  forall d,
    ledger_side (fold_left Settlement.close_parlay rs d) = ledger_side d
    /\ betting_counters (fold_left Settlement.close_parlay rs d) = betting_counters d.
Proof.
  induction rs as [|e rest IH]; intros d; [auto|].
  cbn [fold_left]. destruct (IH (Settlement.close_parlay d e)) as [-> ->].
  destruct e as [k result]. unfold Settlement.close_parlay.
  destruct (Sql.count _ (parlay_bets d) =? 0)%Z; [|auto].
  destruct (Sql.count _ (parlay_bets d) =? 0)%Z; auto.
Qed.

Lemma simulate_frame g hs as_ d :
  let d' := snd (Settlement.simulate_game_result g hs as_ d) in
  ledger_side d' = ledger_side d
  /\ betting_counters d' = betting_counters d
  /\ (fst (fst (Settlement.simulate_game_result g hs as_ d)) = false -> d' = d)
  /\ (fst (fst (Settlement.simulate_game_result g hs as_ d)) = true ->
      upcoming_games d'
      = Sql.update (Games.has_id g) (Games.complete hs as_) (upcoming_games d)).
Proof.
  unfold Settlement.simulate_game_result.
  destruct (Sql.fetchone (Sql.select (Games.has_id g) (upcoming_games d))) as [game|].
  2: { cbn. repeat split; auto. discriminate. }
  cbv zeta.
  set (o := Settlement.determine_outcome game hs as_).
  set (d1 := with_upcoming_games _ d).
  set (bets := Sql.select _ (user_bets d1)).
  set (d2 := fold_left (Settlement.settle_bet o) bets d1).
  destruct (fold_left (Settlement.settle_leg o) (Settlement.pending_legs g d2) (d2, []))
    as [d3 rs] eqn:E.
  cbn [fst snd].
  destruct (close_parlays_frame rs d3) as [L4 C4].
  destruct (SettlementFacts.close_parlays_tables rs d3) as (_ & _ & G4 & _).
  destruct (settle_legs_frame o (Settlement.pending_legs g d2) (d2, [])) as [L3 C3].
  destruct (SettlementFacts.settle_legs_run o (Settlement.pending_legs g d2) d2 [] d3 rs E)
    as ((_ & _ & _ & _ & G3) & _).
  rewrite E in L3, C3. cbn [fst] in L3, C3.
  destruct (settle_bets_frame o bets d1) as [L2 C2].
  destruct (SettlementFacts.settle_bets_tables o bets d1) as (_ & _ & _ & _ & G2).
  fold d2 in L2, C2, G2.
  split; [|split; [|split]].
  - now rewrite L4, L3, L2.
  - now rewrite C4, C3, C2.
  - discriminate.
  - intros _. now rewrite G4, G3, G2.
Qed.

(** X14.  The keys of the betting tables are invariants of betting and of
    settlement: starting from bets, parlays and parlay legs whose ids are
    pairwise distinct and below the next values of their sequences, the
    same holds after any call of [place_bet], of [create_parlay_bet] and of
    [simulate_game_result], accepted or refused. *)
Theorem betting_keys_are_kept :
  forall d : db,
    betting_keys d -> betting_sequences d ->
    (forall user_id game_id bet_type bet_pick amount now,
        let d' := snd (Wagering.place_bet user_id game_id bet_type bet_pick amount now d) in
        betting_keys d' /\ betting_sequences d')
    /\ (forall user_id bets amount now,
           let d' := snd (Wagering.create_parlay_bet user_id bets amount now d) in
           betting_keys d' /\ betting_sequences d')
    /\ (forall game_id home_score away_score,
           let d' := snd (Settlement.simulate_game_result game_id home_score away_score d) in
           betting_keys d' /\ betting_sequences d').
Proof.
  intros d Hk Hs. pose proof Hk as (Kb & Kl & Kp). pose proof Hs as (Sb & Sl & Sp).
  split; [|split].
  - intros u g ty pick amount now d'. subst d'.
    destruct (place_bet_spec u g ty pick amount now d)
      as [[_ ->] | (r & game & _ & _ & _ & _ & ->)]; [auto|].
    destruct (fresh_key _ _ Kb Sb) as [Hnd Hlt].
    unfold betting_keys, betting_sequences. cbn. unfold Sql.insert. rewrite map_app.
    auto 7.
  - intros u bets amount now d'. subst d'.
    destruct (create_parlay_bet_spec u bets amount now d)
      as [[_ ->] | (r & total & valid & _ & _ & _ & ->)]; [auto|]. cbn [snd].
    destruct (fresh_key _ _ Kp Sp) as [Hnd Hlt].
    set (d1 := snd (Wagering.insert_parlay u amount (Wagering.round2 (Binary64.mul (Binary64.of_Q amount) total))
                      (debit_wallet u amount d))).
    destruct (insert_parlay_bets_keys (parlays_seq d) valid d1 Kl Sl)
      as (H1 & H2 & H3 & H4 & H5 & H6).
    unfold betting_keys, betting_sequences. rewrite H3, H4, H5, H6.
    cbn. unfold Sql.insert. rewrite map_app. auto 7.
  - intros g hs as_ d'. subst d'.
    destruct (simulate_frame g hs as_ d) as (_ & Hc & Hno & _).
    destruct (Sql.fetchone (Sql.select (Games.has_id g) (upcoming_games d)))
      as [game|] eqn:Hgame.
    + destruct (SettlementFacts.simulate_tables g hs as_ d game Hgame Hk)
        as (_ & _ & Hb & Hl & Hp & _).
      destruct (SettlementFacts.nothing_in_play_after g hs as_ d game Hgame Hk) as (Hk' & _).
      split; [exact Hk'|].
      unfold betting_counters in Hc. injection Hc as C1 C2 C3.
      unfold betting_sequences. rewrite C1, C2, C3, Hb, Hl, Hp, !map_map.
      rewrite (map_ext _ Bets.id (SettlementFacts.settled_bet_id _ _)).
      rewrite (map_ext _ ParlayBets.id (SettlementFacts.settled_leg_id _ _ _)).
      rewrite (map_ext _ Parlays.id (SettlementFacts.closed_parlay_id _ _ _)).
      auto.
    + unfold Settlement.simulate_game_result. rewrite Hgame. cbn. auto.
Qed.

(** The keys kept by a first bet. *)
Lemma betting_keys_are_kept_witness :
  let d := mkdb [Users.mk "u1" "Ann" (100 # 1) (Some true)] [] 1 [] [] []
                [Games.mk 1 "Dallas Cowboys" "Buffalo Bills" 100 (18 # 10) (21 # 10)
                          (- (7 # 2)) (89 # 2) "scheduled" 0 0]
                [] 1 [] 1 [] 1 in
  let d' := snd (Wagering.place_bet "u1" 1 "moneyline" "home" (10 # 1) 50 d) in
  betting_keys d' /\ betting_sequences d'.
Proof.
  intros d.
  assert (Hk : betting_keys d) by (repeat split; constructor).
  assert (Hs : betting_sequences d) by (repeat split; constructor).
  exact (proj1 (betting_keys_are_kept d Hk Hs) "u1" 1%Z "moneyline" "home" (10 # 1) 50%Z).
Defined.

(** *** Betting after the game *)

Lemma settled_game_is_closed g hs as_ now d :
  fst (fst (Settlement.simulate_game_result g hs as_ d)) = true ->
  closed_for_betting g now (snd (Settlement.simulate_game_result g hs as_ d)).
Proof.
  intros Hok. destruct (simulate_frame g hs as_ d) as (_ & _ & _ & Hgames).
  intros game Hin. rewrite (Hgames Hok) in Hin. unfold Sql.update in Hin.
  apply in_map_iff in Hin as (x & <- & _). unfold Wagering.open_for_betting.
  destruct (Games.has_id g x) eqn:E.
  - unfold Games.has_id in *. cbn. rewrite E. reflexivity.
  - now rewrite E.
Qed.

(** X15.  Betting on a game closes with its settlement: once
    [simulate_game_result] has settled a game, every later [place_bet] on
    that game, and every later [create_parlay_bet] with a selection on it,
    is refused, by whomever and whenever it is made, and changes nothing. *)
Theorem no_bet_on_a_settled_game :
  forall (game_id home_score away_score : Z) (d : db),
    fst (fst (Settlement.simulate_game_result game_id home_score away_score d)) = true ->
    let d1 := snd (Settlement.simulate_game_result game_id home_score away_score d) in
    forall (user_id : string) (now : Z),
      (forall bet_type bet_pick amount,
          fst (fst (fst (Wagering.place_bet user_id game_id bet_type bet_pick amount now d1)))
          = false
          /\ snd (Wagering.place_bet user_id game_id bet_type bet_pick amount now d1) = d1)
      /\ (forall bets amount,
             (exists s, In s bets /\ Wagering.sel_game_id s = game_id) ->
             fst (fst (fst (Wagering.create_parlay_bet user_id bets amount now d1))) = false
             /\ snd (Wagering.create_parlay_bet user_id bets amount now d1) = d1).
Proof.
  intros g hs as_ d Hok d1 u now.
  pose proof (settled_game_is_closed g hs as_ now d Hok) as Hclosed. fold d1 in Hclosed.
  split.
  - intros ty pick amount.
    destruct (place_bet_spec u g ty pick amount now d1)
      as [H | (r & game & _ & _ & Hgame & _)]; [exact H|].
    apply SqlFacts.fetchone_select_some in Hgame as [Hin Hopen].
    rewrite (Hclosed game Hin) in Hopen. discriminate.
  - intros bets amount (s & Hs & Hg).
    destruct (create_parlay_bet_spec u bets amount now d1)
      as [H | (r & total & valid & _ & _ & Hprice & _)]; [exact H|].
    destruct (price_selections_closed now d1 bets (Binary64.of_Q 1) [])
      as [k Hk]; [exists s; split; [exact Hs | now rewrite Hg]|].
    rewrite Hk in Hprice. discriminate.
Qed.

(** A bet on a game that has just been settled, placed before its
    scheduled date. *)
Lemma no_bet_on_a_settled_game_witness :
  let d := mkdb [Users.mk "u1" "Ann" (100 # 1) (Some true)] [] 1 [] [] []
                [Games.mk 1 "Dallas Cowboys" "Buffalo Bills" 100 (18 # 10) (21 # 10)
                          (- (7 # 2)) (89 # 2) "scheduled" 0 0]
                [] 1 [] 1 [] 1 in
  let d1 := snd (Settlement.simulate_game_result 1 24 20 d) in
  fst (fst (fst (Wagering.place_bet "u1" 1 "moneyline" "home" (10 # 1) 50 d1))) = false
  /\ snd (Wagering.place_bet "u1" 1 "moneyline" "home" (10 # 1) 50 d1) = d1.
Proof.
  intros d d1.
  exact (proj1 (no_bet_on_a_settled_game 1 24 20 d eq_refl "u1" 50%Z)
               "moneyline" "home" (10 # 1)).
Defined.

(** *** Bet types and rounding *)

(** A stake times the odds 0 is a zero, of either sign. *)
Lemma round2_of_nothing amount :
  Wagering.round2 (Binary64.mul (Binary64.of_Q amount) (Binary64.of_Q 0)) = 0 # 100.
Proof.
  change (Binary64.of_Q 0) with (S754_zero false).
  destruct (Binary64.of_Q amount) as [s | s | | s m e]; try reflexivity;
    destruct s; reflexivity.
Qed.

(** X16.  [place_bet] does not check the bet type.  A bet whose type is
    none of 'moneyline', 'spread' and 'over_under' is priced at odds 0: when
    it is accepted it is recorded as a pending bet of the stake, with a
    potential payout of 0.00, and whatever the outcome of the game the
    settlement counts it as lost. *)
Theorem a_bet_of_unknown_type_pays_nothing :
  forall bet_type : string,
    bet_type <> "moneyline" -> bet_type <> "spread" -> bet_type <> "over_under" ->
    (forall o bet_pick, Settlement.bet_won o bet_type bet_pick = false)
    /\ (forall user_id game_id bet_pick amount now d msg bet_id d',
           Wagering.place_bet user_id game_id bet_type bet_pick amount now d
           = ((true, msg, bet_id), d') ->
           msg = Wagering.BetPlaced (0 # 100)
           /\ user_bets d'
              = user_bets d ++ [Bets.mk (user_bets_seq d) user_id game_id bet_type bet_pick
                                        amount (0 # 100) 0 "pending"]).
Proof.
  intros ty H1 H2 H3.
  apply String.eqb_neq in H1, H2, H3. split.
  - intros o pick. unfold Settlement.bet_won. now rewrite H1, H2, H3.
  - intros u g pick amount now d msg bet_id d' H.
    destruct (place_bet_spec u g ty pick amount now d)
      as [[Hno _] | (r & game & _ & _ & _ & _ & E)].
    + rewrite H in Hno. discriminate.
    + rewrite E in H.
      assert (Hodds : Wagering.odds_of ty pick game = 0)
        by (unfold Wagering.odds_of; now rewrite H1, H2, H3).
      rewrite Hodds, round2_of_nothing in H. injection H as <- _ <-. auto.
Qed.

(** A bet of type 'total', accepted and recorded with a payout of 0.00. *)
Lemma a_bet_of_unknown_type_pays_nothing_witness :
  let d := mkdb [Users.mk "u1" "Ann" (100 # 1) (Some true)] [] 1 [] [] []
                [Games.mk 1 "Dallas Cowboys" "Buffalo Bills" 100 (18 # 10) (21 # 10)
                          (- (7 # 2)) (89 # 2) "scheduled" 0 0]
                [] 1 [] 1 [] 1 in
  let d' := snd (Wagering.place_bet "u1" 1 "total" "over" (10 # 1) 50 d) in
  user_bets d' = [Bets.mk 1 "u1" 1 "total" "over" (10 # 1) (0 # 100) 0 "pending"]
  /\ forall o, Settlement.bet_won o "total" "over" = false.
Proof.
  intros d d'.
  assert (H1 : "total" <> "moneyline") by discriminate.
  assert (H2 : "total" <> "spread") by discriminate.
  assert (H3 : "total" <> "over_under") by discriminate.
  destruct (a_bet_of_unknown_type_pays_nothing "total" H1 H2 H3) as [Hlost Hplaced].
  split.
  - apply (Hplaced "u1" 1%Z "over" (10 # 1) 50%Z d (Wagering.BetPlaced (0 # 100))
             (Some 1%Z) d' eq_refl).
  - intros o. apply Hlost.
Defined.

End WageringAudit.

(** ** Further properties of settlement *)

Module SettlementAudit.
Import Observe Audit.

(** X18.  A decided row is final.  A settlement changes no single bet that
    is already won, lost or cancelled, and none on another game; no parlay
    leg that is decided or on another game; and no parlay that is already
    won or lost: each such row is in its table afterwards as it was. *)
Theorem decided_rows_are_final :
  forall (game_id home_score away_score : Z) (d : db),
    betting_keys d ->
    let d' := snd (Settlement.simulate_game_result game_id home_score away_score d) in
    (forall b, In b (user_bets d) ->
               Bets.status b <> "pending" \/ Bets.game_id b <> game_id ->
               In b (user_bets d'))
    /\ (forall l, In l (parlay_bets d) ->
                  ParlayBets.status l <> "pending" \/ ParlayBets.game_id l <> game_id ->
                  In l (parlay_bets d'))
    /\ (forall p, In p (parlays d) -> Parlays.status p <> "pending" -> In p (parlays d')).
Proof.
  intros g hs as_ d Hk d'. subst d'.
  destruct (Sql.fetchone (Sql.select (Games.has_id g) (upcoming_games d)))
    as [game|] eqn:Hgame.
  2: { unfold Settlement.simulate_game_result. rewrite Hgame. cbn. auto. }
  destruct (SettlementFacts.simulate_tables g hs as_ d game Hgame Hk)
    as (_ & _ & -> & -> & -> & _).
  split; [|split].
  - intros b Hb Hfinal. apply in_map_iff. exists b. split; [|exact Hb].
    unfold settled_bet, bet_in_play.
    destruct Hfinal as [H | H].
    + apply String.eqb_neq in H. rewrite H. now rewrite andb_false_r.
    + apply Z.eqb_neq in H. now rewrite H.
  - intros l Hl Hfinal. apply in_map_iff. exists l. split; [|exact Hl].
    unfold settled_leg, leg_in_play.
    destruct Hfinal as [H | H].
    + apply String.eqb_neq in H. rewrite H. now rewrite andb_false_r.
    + apply Z.eqb_neq in H. now rewrite H.
  - intros p Hp Hfinal. apply in_map_iff. exists p. split; [|exact Hp].
    unfold closed_parlay, parlay_in_play.
    apply String.eqb_neq in Hfinal. now rewrite Hfinal.
Qed.

(** A bet won earlier and a pending bet on another game, across the
    settlement of game 1. *)
Lemma decided_rows_are_final_witness :
  let old := Bets.mk 1 "u1" 1 "moneyline" "away" (10 # 1) (21 # 1) (21 # 10) "won" in
  let other := Bets.mk 2 "u1" 2 "moneyline" "home" (10 # 1) (18 # 1) (18 # 10) "pending" in
  let d := mkdb [Users.mk "u1" "Ann" (100 # 1) (Some true)] [] 1 [] [] []
                [Games.mk 1 "Dallas Cowboys" "Buffalo Bills" 100 (18 # 10) (21 # 10)
                          (- (7 # 2)) (89 # 2) "scheduled" 0 0]
                [old; other] 3 [] 1 [] 1 in
  let d' := snd (Settlement.simulate_game_result 1 24 20 d) in
  In old (user_bets d') /\ In other (user_bets d').
Proof.
  intros old other d d'.
  assert (Hk : betting_keys d).
  { repeat split; try constructor.
    - simpl. intros [H | []]. discriminate.
    - constructor; [simpl; tauto | constructor]. }
  destruct (decided_rows_are_final 1 24 20 d Hk) as (Hbets & _).
  split.
  - apply Hbets; [left; reflexivity | left; discriminate].
  - apply Hbets; [right; left; reflexivity | right; discriminate].
Defined.

Lemma Qsum_nonneg xs : Forall (fun x => (0 <= x)%Q) xs -> (0 <= Sql.Qsum xs)%Q.
Proof.
  unfold Sql.Qsum. induction 1 as [|x xs Hx _ IH]; simpl; [discriminate | lra].
Qed.

Lemma Qsum_payouts_nonneg {A : Type} (payout : A -> Q) (c : A -> bool) l :
  Forall (fun x => (0 <= payout x)%Q) l -> (0 <= Sql.Qsum (map payout (filter c l)))%Q.
Proof.
  intros H. apply Qsum_nonneg. rewrite Forall_map. rewrite Forall_forall in *.
  intros x Hx. apply filter_In in Hx as [Hx _]. auto.
Qed.

(** X19.  Settlement only pays.  It leaves the holdings, the transaction
    log and the trade offers as they were, and, the potential payouts
    recorded with bets and parlays being non-negative, it debits nobody:
    every user is still there afterwards, with a wallet balance that is at
    least the balance before. *)
Theorem settlement_only_pays :
  forall (game_id home_score away_score : Z) (d : db),
    let d' := snd (Settlement.simulate_game_result game_id home_score away_score d) in
    ledger_side d' = ledger_side d
    /\ (betting_keys d ->
        Forall (fun b => (0 <= Bets.potential_payout b)%Q) (user_bets d) ->
        Forall (fun p => (0 <= Parlays.potential_payout p)%Q) (parlays d) ->
        forall user_id account,
          fetch_user user_id d = Some account ->
          exists account',
            fetch_user user_id d' = Some account'
            /\ (Users.wallet_balance account <= Users.wallet_balance account')%Q).
Proof.
  intros g hs as_ d d'. subst d'.
  destruct (WageringAudit.simulate_frame g hs as_ d) as (Hl & _ & Hno & _).
  split; [exact Hl|].
  intros Hk Hbets Hparlays u r Hu.
  destruct (Sql.fetchone (Sql.select (Games.has_id g) (upcoming_games d)))
    as [game|] eqn:Hgame.
  - destruct (SettlementFacts.simulate_wallets g hs as_ d game u r Hgame Hk Hu)
      as (r' & Hu' & Hbal).
    exists r'. split; [exact Hu'|]. rewrite Hbal.
    unfold bet_winnings, parlay_winnings.
    pose proof (Qsum_payouts_nonneg Bets.potential_payout
                  (fun b => bet_in_play g b
                            && Settlement.bet_won (Settlement.determine_outcome game hs as_)
                                 (Bets.bet_type b) (Bets.bet_pick b)
                            && (Bets.user_id b =? u)%string) _ Hbets).
    pose proof (Qsum_payouts_nonneg Parlays.potential_payout
                  (fun p => parlay_wins g (parlay_bets d)
                              (map (settled_leg (Settlement.determine_outcome game hs as_) g
                                                (parlays d)) (parlay_bets d)) p
                            && (Parlays.user_id p =? u)%string) _ Hparlays).
    lra.
  - exists r. unfold Settlement.simulate_game_result. rewrite Hgame. cbn [snd].
    split; [exact Hu | lra].
Qed.

(** X20.  What a bet does to the wallet.  Placing a bet and then settling
    its game leaves the bettor's wallet where settling the game without the
    bet would have left it, less the stake, plus the potential payout
    announced when the bet was placed if the pick wins, and plus nothing if
    it loses. *)
Theorem a_bet_costs_its_stake_and_returns_its_payout :
  forall (user_id : string) (game_id : Z) (bet_type bet_pick : string) (amount : Q)
         (now : Z) (d : db) (payout : Q) (bet_id : option Z) (d1 : db)
         (home_score away_score : Z),
    Wagering.place_bet user_id game_id bet_type bet_pick amount now d
    = ((true, Wagering.BetPlaced payout, bet_id), d1) ->
    betting_keys d -> betting_sequences d ->
    exists game with_bet without_bet,
      Sql.fetchone (Sql.select (Games.has_id game_id) (upcoming_games d)) = Some game
      /\ fetch_user user_id
           (snd (Settlement.simulate_game_result game_id home_score away_score d1))
         = Some with_bet
      /\ fetch_user user_id
           (snd (Settlement.simulate_game_result game_id home_score away_score d))
         = Some without_bet
      /\ (Users.wallet_balance with_bet
          == Users.wallet_balance without_bet - amount
             + (if Settlement.bet_won
                     (Settlement.determine_outcome game home_score away_score)
                     bet_type bet_pick
                then payout else 0))%Q.
Proof.
  intros u g ty pick amount now d payout bet_id d1 hs as_ Hplace Hk Hs.
  destruct (WageringAudit.placed_bet _ _ _ _ _ _ _ _ _ _ Hplace)
    as (r & game' & payout' & Hu & Hin & Hid & [= <-] & Hu1 & Hbets & Hseq & Hgames & Hp & Hl).
  assert (Hk1 : betting_keys d1).
  { destruct Hk as (Kb & Kl & Kp). destruct Hs as (Sb & _).
    unfold betting_keys. rewrite Hbets, Hp, Hl, map_app.
    split; [|auto]. apply (WageringAudit.fresh_key _ _ Kb Sb). }
  destruct (Sql.fetchone (Sql.select (Games.has_id g) (upcoming_games d)))
    as [game|] eqn:Hgame.
  2: { pose proof (SqlFacts.fetchone_select_none _ _ Hgame game' Hin) as E.
       unfold Games.has_id in E. rewrite Hid, Z.eqb_refl in E. discriminate. }
  assert (Hgame1 : Sql.fetchone (Sql.select (Games.has_id g) (upcoming_games d1)) = Some game)
    by (now rewrite Hgames).
  destruct (SettlementFacts.simulate_wallets g hs as_ d1 game u _ Hgame1 Hk1 Hu1)
    as (r1 & Hr1 & Hb1).
  destruct (SettlementFacts.simulate_wallets g hs as_ d game u r Hgame Hk Hu)
    as (r0 & Hr0 & Hb0).
  exists game, r1, r0. split; [reflexivity|]. split; [exact Hr1|]. split; [exact Hr0|].
  rewrite Hb1, Hb0. rewrite Hp, Hl, Hbets. cbn [Users.wallet_balance Users.sub_wallet_balance].
  unfold bet_winnings. rewrite filter_app, map_app, SettlementFacts.Qsum_app.
  cbn [filter]. unfold bet_in_play at 2. cbn [Bets.game_id Bets.status Bets.bet_type
                                                 Bets.bet_pick Bets.user_id].
  rewrite Z.eqb_refl, !String.eqb_refl, andb_true_r. cbn [andb].
  destruct (Settlement.bet_won (Settlement.determine_outcome game hs as_) ty pick);
    unfold Sql.Qsum at 2; cbn; ring.
Qed.

(** A winning bet of 10.00 at odds 1.80 from a wallet of 100.00. *)
Lemma a_bet_costs_its_stake_and_returns_its_payout_witness :
  let d := mkdb [Users.mk "u1" "Ann" (100 # 1) (Some true)] [] 1 [] [] []
                [Games.mk 1 "Dallas Cowboys" "Buffalo Bills" 100 (18 # 10) (21 # 10)
                          (- (7 # 2)) (89 # 2) "scheduled" 0 0]
                [] 1 [] 1 [] 1 in
  let d1 := snd (Wagering.place_bet "u1" 1 "moneyline" "home" (10 # 1) 50 d) in
  exists game with_bet without_bet,
    Sql.fetchone (Sql.select (Games.has_id 1) (upcoming_games d)) = Some game
    /\ fetch_user "u1" (snd (Settlement.simulate_game_result 1 24 20 d1)) = Some with_bet
    /\ fetch_user "u1" (snd (Settlement.simulate_game_result 1 24 20 d)) = Some without_bet
    /\ (Users.wallet_balance with_bet
        == Users.wallet_balance without_bet - (10 # 1)
           + (if Settlement.bet_won (Settlement.determine_outcome game 24 20)
                                    "moneyline" "home"
              then 1800 # 100 else 0))%Q.
Proof.
  intros d d1.
  assert (Hk : betting_keys d) by (repeat split; constructor).
  assert (Hs : betting_sequences d) by (repeat split; constructor).
  exact (a_bet_costs_its_stake_and_returns_its_payout
           "u1" 1 "moneyline" "home" (10 # 1) 50 d (1800 # 100) (Some 1%Z) d1 24 20
           eq_refl Hk Hs).
Defined.

(** X21.  A tie is settled as an away win.  When the two scores are equal,
    a moneyline bet on 'home' loses and a moneyline bet on any other pick
    wins; and whatever the home team, the scores that the simulation can
    draw for its sport include a tie. *)
Theorem a_tie_is_an_away_win :
  (forall (game : Games.row) (score : Z) (bet_pick : string),
      Settlement.bet_won (Settlement.determine_outcome game score score)
                         "moneyline" bet_pick
      = negb (bet_pick =? "home")%string)
  /\ (forall home_team : string,
         exists score,
           Settlement.can_draw (Settlement.detect_sport_from_team home_team) score score
           = true).
Proof.
  split.
  - intros game score pick. unfold Settlement.bet_won, Settlement.determine_outcome.
    cbn. rewrite Z.ltb_irrefl. now destruct (pick =? "home")%string.
  - intros team. unfold Settlement.detect_sport_from_team.
    destruct (existsb _ Settlement.nba_teams); [exists 100%Z; reflexivity|].
    destruct (existsb _ Settlement.mlb_teams); [exists 5%Z; reflexivity|].
    destruct (existsb _ Settlement.nfl_teams); [exists 7%Z; reflexivity|].
    exists 100%Z; reflexivity.
Qed.

End SettlementAudit.

(** ** Age verification *)

Module VerificationAudit.
Import Observe Audit.

(** X22.  The age computed by [verify_user_age] reaches 21 on the
    twenty-first birthday: it is at least 21 exactly when today is on or
    after the day and month of birth in the year of birth plus 21. *)
Theorem twenty_one_on_the_birthday :
  forall today birth_date : Verification.date,
    (21 <= Verification.age_on today birth_date)%Z
    <-> date_le (twenty_first birth_date) today.
Proof.
  intros today b. unfold Verification.age_on, Verification.month_day_lt, date_le,
    twenty_first. cbn [Verification.year Verification.month Verification.day].
  destruct (Z.ltb_spec (Verification.month today) (Verification.month b));
    destruct (Z.eqb_spec (Verification.month today) (Verification.month b));
    destruct (Z.ltb_spec (Verification.day today) (Verification.day b));
    cbn [orb andb]; lia.
Qed.

Lemma verified_user u v d r :
  fetch_user u d = Some r ->
  fetch_user u (with_users (Sql.update (Users.has_id u) (Verification.set_verified v)) d)
  = Some (Verification.set_verified v r).
Proof.
  intros Hu.
  now apply (LedgerAudit.balance_updated u (Verification.set_verified v) d r
               (fun _ => eq_refl) Hu).
Qed.

(** X23.  Age verification decides the betting gate, in both directions.
    For an existing user and a well-formed birthdate, [verify_user_age]
    succeeds exactly when the age is at least 21 and stores that answer,
    overwriting an earlier one, without touching the wallet; afterwards
    [place_bet] refuses every bet of the user for age when the answer is
    no, and never refuses one for age when the answer is yes. *)
Theorem verification_decides_the_betting_gate :
  forall (user_id : string) (birth_date today : Verification.date) (d : db)
         (account : Users.row),
    fetch_user user_id d = Some account ->
    let adult := (21 <=? Verification.age_on today birth_date)%Z in
    let out := Verification.verify_user_age user_id (Some birth_date) today d in
    fst (fst out) = adult
    /\ Wagering.is_user_verified_adult user_id (snd out) = Some adult
    /\ balance user_id (snd out) = balance user_id d
    /\ forall game_id bet_type bet_pick amount now,
         if adult
         then snd (fst (fst (Wagering.place_bet user_id game_id bet_type bet_pick amount
                                                now (snd out))))
              <> Wagering.MustBe21
         else Wagering.place_bet user_id game_id bet_type bet_pick amount now (snd out)
              = ((false, Wagering.MustBe21, None), snd out).
Proof.
  intros u b today d r Hu adult out. subst out. unfold Verification.verify_user_age.
  cbv zeta. fold adult.
  assert (Hgate : forall v d',
             fetch_user u d' = Some (Verification.set_verified v r) ->
             Wagering.is_user_verified_adult u d' = Some v
             /\ balance u d' = balance u d
             /\ forall g ty pick amount now,
                  if v
                  then snd (fst (fst (Wagering.place_bet u g ty pick amount now d')))
                       <> Wagering.MustBe21
                  else Wagering.place_bet u g ty pick amount now d'
                       = ((false, Wagering.MustBe21, None), d')).
  { intros v d' Hu'.
    assert (Hv : Wagering.is_user_verified_adult u d' = Some v)
      by (unfold Wagering.is_user_verified_adult; now rewrite Hu').
    split; [exact Hv|]. split; [unfold balance; now rewrite Hu', Hu|].
    intros g ty pick amount now. unfold Wagering.place_bet. rewrite Hv.
    destruct v; cbn [Wagering.truthy negb]; [|reflexivity].
    destruct (Sql.fetchone (Sql.select (Wagering.open_for_betting g now) (upcoming_games d')));
      [|discriminate].
    rewrite Hu'. cbv zeta.
    destruct (Sql.Qlt_bool _ amount); discriminate. }
  destruct adult; (split; [reflexivity|]); apply Hgate; now apply verified_user.
Qed.

(** A verified user who submits a birthdate that makes them 20. *)
Lemma verification_decides_the_betting_gate_witness :
  let d := mkdb [Users.mk "u1" "Ann" (100 # 1) (Some true)] [] 1 [] [] []
                [Games.mk 1 "Dallas Cowboys" "Buffalo Bills" 100 (18 # 10) (21 # 10)
                          (- (7 # 2)) (89 # 2) "scheduled" 0 0]
                [] 1 [] 1 [] 1 in
  let born := Verification.mk_date 2004 6 15 in
  let today := Verification.mk_date 2025 6 14 in
  let d' := snd (Verification.verify_user_age "u1" (Some born) today d) in
  Wagering.is_user_verified_adult "u1" d' = Some false
  /\ Wagering.place_bet "u1" 1 "moneyline" "home" (10 # 1) 50 d'
     = ((false, Wagering.MustBe21, None), d').
Proof.
  intros d born today d'.
  destruct (verification_decides_the_betting_gate
              "u1" born today d (Users.mk "u1" "Ann" (100 # 1) (Some true)) eq_refl)
    as (_ & Hflag & _ & Hgate).
  split.
  - exact Hflag.
  - exact (Hgate 1%Z "moneyline" "home" (10 # 1) 50%Z).
Defined.

(** X24.  [verify_user_age] does not check that the user exists.  For a
    user id that is not in the table and a birthdate that makes the age at
    least 21, the call reports success, yet it has changed nothing: the
    user is still not a verified adult, and [place_bet] goes on refusing
    the user's bets for age. *)
Theorem verifying_an_unknown_user_reports_success :
  forall (user_id : string) (birth_date today : Verification.date) (d : db),
    fetch_user user_id d = None ->
    (21 <= Verification.age_on today birth_date)%Z ->
    Verification.verify_user_age user_id (Some birth_date) today d
    = ((true, Verification.Verified), d)
    /\ Wagering.is_user_verified_adult user_id d = Some false
    /\ forall game_id bet_type bet_pick amount now,
         Wagering.place_bet user_id game_id bet_type bet_pick amount now d
         = ((false, Wagering.MustBe21, None), d).
Proof.
  intros u b today d Hu Hage. unfold Verification.verify_user_age. cbv zeta.
  apply Z.leb_le in Hage. rewrite Hage.
  assert (Hv : Wagering.is_user_verified_adult u d = Some false)
    by (unfold Wagering.is_user_verified_adult; now rewrite Hu).
  split; [|split; [exact Hv|]].
  - f_equal. unfold with_users. rewrite SqlFacts.update_none; [now destruct d|].
    apply SqlFacts.fetchone_select_none. exact Hu.
  - intros g ty pick amount now. unfold Wagering.place_bet. now rewrite Hv.
Qed.

(** A birthdate of 1990 submitted for a user id that does not exist. *)
Lemma verifying_an_unknown_user_reports_success_witness :
  let d := mkdb [Users.mk "u1" "Ann" (100 # 1) (Some true)] [] 1 [] [] [] [] [] 1 [] 1 [] 1 in
  Verification.verify_user_age "u9" (Some (Verification.mk_date 1990 1 1))
                               (Verification.mk_date 2025 6 14) d
  = ((true, Verification.Verified), d)
  /\ Wagering.is_user_verified_adult "u9" d = Some false.
Proof.
  intros d.
  assert (Hage : (21 <= Verification.age_on (Verification.mk_date 2025 6 14)
                                            (Verification.mk_date 1990 1 1))%Z)
    by (vm_compute; discriminate).
  destruct (verifying_an_unknown_user_reports_success
              "u9" (Verification.mk_date 1990 1 1) (Verification.mk_date 2025 6 14) d
              eq_refl Hage) as (Hok & Hflag & _).
  split; [exact Hok | exact Hflag].
Defined.

End VerificationAudit.

(** ** Friends, competitions and fantasy teams *)

Module SocialAudit.
Import Observe Audit.

Lemma same_pair_between u f i st x :
  same_pair (Friendships.mk i u f st) x <-> Social.between u f x = true.
Proof.
  unfold same_pair, Social.between. cbn.
  rewrite orb_true_iff, !andb_true_iff, !String.eqb_eq. intuition congruence.
Qed.

Lemma friendships_ok_update w st s :
  friendships_ok s -> written st ->
  friendships_ok (Social.with_friendships (Sql.update w (Friendships.set_status st)) s).
Proof.
  intros (Hnd & Hseq & Hst & Hself & Hone) Hw.
  assert (Hids : map Friendships.id
                   (Sql.update w (Friendships.set_status st) (Social.friendships s))
                 = map Friendships.id (Social.friendships s)).
  { unfold Sql.update. rewrite map_map. apply map_ext. intros r. now destruct (w r). }
  unfold friendships_ok. cbn. rewrite Hids.
  split; [exact Hnd|]. split; [exact Hseq|]. split; [|split].
  - apply SqlFacts.Forall_update; [exact Hst|]. intros r _ _ _. exact Hw.
  - apply SqlFacts.Forall_update; [exact Hself|]. intros r _ _ H. exact H.
  - intros r r' Hr Hr' Hpair. unfold Sql.update in Hr, Hr'.
    apply in_map_iff in Hr as (x & <- & Hx). apply in_map_iff in Hr' as (x' & <- & Hx').
    assert (E : x = x').
    { apply Hone; auto. unfold same_pair in *.
      destruct (w x), (w x'); exact Hpair. }
    now subst x'.
Qed.

Lemma friendships_ok_next s :
  friendships_ok s ->
  friendships_ok
    (Social.mk_tables (Social.friendships s) (Social.friendships_seq s + 1)
       (Social.competitions s) (Social.competitions_seq s) (Social.competition_members s)
       (Social.players s) (Social.fantasy_team_players s)).
Proof.
  intros (Hnd & Hseq & Hrest). unfold friendships_ok. cbn.
  split; [exact Hnd|]. split; [|exact Hrest].
  eapply Forall_impl; [|exact Hseq]. cbn. intros; lia.
Qed.

Lemma friendships_ok_insert u f s :
  friendships_ok s -> u <> f ->
  (forall x, In x (Social.friendships s) -> Social.between u f x = false) ->
  friendships_ok
    (Social.mk_tables
       (Sql.insert (Friendships.mk (Social.friendships_seq s) u f "pending")
                   (Social.friendships s))
       (Social.friendships_seq s + 1)
       (Social.competitions s) (Social.competitions_seq s) (Social.competition_members s)
       (Social.players s) (Social.fantasy_team_players s)).
Proof.
  intros (Hnd & Hseq & Hst & Hself & Hone) Hne Hnew.
  destruct (WageringAudit.fresh_key _ _ Hnd Hseq) as [Hnd' Hseq'].
  unfold friendships_ok. cbn. unfold Sql.insert. rewrite map_app.
  split; [exact Hnd'|]. split; [exact Hseq'|]. split; [|split].
  - apply Forall_app. split; [exact Hst|]. constructor; [left; reflexivity | constructor].
  - apply Forall_app. split; [exact Hself|]. constructor; [exact Hne | constructor].
  - intros r r' Hr Hr' Hpair.
    apply in_app_or in Hr as [Hr | [<- | []]]; apply in_app_or in Hr' as [Hr' | [<- | []]].
    + now apply Hone.
    + exfalso. assert (Hb : Social.between u f r = true).
      { apply (same_pair_between u f (Social.friendships_seq s) "pending").
        unfold same_pair in *. cbn in *. intuition congruence. }
      rewrite (Hnew r Hr) in Hb. discriminate.
    + exfalso. apply same_pair_between in Hpair. rewrite (Hnew r' Hr') in Hpair.
      discriminate.
    + reflexivity.
Qed.

(** X25.  The friendships table stays well formed under the two functions
    that write it: when its ids are primary keys, its statuses are among
    'pending', 'accepted' and 'rejected', nobody is a friend of oneself and
    two users share at most one row in either direction, the same holds
    after [send_friend_request] and after [respond_to_friend_request],
    whatever they answer. *)
Theorem friendships_stay_well_formed :
  forall (d : db) (s : Social.tables),
    friendships_ok s ->
    (forall user_id friend_username,
        friendships_ok (snd (Social.send_friend_request user_id friend_username d s)))
    /\ (forall request_id user_id action,
           friendships_ok
             (snd (Social.respond_to_friend_request request_id user_id action d s))).
Proof.
  intros d s Hok. split.
  - intros u name. unfold Social.send_friend_request.
    destruct (Sql.fetchone (Sql.select _ (users d))) as [friend|]; [|exact Hok].
    cbv zeta. destruct (String.eqb_spec u (Users.id friend)) as [|Hne]; [exact Hok|].
    assert (Hinsert : (forall x, In x (Social.friendships s) ->
                                 Social.between u (Users.id friend) x = false) ->
                      friendships_ok
                        (snd (Social.insert_friendship u (Users.id friend) name s))).
    { intros Hnew. unfold Social.insert_friendship.
      destruct (existsb _ (Social.friendships s)); cbn [snd].
      - now apply friendships_ok_next.
      - now apply friendships_ok_insert. }
    destruct (Sql.fetchone (Sql.select (Social.between u (Users.id friend))
                                       (Social.friendships s))) as [x|] eqn:Ex.
    + apply SqlFacts.fetchone_select_some in Ex as [Hin _].
      pose proof Hok as (_ & _ & Hst & _). rewrite Forall_forall in Hst.
      destruct (Hst x Hin) as [E | [E | E]]; rewrite E; cbn; try exact Hok.
      apply friendships_ok_update; [exact Hok | left; reflexivity].
    + apply Hinsert. now apply SqlFacts.fetchone_select_none.
  - intros request_id u action. unfold Social.respond_to_friend_request.
    destruct (Sql.fetchone (Sql.select _ (Social.friendships s))) as [x|]; [|exact Hok].
    cbv zeta.
    destruct (action =? "accept")%string; cbn [snd];
      (apply friendships_ok_update; [exact Hok|]);
      [right; left; reflexivity | right; right; reflexivity].
Qed.

(** A first request between two users. *)
Lemma friendships_stay_well_formed_witness :
  let d := mkdb [Users.mk "u1" "Ann" (100 # 1) (Some true);
                 Users.mk "u2" "Bob" (100 # 1) (Some true)]
                [] 1 [] [] [] [] [] 1 [] 1 [] 1 in
  let s := Social.mk_tables [] 1 [] 1 [] [] [] in
  friendships_ok (snd (Social.send_friend_request "u1" "Bob" d s)).
Proof.
  intros d s.
  assert (Hok : friendships_ok s).
  { unfold friendships_ok. cbn. repeat split; try constructor. intros r r' []. }
  exact (proj1 (friendships_stay_well_formed d s Hok) "u1" "Bob").
Defined.

(** X26.  A friend request is answered once.
    After a response that succeeded, every row with the id of the request
    is 'accepted' when the action was 'accept' and 'rejected' for any other
    action, and every further response to that id, by anybody, is answered
    with "not found or already processed" and changes nothing. *)
Theorem a_friend_request_is_answered_once :
  forall (request_id : Z) (user_id action : string) (d : db) (s : Social.tables)
         (msg : Social.message) (s' : Social.tables),
    Social.respond_to_friend_request request_id user_id action d s = ((true, msg), s') ->
    (forall r, In r (Social.friendships s') -> Friendships.id r = request_id ->
               Friendships.status r
               = if (action =? "accept")%string then "accepted" else "rejected")
    /\ (forall other action',
           Social.respond_to_friend_request request_id other action' d s'
           = ((false, Social.RequestNotFound), s')).
Proof.
  intros request_id u action d s msg s' H.
  unfold Social.respond_to_friend_request in H.
  destruct (Sql.fetchone (Sql.select _ (Social.friendships s))) as [x|]; [|discriminate].
  cbv zeta in H.
  set (st := if (action =? "accept")%string then "accepted" else "rejected") in *.
  assert (Hs' : Social.friendships s'
                = Sql.update (Friendships.has_id request_id) (Friendships.set_status st)
                             (Social.friendships s)).
  { destruct (action =? "accept")%string; injection H as _ <-; reflexivity. }
  assert (Hrows : forall r, In r (Social.friendships s') -> Friendships.id r = request_id ->
                            Friendships.status r = st).
  { intros r Hr Hid. rewrite Hs' in Hr. unfold Sql.update in Hr.
    apply in_map_iff in Hr as (y & <- & _).
    destruct (Friendships.has_id request_id y) eqn:E; [reflexivity|].
    unfold Friendships.has_id in E. apply Z.eqb_neq in E. contradiction. }
  split; [exact Hrows|].
  intros v action'. unfold Social.respond_to_friend_request.
  rewrite SqlFacts.select_none; [reflexivity|].
  intros r Hr. unfold Social.is_request_for, Friendships.has_id.
  destruct (Z.eqb_spec (Friendships.id r) request_id) as [Hid|]; [|reflexivity].
  rewrite (Hrows r Hr Hid). unfold st.
  destruct (action =? "accept")%string; now rewrite andb_false_r.
Qed.

(** A request accepted, then answered again by its sender. *)
Lemma a_friend_request_is_answered_once_witness :
  let d := mkdb [Users.mk "u1" "Ann" (100 # 1) (Some true);
                 Users.mk "u2" "Bob" (100 # 1) (Some true)]
                [] 1 [] [] [] [] [] 1 [] 1 [] 1 in
  let s := Social.mk_tables [Friendships.mk 1 "u1" "u2" "pending"] 2 [] 1 [] [] [] in
  let s' := snd (Social.respond_to_friend_request 1 "u2" "accept" d s) in
  Social.friendships s' = [Friendships.mk 1 "u1" "u2" "accepted"]
  /\ Social.respond_to_friend_request 1 "u1" "reject" d s'
     = ((false, Social.RequestNotFound), s').
Proof.
  intros d s s'.
  destruct (a_friend_request_is_answered_once 1 "u2" "accept" d s (Social.NowFriends "Ann") s'
              eq_refl) as [_ Hagain].
  split; [reflexivity | exact (Hagain "u1" "reject")].
Defined.

Lemma fetchone_select_exists {row : Type} (w : row -> bool) t r :
  In r t -> w r = true -> exists r', Sql.fetchone (Sql.select w t) = Some r'.
Proof.
  intros Hin Hw. destruct (Sql.fetchone (Sql.select w t)) as [r'|] eqn:E; [eauto|].
  rewrite (SqlFacts.fetchone_select_none _ _ E r Hin) in Hw. discriminate.
Qed.

(** X27.  Sending a request over a rejected one revives the old row in its
    old direction.  When a user has rejected a request and then sends one
    to its requester, the call succeeds by setting the rejected row back to
    'pending'; the row still names the new sender as its addressee, so
    that the new sender is the one who can accept it, and the user it was
    sent to cannot answer it. *)
Theorem a_resent_request_keeps_its_direction :
  forall (d : db) (s : Social.tables) (x : Friendships.row) (requester : Users.row),
    friendships_ok s ->
    In x (Social.friendships s) ->
    Friendships.status x = "rejected" ->
    Sql.fetchone (Sql.select (fun u => (Users.username u =? Users.username requester)%string)
                             (users d)) = Some requester ->
    Users.id requester = Friendships.user_id x ->
    let sender := Friendships.friend_id x in
    let out := Social.send_friend_request sender (Users.username requester) d s in
    fst out = (true, Social.RequestSent (Users.username requester))
    /\ In (Friendships.set_status "pending" x) (Social.friendships (snd out))
    /\ (exists msg s'',
           Social.respond_to_friend_request (Friendships.id x) sender "accept" d (snd out)
           = ((true, msg), s''))
    /\ Social.respond_to_friend_request (Friendships.id x) (Friendships.user_id x) "accept" d
                                        (snd out)
       = ((false, Social.RequestNotFound), snd out).
Proof.
  intros d s x ua Hok Hx Hst Hua Hid sender out. subst out sender.
  pose proof Hok as (Hnd & _ & _ & Hself & Hone).
  assert (Hne : Friendships.user_id x <> Friendships.friend_id x)
    by (rewrite Forall_forall in Hself; auto).
  unfold Social.send_friend_request. rewrite Hua. cbv zeta. rewrite Hid.
  destruct (String.eqb_spec (Friendships.friend_id x) (Friendships.user_id x)) as [E|_];
    [congruence|].
  assert (Hbetween : Social.between (Friendships.friend_id x) (Friendships.user_id x) x = true).
  { unfold Social.between. rewrite !String.eqb_refl. apply orb_true_r. }
  assert (Hfound : Sql.fetchone
                     (Sql.select (Social.between (Friendships.friend_id x)
                                                 (Friendships.user_id x))
                                 (Social.friendships s)) = Some x).
  { destruct (fetchone_select_exists _ _ x Hx Hbetween) as [y Hy]. rewrite Hy. f_equal.
    apply SqlFacts.fetchone_select_some in Hy as [Hy Hb]. apply Hone; auto.
    apply (same_pair_between _ _ 0%Z "") in Hb. unfold same_pair in *. cbn in Hb.
    intuition congruence. }
  rewrite Hfound. cbv zeta. rewrite Hst.
  change ("rejected" =? "accepted")%string with false.
  change ("rejected" =? "pending")%string with false.
  change ("rejected" =? "rejected")%string with true. cbv iota. cbn [fst snd].
  set (s' := Social.with_friendships _ s).
  assert (Hx' : In (Friendships.set_status "pending" x) (Social.friendships s')).
  { unfold s'. cbn. unfold Sql.update. apply in_map_iff. exists x. split; [|exact Hx].
    unfold Friendships.has_id. now rewrite Z.eqb_refl. }
  split; [reflexivity|]. split; [exact Hx'|]. split.
  - unfold Social.respond_to_friend_request.
    destruct (fetchone_select_exists
                (Social.is_request_for (Friendships.id x) (Friendships.friend_id x))
                _ _ Hx') as [y ->].
    { unfold Social.is_request_for, Friendships.has_id. cbn.
      now rewrite Z.eqb_refl, String.eqb_refl. }
    cbv zeta. change ("accept" =? "accept")%string with true. cbv iota. eauto.
  - unfold Social.respond_to_friend_request.
    rewrite SqlFacts.select_none; [reflexivity|].
    intros y' Hy'. unfold s' in Hy'. cbn in Hy'. unfold Sql.update in Hy'.
    apply in_map_iff in Hy' as (y & <- & Hy).
    unfold Social.is_request_for.
    destruct (Friendships.has_id (Friendships.id x) y) eqn:Ey.
    + unfold Friendships.has_id in *. cbn. rewrite Ey. apply Z.eqb_eq in Ey.
      assert (y = x) as -> by (apply (LedgerFacts.keyed_row_unique Friendships.id
                                        (Social.friendships s)); auto).
      destruct (String.eqb_spec (Friendships.friend_id x) (Friendships.user_id x));
        [congruence | reflexivity].
    + now rewrite Ey.
Qed.

(** Bob has rejected Ann's request and then sends one to Ann. *)
Lemma a_resent_request_keeps_its_direction_witness :
  let d := mkdb [Users.mk "u1" "Ann" (100 # 1) (Some true);
                 Users.mk "u2" "Bob" (100 # 1) (Some true)]
                [] 1 [] [] [] [] [] 1 [] 1 [] 1 in
  let x := Friendships.mk 1 "u1" "u2" "rejected" in
  let s := Social.mk_tables [x] 2 [] 1 [] [] [] in
  let out := Social.send_friend_request "u2" "Ann" d s in
  fst out = (true, Social.RequestSent "Ann")
  /\ (exists msg s'',
         Social.respond_to_friend_request 1 "u2" "accept" d (snd out) = ((true, msg), s''))
  /\ Social.respond_to_friend_request 1 "u1" "accept" d (snd out)
     = ((false, Social.RequestNotFound), snd out).
Proof.
  intros d x s out.
  assert (Hok : friendships_ok s).
  { unfold friendships_ok. cbn. split; [|split; [|split; [|split]]].
    - constructor; [simpl; tauto | constructor].
    - constructor; [reflexivity | constructor].
    - constructor; [right; right; reflexivity | constructor].
    - constructor; [discriminate | constructor].
    - intros r r' [<- | []] [<- | []] _. reflexivity. }
  destruct (a_resent_request_keeps_its_direction
              d s x (Users.mk "u1" "Ann" (100 # 1) (Some true)) Hok
              (or_introl eq_refl) eq_refl eq_refl eq_refl)
    as (Hsent & _ & Hself & Hother).
  split; [exact Hsent|]. split; [exact Hself | exact Hother].
Defined.

(** *** Competitions and fantasy teams *)

Lemma fresh_pair {A : Type} (key : A -> Z * string) (l : list A) (k : Z * string) :
  NoDup (map key l) -> (forall x, In x l -> key x <> k) -> NoDup (map key l ++ [k]).
Proof.
  intros Hnd Hnew. apply NoDup_app; auto.
  - constructor; [simpl; tauto | constructor].
  - intros i Hi [<- | []]. apply in_map_iff in Hi as (x & Hx & Hin).
    exact (Hnew x Hin Hx).
Qed.

Lemma not_a_member cid u members :
  Sql.fetchone (Sql.select (Social.is_member cid u) members) = None ->
  forall m, In m members -> member_key m <> (cid, u).
Proof.
  intros H m Hm E. pose proof (SqlFacts.fetchone_select_none _ _ H m Hm) as Hno.
  unfold Social.is_member, member_key in *. injection E as E1 E2.
  rewrite E1, E2, Z.eqb_refl, String.eqb_refl in Hno. discriminate.
Qed.

(** X28.  Nobody is twice a member of a competition.  Starting from a
    members table without duplicates, [join_competition] and
    [create_competition] leave it without duplicates; a user who has
    joined a competition is refused as already a member when joining it
    again; and so is the creator of a competition, whom
    [create_competition] has made its first member. *)
Theorem nobody_joins_a_competition_twice :
  forall s : Social.tables,
    competitions_ok s ->
    (forall user_id competition_id,
        competitions_ok (snd (Social.join_competition user_id competition_id s)))
    /\ (forall user_id competition_id msg s',
           Social.join_competition user_id competition_id s = ((true, msg), s') ->
           exists name,
             Social.join_competition user_id competition_id s'
             = ((false, Social.AlreadyMember name), s'))
    /\ (forall user_id name,
           let created := snd (Social.create_competition user_id name s) in
           competitions_ok created
           /\ Social.join_competition user_id (Social.competitions_seq s) created
              = ((false, Social.AlreadyMember name), created)).
Proof.
  intros s (Hnd & Hc & Hm). split; [|split].
  - intros u cid. unfold Social.join_competition.
    destruct (Sql.fetchone (Sql.select _ (Social.competitions s))) as [c|] eqn:Ec;
      [|repeat split; assumption].
    cbv zeta.
    destruct (negb (Competitions.status c =? "active")%string); [repeat split; assumption|].
    destruct (Sql.fetchone (Sql.select (Social.is_member cid u)
                                       (Social.competition_members s))) as [m|] eqn:Em;
      [repeat split; assumption|].
    apply SqlFacts.fetchone_select_some in Ec as [Hin Hid]. apply Z.eqb_eq in Hid.
    pose proof (proj1 (Forall_forall _ _) Hc c Hin) as Hcid. cbn in Hcid.
    unfold competitions_ok. cbn. unfold Sql.insert. rewrite map_app.
    split; [|split].
    + apply fresh_pair; [exact Hnd | now apply not_a_member].
    + exact Hc.
    + apply Forall_app. split; [exact Hm|]. constructor; [cbn; lia | constructor].
  - intros u cid msg s' H. unfold Social.join_competition in *.
    destruct (Sql.fetchone (Sql.select _ (Social.competitions s))) as [c|] eqn:Ec;
      [|discriminate].
    cbv zeta in H.
    destruct (negb (Competitions.status c =? "active")%string) eqn:Ea; [discriminate|].
    destruct (Sql.fetchone (Sql.select (Social.is_member cid u)
                                       (Social.competition_members s))); [discriminate|].
    injection H as _ <-. cbn [Social.competitions Social.with_competition_members
                                Social.competition_members].
    rewrite Ec. cbv zeta. rewrite Ea.
    destruct (fetchone_select_exists (Social.is_member cid u)
                (Sql.insert (CompetitionMembers.mk cid u) (Social.competition_members s))
                (CompetitionMembers.mk cid u)) as [m ->].
    + unfold Sql.insert. apply in_or_app. right. now left.
    + unfold Social.is_member. cbn. now rewrite Z.eqb_refl, String.eqb_refl.
    + eauto.
  - intros u name created. subst created. unfold Social.create_competition. cbn [snd].
    split.
    + unfold competitions_ok. cbn. unfold Sql.insert. rewrite map_app.
      split; [|split].
      * apply fresh_pair; [exact Hnd|]. intros m Hin E.
        rewrite Forall_forall in Hm. specialize (Hm m Hin).
        unfold member_key in E. injection E as E _. lia.
      * apply Forall_app. split.
        -- eapply Forall_impl; [|exact Hc]. cbn. intros; lia.
        -- constructor; [cbn; lia | constructor].
      * apply Forall_app. split.
        -- eapply Forall_impl; [|exact Hm]. cbn. intros; lia.
        -- constructor; [cbn; lia | constructor].
    + unfold Social.join_competition. cbn [Social.competitions Social.competition_members].
      rewrite SqlFacts.select_insert, SqlFacts.select_none.
      2: { intros c Hin. rewrite Forall_forall in Hc. specialize (Hc c Hin).
           apply Z.eqb_neq. lia. }
      cbn [Competitions.id]. rewrite Z.eqb_refl. cbn.
      destruct (fetchone_select_exists (Social.is_member (Social.competitions_seq s) u)
                  (Sql.insert (CompetitionMembers.mk (Social.competitions_seq s) u)
                              (Social.competition_members s))
                  (CompetitionMembers.mk (Social.competitions_seq s) u)) as [m ->].
      * unfold Sql.insert. apply in_or_app. right. now left.
      * unfold Social.is_member. cbn. now rewrite Z.eqb_refl, String.eqb_refl.
      * reflexivity.
Qed.

(** A competition created by one user and joined by another. *)
Lemma nobody_joins_a_competition_twice_witness :
  let s := Social.mk_tables [] 1 [] 1 [] [] [] in
  let created := snd (Social.create_competition "u1" "Spring Cup" s) in
  competitions_ok created
  /\ Social.join_competition "u1" 1 created
     = ((false, Social.AlreadyMember "Spring Cup"), created)
  /\ competitions_ok (snd (Social.join_competition "u2" 1 created)).
Proof.
  intros s created.
  assert (Hok : competitions_ok s) by (repeat split; constructor).
  destruct (nobody_joins_a_competition_twice s Hok) as (_ & _ & Hcreate).
  destruct (Hcreate "u1" "Spring Cup") as [Hok' Hagain].
  split; [exact Hok'|]. split; [exact Hagain|].
  exact (proj1 (nobody_joins_a_competition_twice created Hok') "u2" 1%Z).
Defined.

(** X29.  A fantasy team lists a player at most once, and only players of
    the [players] table.  Starting from a table of team players without
    duplicates, [add_player_to_fantasy_team] leaves it without duplicates;
    when it succeeds the player is in [players] and is on the team
    afterwards, and adding the same player to the same team again is
    refused. *)
Theorem a_player_is_added_to_a_team_once :
  forall (team_id : Z) (player_name : string) (s : Social.tables),
    NoDup (map team_key (Social.fantasy_team_players s)) ->
    let out := Social.add_player_to_fantasy_team team_id player_name s in
    NoDup (map team_key (Social.fantasy_team_players (snd out)))
    /\ (fst (fst out) = true ->
        In player_name (Social.players s)
        /\ In (FantasyTeamPlayers.mk team_id player_name)
              (Social.fantasy_team_players (snd out))
        /\ Social.add_player_to_fantasy_team team_id player_name (snd out)
           = ((false, Social.AlreadyOnTeam player_name), snd out)).
Proof.
  intros team name s Hnd out. subst out. unfold Social.add_player_to_fantasy_team.
  destruct (Sql.fetchone (Sql.select (fun n => (n =? name)%string) (Social.players s)))
    as [n|] eqn:En; [|split; [exact Hnd | discriminate]].
  destruct (Sql.fetchone (Sql.select (Social.is_on_team team name)
                                     (Social.fantasy_team_players s))) as [r|] eqn:Er;
    [split; [exact Hnd | discriminate]|].
  cbn [fst snd Social.fantasy_team_players Social.players]. split.
  - unfold Sql.insert. rewrite map_app. apply fresh_pair; [exact Hnd|].
    intros x Hx E. pose proof (SqlFacts.fetchone_select_none _ _ Er x Hx) as Hno.
    unfold Social.is_on_team, team_key in *. injection E as E1 E2.
    rewrite E1, E2, Z.eqb_refl, String.eqb_refl in Hno. discriminate.
  - intros _. rewrite En.
    apply SqlFacts.fetchone_select_some in En as [Hin Hn]. apply String.eqb_eq in Hn.
    subst n. split; [exact Hin|].
    assert (Hnew : In (FantasyTeamPlayers.mk team name)
                      (Sql.insert (FantasyTeamPlayers.mk team name)
                                  (Social.fantasy_team_players s)))
      by (unfold Sql.insert; apply in_or_app; right; now left).
    split; [exact Hnew|].
    destruct (fetchone_select_exists (Social.is_on_team team name) _ _ Hnew) as [r ->].
    + unfold Social.is_on_team. cbn. now rewrite Z.eqb_refl, String.eqb_refl.
    + reflexivity.
Qed.

(** A player added to an empty team, then added again. *)
Lemma a_player_is_added_to_a_team_once_witness :
  let s := Social.mk_tables [] 1 [] 1 [] ["Josh Allen"] [] in
  let out := Social.add_player_to_fantasy_team 3 "Josh Allen" s in
  In (FantasyTeamPlayers.mk 3 "Josh Allen") (Social.fantasy_team_players (snd out))
  /\ Social.add_player_to_fantasy_team 3 "Josh Allen" (snd out)
     = ((false, Social.AlreadyOnTeam "Josh Allen"), snd out).
Proof.
  intros s out.
  destruct (a_player_is_added_to_a_team_once 3 "Josh Allen" s (NoDup_nil _))
    as [_ Hadded].
  destruct (Hadded eq_refl) as (_ & Hin & Hagain).
  split; [exact Hin | exact Hagain].
Defined.

End SocialAudit.
